(** * finlib: double-entry accounting core

    A shallow embedding of the transaction engine
    ([pkg/transaction]), the in-memory versioned store
    ([pkg/storage/memory]), the balance calculator and the report
    generator ([pkg/reporting]), the statement generator
    ([pkg/reporting/statements]), money arithmetic ([pkg/money]) and the
    validation engine ([pkg/validation]), followed by the properties
    established about them. *)

From Stdlib Require Import ZArith QArith Qpower Qabs Lia Lqa String List DecimalString.
From stdpp Require Import base option list gmap strings.

Local Open Scope string_scope.
Local Open Scope Z_scope.

(** ** shopspring/decimal

    [decimal.Decimal] is the external arbitrary-precision decimal the
    library computes with: a big integer [value] and a power-of-ten
    exponent [exp], denoting [value * 10 ^ exp].  Only the operations the
    accounting code calls are embedded; the exponent, an [int32] in the
    library, is an unbounded integer here. *)
Module decimal.

Record Decimal := mkDecimal { value : Z; exp : Z }.

(** The Go zero value [Decimal{}] (nil [value], read as 0, exponent 0). *)
Definition zeroValue : Decimal := mkDecimal 0 0.

(** [decimal.Zero = New(0, 1)]. *)
Definition Zero : Decimal := mkDecimal 0 1.

(** [decimal.NewFromInt]. *)
Definition NewFromInt (n : Z) : Decimal := mkDecimal n 0.

(** [rescale]: the coefficient of [d] once its exponent is lowered to
    [e]; callers only ever lower it (to the smaller exponent of a pair). *)
Definition rescale (d : Decimal) (e : Z) : Z := value d * 10 ^ (exp d - e).

Definition Add (d d2 : Decimal) : Decimal :=
  let e := Z.min (exp d) (exp d2) in
  mkDecimal (rescale d e + rescale d2 e) e.

Definition Sub (d d2 : Decimal) : Decimal :=
  let e := Z.min (exp d) (exp d2) in
  mkDecimal (rescale d e - rescale d2 e) e.

(** [Cmp]: comparison of the coefficients at the common exponent. *)
Definition Cmp (d d2 : Decimal) : comparison :=
  let e := Z.min (exp d) (exp d2) in
  Z.compare (rescale d e) (rescale d2 e).

Definition Equal (d d2 : Decimal) : bool :=
  match Cmp d d2 with Eq => true | _ => false end.

Definition Sign (d : Decimal) : Z := Z.sgn (value d).
Definition IsZero (d : Decimal) : bool := Z.eqb (Sign d) 0.
Definition IsNegative (d : Decimal) : bool := Z.eqb (Sign d) (-1).
Definition IsPositive (d : Decimal) : bool := Z.eqb (Sign d) 1.

(** [Mul]: coefficients multiply, exponents add. *)
Definition Mul (d d2 : Decimal) : Decimal :=
  mkDecimal (value d * value d2) (exp d + exp d2).

(** [Abs]: a decimal that is not negative is returned as it is. *)
Definition Abs (d : Decimal) : Decimal :=
  if negb (IsNegative d) then d else mkDecimal (Z.abs (value d)) (exp d).

(** The rational number a decimal denotes. *)
Definition dval (d : Decimal) : Q := (inject_Z (value d) * (10 # 1) ^ exp d)%Q.

End decimal.

(** ** Shared conventions

    [time.Time] is a count of nanoseconds; [time.Now()] is read from a
    clock oracle, [clk k] being the answer to the [k]-th call an operation
    makes.  [%d] formatting is decimal. *)
Definition Time := Z.
Definition Clock := nat -> Time.
Definition tick (clk : Clock) : Clock := fun k => clk (S k).

Definition itoa (n : Z) : string := NilZero.string_of_int (Z.to_int n).

(** A call either returns or panics (index out of range). *)
Inductive outcome (A : Type) :=
| Returned (a : A)
| Panicked (msg : string).
Arguments Returned {A} a.
Arguments Panicked {A} msg.

(** ** pkg/money *)
Module money.

Record Money := mkMoney { Amount : decimal.Decimal; Currency : string }.

(** The Go zero value [Money{}]. *)
Definition zeroValue : Money := mkMoney decimal.zeroValue "".

Definition IsZero (m : Money) : bool := decimal.IsZero (Amount m).
Definition IsNegative (m : Money) : bool := decimal.IsNegative (Amount m).
Definition IsPositive (m : Money) : bool := decimal.IsPositive (Amount m).

End money.

(** ** pkg/account *)
Module account.

Inductive AccountType := Asset | Liability | Equity | Revenue | Expense.

Inductive AccountStatus := Active | Inactive | Closed | Frozen.

(** [MetaData] is never read by the embedded code and is left out; the
    field [Type] is spelled [Type_]. *)
Record Account := mkAccount {
  ID : string;
  Code : string;
  Name : string;
  Type_ : AccountType;
  Status : AccountStatus;
  ParentID : option string;
  Created : Time;
  LastModified : Time;
  Balance : option money.Money
}.

End account.

(** ** pkg/transaction/transaction.go

    The string-typed enumerations ([TransactionType],
    [TransactionStatus]) are inductive types whose constructors are the
    declared constants.  [EntryType] is a string type that nothing
    validates, and the code tells its values apart in two ways ([==
    Debit] with an [else], and a [switch] without default): besides the
    two declared constants it has [Other s], standing for a string [s]
    that is neither of them. *)
Module transaction.
Import money.

Inductive EntryType := Debit | Credit | Other (name : string).

(** [EntryType(s)], the conversion of a string. *)
Definition entryType (s : string) : EntryType :=
  if String.eqb s "DEBIT" then Debit
  else if String.eqb s "CREDIT" then Credit
  else Other s.

Definition Reverse (e : EntryType) : EntryType :=
  match e with
  | Debit => Credit
  | _ => Debit
  end.

Inductive TransactionType := Journal | Transfer | Reversal.

Inductive TransactionStatus := Draft | Pending | Posted | Voided.

#[global] Instance EntryType_eq_dec : EqDecision EntryType.
Proof. solve_decision. Defined.

#[global] Instance TransactionStatus_eq_dec : EqDecision TransactionStatus.
Proof. solve_decision. Defined.

Record Entry := mkEntry {
  Entry_AccountID : string;
  Entry_Amount : Money;
  Entry_Type : EntryType;
  Entry_Description : string
}.

Record Transaction := mkTransaction {
  ID : string;
  Type_ : TransactionType;
  Status : TransactionStatus;
  Date : Time;
  Description : string;
  Entries : list Entry;
  CreatedBy : string;
  Created : Time;
  LastModified : Time;
  PostedAt : option Time;
  VoidedAt : option Time;
  VoidReason : string;
  ReversedAt : option Time;
  ReversalID : string;
  ReversedFrom : string
}.

(** [Details] is a [map[string]interface{}]; the only values ever stored
    in it are the two running totals. *)
Record ValidationError := mkValidationError {
  Code : string;
  Message : string;
  Field : string;
  Details : list (string * Money)
}.

Record ValidationResult := mkValidationResult {
  Valid : bool;
  Errors : list ValidationError;
  Warnings : list ValidationError
}.

Record TransactionSummary := mkTransactionSummary {
  TotalDebits : Money;
  TotalCredits : Money;
  NetAmount : Money;
  EntryCount : nat;
  AffectedAccounts : list string
}.

(** The sum of the amounts of the entries on [side], as a rational. *)
Definition sideTotal (side : EntryType) (entries : list Entry) : Q :=
  fold_right Qplus 0%Q
    (map (fun e => decimal.dval (Amount (Entry_Amount e)))
       (filter (fun e => Entry_Type e = side) entries)).

(** The sum of the amounts of the entries that are not debits: the
    credits and the entries of any other type. *)
Definition nonDebitTotal (entries : list Entry) : Q :=
  fold_right Qplus 0%Q
    (map (fun e => decimal.dval (Amount (Entry_Amount e)))
       (filter (fun e => Entry_Type e <> Debit) entries)).

(** An entry whose side is one of the two declared constants. *)
Definition sided (e : Entry) : Prop :=
  Entry_Type e = Debit \/ Entry_Type e = Credit.

End transaction.

(** ** Error values

    The [error] values the embedded code builds: plain messages
    ([fmt.Errorf] without verbs), wrapped errors ([msg: %w]), the
    validation failure that prints the error list ([msg: %v]) and the
    store's typed lock error. *)
Inductive error :=
| errorString (msg : string)
| wrapError (msg : string) (err : error)
| validationFailed (msg : string) (errs : list transaction.ValidationError)
| OptimisticLockError (EntityType EntityID : string)
    (CurrentVersion ExpectedVersion : Z).

Inductive result (A : Type) :=
| Ok (a : A)
| Err (e : error).
Arguments Ok {A} a.
Arguments Err {A} e.

(** ** pkg/money: operations on [Money] *)
Module money_ops.
Import money.

Definition ErrMismatchedCurrencies : error := errorString "mismatched currencies".
Definition ErrInvalidAmount : error := errorString "invalid amount".
Definition ErrDivisionByZero : error := errorString "division by zero".

Definition Add (m other : Money) : result Money :=
  if negb (String.eqb (Currency m) (Currency other))
  then Err ErrMismatchedCurrencies
  else Ok (mkMoney (decimal.Add (Amount m) (Amount other)) (Currency m)).

Definition Subtract (m other : Money) : result Money :=
  if negb (String.eqb (Currency m) (Currency other))
  then Err ErrMismatchedCurrencies
  else Ok (mkMoney (decimal.Sub (Amount m) (Amount other)) (Currency m)).

Definition Multiply (m : Money) (factor : decimal.Decimal) : Money :=
  mkMoney (decimal.Mul (Amount m) factor) (Currency m).

Definition Abs (m : Money) : Money :=
  mkMoney (decimal.Abs (Amount m)) (Currency m).

Definition Equal (m other : Money) : bool :=
  String.eqb (Currency m) (Currency other) &&
  decimal.Equal (Amount m) (Amount other).

End money_ops.

(** ** pkg/transaction/processor.go *)
Module processor.
Import money transaction.

Definition ErrCodeInvalidStatus := "INVALID_STATUS".
Definition ErrCodeUnbalanced := "UNBALANCED_TRANSACTION".
Definition ErrCodeInsufficientEntries := "INSUFFICIENT_ENTRIES".
Definition ErrCodeMixedCurrencies := "MIXED_CURRENCIES".
Definition ErrCodeInvalidAmount := "INVALID_AMOUNT".
Definition ErrCodeDuplicateAccount := "DUPLICATE_ACCOUNT".

(** [result.Valid = false; result.Errors = append(result.Errors, e)]. *)
Definition addError (r : ValidationResult) (e : ValidationError) : ValidationResult :=
  mkValidationResult false (Errors r ++ [e]) (Warnings r).

Definition entryField (i : nat) (suffix : string) : string :=
  "Entries[" ++ itoa (Z.of_nat i) ++ "]." ++ suffix.

(** The local variables of [BasicValidator.Validate] that live across
    iterations of its loop over the entries. *)
Record validateState := mkValidateState {
  vResult : ValidationResult;
  totalDebits : Money;
  totalCredits : Money;
  seenAccounts : gset string;
  currency : string
}.

(** One iteration of the loop, for the entry at index [i]. *)
Definition validateEntry (i : nat) (entry : Entry) (st : validateState) : validateState :=
  let r := vResult st in
  let r := if money.IsZero (Entry_Amount entry)
           then addError r (mkValidationError ErrCodeInvalidAmount
                  "Entry amount cannot be zero" (entryField i "Amount") [])
           else r in
  let r := if money.IsNegative (Entry_Amount entry)
           then addError r (mkValidationError ErrCodeInvalidAmount
                  "Entry amount cannot be negative" (entryField i "Amount") [])
           else r in
  let '(r, cur, debits, credits) :=
    match i with
    | O => (r, Currency (Entry_Amount entry), Entry_Amount entry, Entry_Amount entry)
    | S _ =>
        if negb (String.eqb (Currency (Entry_Amount entry)) (currency st))
        then (addError r (mkValidationError ErrCodeMixedCurrencies
                "All entries must use the same currency"
                (entryField i "Amount.Currency") []),
              currency st, totalDebits st, totalCredits st)
        else (r, currency st, totalDebits st, totalCredits st)
    end in
  let r := if bool_decide (Entry_AccountID entry ∈ seenAccounts st)
           then addError r (mkValidationError ErrCodeDuplicateAccount
                  "Account used multiple times in transaction"
                  (entryField i "AccountID") [])
           else r in
  let seen := {[ Entry_AccountID entry ]} ∪ seenAccounts st in
  match Entry_Type entry with
  | Debit =>
      mkValidateState r
        (mkMoney (decimal.Add (Amount debits) (Amount (Entry_Amount entry))) cur)
        credits seen cur
  | _ =>
      mkValidateState r debits
        (mkMoney (decimal.Add (Amount credits) (Amount (Entry_Amount entry))) cur)
        seen cur
  end.

(** [for i, entry := range tx.Entries], from index [i] on. *)
Fixpoint validateEntries (i : nat) (entries : list Entry) (st : validateState)
  : validateState :=
  match entries with
  | [] => st
  | entry :: rest => validateEntries (S i) rest (validateEntry i entry st)
  end.

(** [BasicValidator.Validate]; its [error] result is always [nil]. *)
Definition Validate (tx : Transaction) : ValidationResult * option error :=
  let r := mkValidationResult true [] [] in
  let r := if (length (Entries tx) <? 2)%nat
           then addError r (mkValidationError ErrCodeInsufficientEntries
                  "Transaction must have at least two entries" "" [])
           else r in
  let st := validateEntries 0 (Entries tx)
              (mkValidateState r money.zeroValue money.zeroValue ∅ "") in
  let r := vResult st in
  let r := if negb (decimal.Equal (Amount (totalDebits st)) (Amount (totalCredits st)))
           then addError r (mkValidationError ErrCodeUnbalanced
                  "Total debits must equal total credits" ""
                  [("totalDebits", totalDebits st); ("totalCredits", totalCredits st)])
           else r in
  (r, None).

(** [storage.Repository], as the processor uses it: the state of the
    store is threaded through the calls. *)
Class Repository (Store : Type) := {
  repoRead : Store -> string -> result Transaction;
  repoUpdate : Store -> Transaction -> Store * option error
}.

Definition canProcess (st : TransactionStatus) : bool :=
  match st with
  | Draft | Pending => true
  | _ => false
  end.

(** [tx.Status = Posted; tx.PostedAt = &now; tx.LastModified = now]. *)
Definition markPosted (now : Time) (tx : Transaction) : Transaction :=
  mkTransaction (ID tx) (Type_ tx) Posted (Date tx) (Description tx) (Entries tx)
    (CreatedBy tx) (Created tx) now (Some now) (VoidedAt tx) (VoidReason tx)
    (ReversedAt tx) (ReversalID tx) (ReversedFrom tx).

(** [rtx.Status = Draft; rtx.PostedAt = nil; rtx.LastModified = time.Now()]. *)
Definition markDraft (now : Time) (tx : Transaction) : Transaction :=
  mkTransaction (ID tx) (Type_ tx) Draft (Date tx) (Description tx) (Entries tx)
    (CreatedBy tx) (Created tx) now None (VoidedAt tx) (VoidReason tx)
    (ReversedAt tx) (ReversalID tx) (ReversedFrom tx).

Definition markVoided (now : Time) (reason : string) (tx : Transaction) : Transaction :=
  mkTransaction (ID tx) (Type_ tx) Voided (Date tx) (Description tx) (Entries tx)
    (CreatedBy tx) (Created tx) now (PostedAt tx) (Some now) reason
    (ReversedAt tx) (ReversalID tx) (ReversedFrom tx).

Definition markReversed (now : Time) (reversalID : string) (tx : Transaction) : Transaction :=
  mkTransaction (ID tx) (Type_ tx) (Status tx) (Date tx) (Description tx) (Entries tx)
    (CreatedBy tx) (Created tx) now (PostedAt tx) (VoidedAt tx) (VoidReason tx)
    (Some now) reversalID (ReversedFrom tx).

Section Processor.
Context {Store : Type} `{Repository Store}.

Definition ValidateTransaction (tx : Transaction) : ValidationResult * option error :=
  Validate tx.

(** [ProcessTransaction]: the transaction object behind the pointer as
    the call leaves it, the store, and the returned error.  Here and in
    the batch the objects behind distinct pointers are distinct values. *)
Definition ProcessTransaction (clk : Clock) (s : Store) (tx : Transaction)
  : Transaction * Store * option error :=
  let '(res, err) := ValidateTransaction tx in
  match err with
  | Some e => (tx, s, Some (wrapError "failed to validate transaction" e))
  | None =>
      if negb (Valid res)
      then (tx, s, Some (validationFailed "transaction validation failed" (Errors res)))
      else if negb (canProcess (Status tx))
      then (tx, s, Some (errorString
                           "transaction must be in Draft or Pending status to process"))
      else
        let now := clk 0%nat in
        let tx := markPosted now tx in
        let '(s, err) := repoUpdate s tx in
        match err with
        | Some e => (tx, s, Some (wrapError "failed to store transaction" e))
        | None => (tx, s, None)
        end
  end.

(** Phase 1 of the batch: the first failure, if any. *)
Fixpoint preValidate (txs : list Transaction) : option error :=
  match txs with
  | [] => None
  | tx :: rest =>
      let '(res, err) := ValidateTransaction tx in
      match err with
      | Some e => Some (wrapError ("failed to validate transaction " ++ ID tx) e)
      | None =>
          if negb (Valid res)
          then Some (validationFailed ("transaction " ++ ID tx ++ " validation failed")
                       (Errors res))
          else if negb (canProcess (Status tx))
          then Some (errorString ("transaction " ++ ID tx ++
                        " must be in Draft or Pending status to process"))
          else preValidate rest
      end
  end.

(** The rollback loop [for _, rtx := range txs]; [k] counts the calls to
    [time.Now()] made so far. *)
Fixpoint rollback (clk : Clock) (k : nat) (s : Store) (txs : list Transaction)
  : list Transaction * Store :=
  match txs with
  | [] => ([], s)
  | rtx :: rest =>
      match Status rtx with
      | Posted =>
          let rtx := markDraft (clk k) rtx in
          let '(s, _) := repoUpdate s rtx in
          let '(rest, s) := rollback clk (S k) s rest in
          (rtx :: rest, s)
      | _ =>
          let '(rest, s) := rollback clk k s rest in
          (rtx :: rest, s)
      end
  end.

(** The store loop of phase 2 over the remaining [todo]; [all] is the
    whole batch, which the rollback ranges over. *)
Fixpoint storeAll (clk : Clock) (all : list Transaction) (s : Store)
  (todo : list Transaction) : list Transaction * Store * option error :=
  match todo with
  | [] => (all, s, None)
  | tx :: rest =>
      let '(s, err) := repoUpdate s tx in
      match err with
      | Some e =>
          let '(all, s) := rollback clk 1 s all in
          (all, s, Some (wrapError ("failed to store transaction " ++ ID tx) e))
      | None => storeAll clk all s rest
      end
  end.

Definition ProcessTransactionBatch (clk : Clock) (s : Store) (txs : list Transaction)
  : list Transaction * Store * option error :=
  match txs with
  | [] => (txs, s, None)
  | _ =>
      match preValidate txs with
      | Some e => (txs, s, Some e)
      | None =>
          let now := clk 0%nat in
          let txs := map (markPosted now) txs in
          storeAll clk txs s txs
      end
  end.

(** Phase 1 accepts [tx]: it validates and is Draft or Pending. *)
Definition postable (tx : Transaction) : bool :=
  Valid (fst (ValidateTransaction tx)) && canProcess (Status tx).

(** The store after writing [txs] in order, when every write succeeds. *)
Fixpoint writeAll (s : Store) (txs : list Transaction) : option Store :=
  match txs with
  | [] => Some s
  | tx :: rest =>
      match repoUpdate s tx with
      | (s, None) => writeAll s rest
      | (_, Some _) => None
      end
  end.

Definition GetTransaction (s : Store) (txID : string) : result Transaction :=
  match repoRead s txID with
  | Err e => Err (wrapError "failed to retrieve transaction" e)
  | Ok tx => Ok tx
  end.

(** One iteration of the loop of [GetTransactionSummary]. *)
Definition summarizeEntry (sm : TransactionSummary) (entry : Entry)
  : TransactionSummary :=
  let accounts := (AffectedAccounts sm ++ [Entry_AccountID entry])%list in
  match Entry_Type entry with
  | Debit =>
      mkTransactionSummary
        (mkMoney (decimal.Add (Amount (TotalDebits sm)) (Amount (Entry_Amount entry)))
                 (Currency (Entry_Amount entry)))
        (TotalCredits sm) (NetAmount sm) (EntryCount sm) accounts
  | _ =>
      mkTransactionSummary (TotalDebits sm)
        (mkMoney (decimal.Add (Amount (TotalCredits sm)) (Amount (Entry_Amount entry)))
                 (Currency (Entry_Amount entry)))
        (NetAmount sm) (EntryCount sm) accounts
  end.

(** [GetTransactionSummary]: the loop comes first, then
    [tx.Entries[0]] is indexed without a length check. *)
Definition GetTransactionSummary (tx : Transaction)
  : outcome (TransactionSummary * option error) :=
  let sm := mkTransactionSummary money.zeroValue money.zeroValue money.zeroValue
              (length (Entries tx)) [] in
  let sm := fold_left summarizeEntry (Entries tx) sm in
  match Entries tx with
  | [] => Panicked "index out of range [0] with length 0"
  | first :: _ =>
      Returned
        (mkTransactionSummary (TotalDebits sm) (TotalCredits sm)
           (mkMoney (decimal.Sub (Amount (TotalDebits sm)) (Amount (TotalCredits sm)))
                    (Currency (Entry_Amount first)))
           (EntryCount sm) (AffectedAccounts sm),
         None)
  end.

Definition VoidTransaction (clk : Clock) (s : Store) (txID reason : string)
  : Store * option error :=
  match GetTransaction s txID with
  | Err e => (s, Some (wrapError "failed to retrieve transaction" e))
  | Ok tx =>
      match Status tx with
      | Posted =>
          match VoidedAt tx with
          | Some _ => (s, Some (errorString "transaction is already voided"))
          | None =>
              let now := clk 0%nat in
              let tx := markVoided now reason tx in
              let '(s, err) := repoUpdate s tx in
              match err with
              | Some e => (s, Some (wrapError "failed to store voided transaction" e))
              | None => (s, None)
              end
          end
      | _ => (s, Some (errorString "only posted transactions can be voided"))
      end
  end.

(** The entry the reversal carries for [entry]. *)
Definition reverseEntry (entry : Entry) : Entry :=
  mkEntry (Entry_AccountID entry) (Entry_Amount entry)
    (Reverse (Entry_Type entry)) ("Reversal of: " ++ Entry_Description entry).

(** The reversal transaction [ReverseTransaction] constructs for
    [origTx], with its entries filled in. *)
Definition reversalOf (now : Time) (origTx : Transaction) (reason : string)
  : Transaction :=
  mkTransaction ("REV-" ++ ID origTx) Reversal Draft now
    ("Reversal of " ++ ID origTx ++ ": " ++ reason)
    (map reverseEntry (Entries origTx))
    (CreatedBy origTx) now now None None "" None "" (ID origTx).

Definition ReverseTransaction (clk : Clock) (s : Store) (txID reason : string)
  : Store * option error :=
  match GetTransaction s txID with
  | Err e => (s, Some (wrapError "failed to retrieve transaction" e))
  | Ok origTx =>
      match Status origTx with
      | Posted =>
          match ReversedAt origTx with
          | Some _ => (s, Some (errorString "transaction is already reversed"))
          | None =>
              let now := clk 0%nat in
              let reversalTx := reversalOf now origTx reason in
              let '(reversalTx, s, err) := ProcessTransaction (tick clk) s reversalTx in
              match err with
              | Some e =>
                  (s, Some (wrapError "failed to process reversal transaction" e))
              | None =>
                  let origTx := markReversed now (ID reversalTx) origTx in
                  let '(s, err) := repoUpdate s origTx in
                  match err with
                  | Some e =>
                      (s, Some (wrapError "failed to update original transaction" e))
                  | None => (s, None)
                  end
              end
          end
      | _ => (s, Some (errorString "only posted transactions can be reversed"))
      end
  end.

End Processor.

(** A repository instrumented like the tests' [MockRepository]: it
    forwards to the underlying store and records the argument of every
    [Update] call, successful or not. *)
Definition Recorded (Store : Type) : Type := (Store * list Transaction)%type.

#[global] Instance recordedRepository {Store : Type} `{Repository Store}
  : Repository (Recorded Store) := {
  repoRead s txID := repoRead (fst s) txID;
  repoUpdate s tx :=
    let '(s', err) := repoUpdate (fst s) tx in
    ((s', (snd s ++ [tx])%list), err)
}.

(** The tests' [MockRepository]: [Read] and [Update] answer as scripted
    ([On(...).Return(...)]) and keep nothing. *)
Record MockRepository := mkMockRepository {
  onRead : string -> result Transaction;
  onUpdate : Transaction -> option error
}.

#[global] Instance mockRepository : Repository MockRepository := {
  repoRead m txID := onRead m txID;
  repoUpdate m tx := (m, onUpdate m tx)
}.

(** A store that keeps the last transaction written under each id and
    reads it back. *)
Definition Ledger : Type := gmap string Transaction.

#[global] Instance ledgerRepository : Repository Ledger := {
  repoRead (s : Ledger) txID :=
    match s !! txID with
    | Some tx => Ok tx
    | None => Err (errorString "transaction not found")
    end;
  repoUpdate (s : Ledger) tx := (<[ID tx := tx]> s, None)
}.

End processor.

(** ** pkg/storage/types.go *)
Module storage.

(** The values the calculator puts in a [Filter] ([interface{}]). *)
Inductive FilterValue :=
| StringValue (s : string)
| TimeValue (t : Time)
| StatusValue (st : transaction.TransactionStatus).

Record Filter := mkFilter {
  Field : string;
  Operator : string;
  Value : FilterValue
}.

Record Sort := mkSort { SortField : string; Desc : bool }.

Record Pagination := mkPagination { Offset : Z; Limit : Z }.

Record Query := mkQuery {
  Filters : list Filter;
  Sorts : list Sort;
  Paging : option Pagination
}.

(** [PreviousState] and [NewState] are [interface{}] values, [nil] when
    absent; [Metadata] is never set. *)
Record AuditEntry (A : Type) := mkAuditEntry {
  ID : string;
  EntityType : string;
  EntityID : string;
  Operation : string;
  UserID : string;
  Timestamp : Time;
  PreviousState : option A;
  NewState : option A
}.
Arguments mkAuditEntry {A}.
Arguments ID {A}.
Arguments EntityType {A}.
Arguments EntityID {A}.
Arguments Operation {A}.
Arguments UserID {A}.
Arguments Timestamp {A}.
Arguments PreviousState {A}.
Arguments NewState {A}.

End storage.

(** ** pkg/storage/memory/store.go *)
Module memory.
Import storage.

(** Entities are the [interface{}] values handed to the store, which
    keeps them as they are, without copying.  What the store asks of one
    through dynamic type tests: its dynamic type name ([%T]), and the
    [GetID] and [GetVersion] methods when its type has them. *)
Class EntityOps (A : Type) := {
  typeName : A -> string;
  GetID : A -> option string;
  GetVersion : A -> option Z
}.

(** [int64] arithmetic wraps around. *)
Definition wrap64 (z : Z) : Z := (z + 2 ^ 63) mod 2 ^ 64 - 2 ^ 63.

Section MemoryStore.
Context {A : Type} `{EntityOps A}.

Record MemoryStore := mkMemoryStore {
  data : gmap string (gmap string A);
  audit : gmap string (list (AuditEntry A));
  version : gmap string Z
}.

Definition NewMemoryStore : MemoryStore := mkMemoryStore ∅ ∅ ∅.

Definition getEntityType (entity : A) : string := typeName entity.

Definition getEntityID (entity : A) : string :=
  match GetID entity with
  | Some id => id
  | None => ""
  end.

(** [s.version[id]], the zero value when the key is absent. *)
Definition versionOf (s : MemoryStore) (id : string) : Z :=
  default 0 (version s !! id).

(** [GetAuditTrail]: the trail, [nil] when the key is absent. *)
Definition GetAuditTrail (s : MemoryStore) (entityID : string)
  : list (AuditEntry A) :=
  default [] (audit s !! entityID).

Definition recordAudit (clk : Clock) (s : MemoryStore)
  (entityType entityID operation : string) (oldState newState : option A)
  : MemoryStore :=
  let entry := mkAuditEntry ("audit_" ++ itoa (clk 0%nat)) entityType entityID
                 operation "" (clk 1%nat) oldState newState in
  mkMemoryStore (data s)
    (<[entityID := (default [] (audit s !! entityID) ++ [entry])%list]> (audit s))
    (version s).

Definition Create (clk : Clock) (s : MemoryStore) (entity : A)
  : MemoryStore * option error :=
  let entityType := getEntityType entity in
  let id := getEntityID entity in
  if String.eqb id ""
  then (s, Some (errorString "entity ID cannot be empty"))
  else
    let '(s, entities) :=
      match data s !! entityType with
      | None =>
          (mkMemoryStore (<[entityType := ∅]> (data s)) (audit s) (version s), ∅)
      | Some entities => (s, entities)
      end in
    match entities !! id with
    | Some _ => (s, Some (errorString ("entity already exists: " ++ id)))
    | None =>
        let s := mkMemoryStore (<[entityType := <[id := entity]> entities]> (data s))
                   (audit s) (<[id := 1]> (version s)) in
        (recordAudit clk s entityType id "CREATE" None (Some entity), None)
    end.

Definition Update (clk : Clock) (s : MemoryStore) (entity : A)
  : MemoryStore * option error :=
  let entityType := getEntityType entity in
  let id := getEntityID entity in
  match data s !! entityType with
  | None => (s, Some (errorString ("entity type not found: " ++ entityType)))
  | Some entities =>
      match entities !! id with
      | None => (s, Some (errorString ("entity not found: " ++ id)))
      | Some old =>
          let commit :=
            let s := mkMemoryStore (<[entityType := <[id := entity]> entities]> (data s))
                       (audit s) (<[id := wrap64 (versionOf s id + 1)]> (version s)) in
            (recordAudit clk s entityType id "UPDATE" (Some old) (Some entity), None) in
          match GetVersion entity with
          | Some expected =>
              let currentVersion := versionOf s id in
              if negb (Z.eqb expected currentVersion)
              then (s, Some (OptimisticLockError entityType id currentVersion expected))
              else commit
          | None => commit
          end
      end
  end.

(** The loop of [Delete], [order] being the order in which
    [range s.data] yields the entity types still to visit. *)
Fixpoint deleteFrom (clk : Clock) (s : MemoryStore) (id : string)
  (order : list string) : MemoryStore * option error :=
  match order with
  | [] => (s, Some (errorString ("entity not found: " ++ id)))
  | entityType :: rest =>
      match data s !! entityType with
      | None => deleteFrom clk s id rest
      | Some entities =>
          match entities !! id with
          | None => deleteFrom clk s id rest
          | Some stored =>
              let s := mkMemoryStore (<[entityType := delete id entities]> (data s))
                         (audit s) (version s) in
              (recordAudit clk s entityType id "DELETE" (Some stored) None, None)
          end
      end
  end.

(** [Delete]; Go leaves the iteration order of a map unspecified, so the
    order is an argument. *)
Definition Delete (clk : Clock) (order : list string) (s : MemoryStore)
  (id : string) : MemoryStore * option error :=
  deleteFrom clk s id order.

(** The mutations a client can issue. *)
Inductive Mutation :=
| DoCreate (entity : A)
| DoUpdate (entity : A)
| DoDelete (order : list string) (id : string).

Definition mutationID (m : Mutation) : string :=
  match m with
  | DoCreate entity | DoUpdate entity => getEntityID entity
  | DoDelete _ id => id
  end.

Definition mutationName (m : Mutation) : string :=
  match m with
  | DoCreate _ => "CREATE"
  | DoUpdate _ => "UPDATE"
  | DoDelete _ _ => "DELETE"
  end.

Definition apply (clk : Clock) (s : MemoryStore) (m : Mutation)
  : MemoryStore * option error :=
  match m with
  | DoCreate entity => Create clk s entity
  | DoUpdate entity => Update clk s entity
  | DoDelete order id => Delete clk order s id
  end.

(** A sequence of mutations, each with its own clock readings; returns
    the final store and the mutations that succeeded, in order. *)
Fixpoint run (s : MemoryStore) (ms : list (Clock * Mutation))
  : MemoryStore * list Mutation :=
  match ms with
  | [] => (s, [])
  | (clk, m) :: rest =>
      let '(s', err) := apply clk s m in
      let '(s'', done) := run s' rest in
      (s'', match err with None => m :: done | Some _ => done end)
  end.

(** The entity held under a type and an id, if any. *)
Definition stored (s : MemoryStore) (entityType id : string) : option A :=
  match data s !! entityType with
  | Some entities => entities !! id
  | None => None
  end.

End MemoryStore.
Arguments MemoryStore A : clear implicits.
Arguments Mutation A : clear implicits.

(** The two entity types of [store_test.go]. *)
Record TestEntity := mkTestEntity { te_id : string; te_version : Z; te_data : string }.

#[global] Instance testEntityOps : EntityOps TestEntity := {
  typeName _ := "*memory.TestEntity";
  GetID e := Some (te_id e);
  GetVersion e := Some (te_version e)
}.

Record SimpleEntity := mkSimpleEntity { se_id : string; se_data : string }.

#[global] Instance simpleEntityOps : EntityOps SimpleEntity := {
  typeName _ := "*memory.SimpleEntity";
  GetID e := Some (se_id e);
  GetVersion _ := None
}.

(** [copyEntity] asks the destination for a [CopyFrom] method: the
    destination after the copy, when its dynamic type has the method. *)
Class Copier (A : Type) := {
  CopyFrom : A -> option (A -> A)
}.

Section MemoryStoreReads.
Context {A : Type} `{EntityOps A} `{Copier A}.

(** [copyEntity(src, dst)]: the destination afterwards; the [error] of
    [CopyFrom] is dropped. *)
Definition copyEntity (src dst : A) : A :=
  match CopyFrom dst with
  | Some copy => copy src
  | None => dst
  end.

(** [Read]: the entity behind the destination pointer as the call leaves
    it, and the returned error.  The type looked up is that of the
    destination. *)
Definition Read (s : MemoryStore A) (id : string) (entity : A) : A * option error :=
  let entityType := getEntityType entity in
  match data s !! entityType with
  | None => (entity, Some (errorString ("entity type not found: " ++ entityType)))
  | Some entities =>
      match entities !! id with
      | None => (entity, Some (errorString ("entity not found: " ++ id)))
      | Some held => (copyEntity held entity, None)
      end
  end.

Definition Query (s : MemoryStore A) (query : storage.Query) : option error :=
  Some (errorString "not implemented").

Definition Count (s : MemoryStore A) (query : storage.Query) : Z * option error :=
  (0, Some (errorString "not implemented")).

(** The invariant relating the store to its audit log: whatever is held
    under a type and an id is the new state of a record of that id's
    trail. *)
Definition audited (s : MemoryStore A) : Prop :=
  forall ty id e,
    stored s ty id = Some e ->
    exists entry, In entry (GetAuditTrail s id) /\
                  EntityType entry = ty /\ EntityID entry = id /\
                  NewState entry = Some e.

End MemoryStoreReads.

(** [TestEntity.CopyFrom] and [SimpleEntity.CopyFrom] overwrite the
    destination with the source. *)
#[global] Instance testEntityCopier : Copier TestEntity := {
  CopyFrom _ := Some (fun src => src)
}.

#[global] Instance simpleEntityCopier : Copier SimpleEntity := {
  CopyFrom _ := Some (fun src => src)
}.

(** *** Entities behind pointers

    The callers hand the store pointers ([&TestEntity{...}]), and the
    store keeps a pointer as it is, in its data and in its audit records.
    [Ref] is an address and [Memory T] what the caller's memory holds at
    each address at one moment.  The methods of a pointer are those of
    the object it points to at the moment of the call. *)
Definition Ref := nat.

Definition Memory (T : Type) := Ref -> T.

Definition throughRef {T : Type} `{EntityOps T} (mem : Memory T) : EntityOps Ref := {|
  typeName r := typeName (mem r);
  GetID r := GetID (mem r);
  GetVersion r := GetVersion (mem r)
|}.

(** [Create] and [Update] called with the pointer [r] while the memory
    is [mem]. *)
Definition CreateIn {T : Type} `{EntityOps T} (mem : Memory T) (clk : Clock)
  (s : MemoryStore Ref) (r : Ref) : MemoryStore Ref * option error :=
  @Create Ref (throughRef mem) clk s r.

Definition UpdateIn {T : Type} `{EntityOps T} (mem : Memory T) (clk : Clock)
  (s : MemoryStore Ref) (r : Ref) : MemoryStore Ref * option error :=
  @Update Ref (throughRef mem) clk s r.

(** What a state held in an audit record shows to a reader of the trail
    while the memory is [mem]. *)
Definition shows {T : Type} (mem : Memory T) (state : option Ref) : option T :=
  match state with
  | Some r => Some (mem r)
  | None => None
  end.

End memory.

(** ** pkg/reporting/calculator.go *)
Module reporting.
Import money account transaction storage.

Record ReportPeriod := mkReportPeriod { Start : Time; End_ : Time }.

Definition debitNormal (accountType : AccountType) : bool :=
  match accountType with
  | Asset | Expense => true
  | _ => false
  end.

(** The body of the inner loop, for one entry: the first result is the
    early [return] on a foreign currency. *)
Definition accumulateEntry (cur : string) (accountType : AccountType)
  (balance : decimal.Decimal) (entry : Entry) : result decimal.Decimal :=
  if negb (String.eqb (Currency (Entry_Amount entry)) cur)
  then Err (errorString "mixed currencies in transactions")
  else
    match Entry_Type entry with
    | Debit =>
        if debitNormal accountType
        then Ok (decimal.Add balance (Amount (Entry_Amount entry)))
        else Ok (decimal.Sub balance (Amount (Entry_Amount entry)))
    | Credit =>
        if debitNormal accountType
        then Ok (decimal.Sub balance (Amount (Entry_Amount entry)))
        else Ok (decimal.Add balance (Amount (Entry_Amount entry)))
    | Other _ => Ok balance
    end.

(** [for _, entry := range tx.Entries]. *)
Fixpoint accumulateEntries (cur : string) (accountType : AccountType)
  (balance : decimal.Decimal) (entries : list Entry) : result decimal.Decimal :=
  match entries with
  | [] => Ok balance
  | entry :: rest =>
      match accumulateEntry cur accountType balance entry with
      | Err e => Err e
      | Ok balance => accumulateEntries cur accountType balance rest
      end
  end.

(** [for _, tx := range transactions]. *)
Fixpoint accumulateTransactions (cur : string) (accountType : AccountType)
  (balance : decimal.Decimal) (transactions : list Transaction)
  : result decimal.Decimal :=
  match transactions with
  | [] => Ok balance
  | tx :: rest =>
      match accumulateEntries cur accountType balance (Entries tx) with
      | Err e => Err e
      | Ok balance => accumulateTransactions cur accountType balance rest
      end
  end.

Definition calculateBalanceFromTransactions (transactions : list Transaction)
  (accountType : AccountType) : outcome (result Money) :=
  match transactions with
  | [] => Returned (Ok (mkMoney decimal.Zero "USD"))
  | first :: _ =>
      match Entries first with
      | [] => Panicked "index out of range [0] with length 0"
      | entry :: _ =>
          let cur := Currency (Entry_Amount entry) in
          match accumulateTransactions cur accountType decimal.Zero transactions with
          | Err e => Returned (Err e)
          | Ok balance => Returned (Ok (mkMoney balance cur))
          end
      end
  end.

(** The two stores the calculator reads from, as it uses them:
    [accountStore.Read] and [transactionStore.Query]. *)
Record Stores := mkStores {
  readAccount : string -> result Account;
  queryTransactions : Query -> result (list Transaction)
}.

Definition periodQuery (accountID : string) (period : ReportPeriod) : Query :=
  mkQuery
    [ mkFilter "entries.account_id" "=" (StringValue accountID);
      mkFilter "date" ">=" (TimeValue (Start period));
      mkFilter "date" "<=" (TimeValue (End_ period));
      mkFilter "status" "=" (StatusValue Posted) ]
    [ mkSort "date" false ]
    None.

Definition getTransactionsForPeriod (c : Stores) (accountID : string)
  (period : ReportPeriod) : result (list Transaction) :=
  match queryTransactions c (periodQuery accountID period) with
  | Err e => Err (wrapError "error querying transactions" e)
  | Ok transactions => Ok transactions
  end.

Definition CalculateBalance (c : Stores) (accountID : string)
  (period : ReportPeriod) : outcome (result Money) :=
  match readAccount c accountID with
  | Err e => Returned (Err (wrapError "error reading account" e))
  | Ok acc =>
      match getTransactionsForPeriod c accountID period with
      | Err e => Returned (Err (wrapError "error getting transactions" e))
      | Ok transactions =>
          calculateBalanceFromTransactions transactions (account.Type_ acc)
      end
  end.

(** The currency an account is kept in: that of its [Balance]. *)
Definition accountCurrency (acc : Account) : option string :=
  match account.Balance acc with
  | Some m => Some (Currency m)
  | None => None
  end.

(** The balance rule of the account model, in the spec's words: over the
    entries that reference [accountID], the sum of the amounts on the
    normal side of [accountType] less the sum of those on the opposite
    side. *)
Definition normalSide (accountType : AccountType) : EntryType :=
  if debitNormal accountType then Debit else Credit.

Definition entriesOf (accountID : string) (transactions : list Transaction)
  : list Entry :=
  filter (fun e => Entry_AccountID e = accountID)
    (concat (map Entries transactions)).

Definition specBalance (accountID : string) (accountType : AccountType)
  (transactions : list Transaction) : Q :=
  (sideTotal (normalSide accountType) (entriesOf accountID transactions)
   - sideTotal (Reverse (normalSide accountType)) (entriesOf accountID transactions))%Q.

(** [time.Time{}], the instant times are counted from. *)
Definition zeroTime : Time := 0.

Record BalanceMovement := mkBalanceMovement {
  Movement_Date : Time;
  Movement_Amount : Money;
  Movement_Type : string;
  Movement_Description : string;
  Movement_Reference : string
}.

Record BalanceChange := mkBalanceChange {
  OpeningBalance : Money;
  ClosingBalance : Money;
  NetChange : Money;
  Movements : list BalanceMovement
}.

(** [string(entry.Type)]. *)
Definition entryTypeString (t : EntryType) : string :=
  match t with
  | Debit => "DEBIT"
  | Credit => "CREDIT"
  | Other name => name
  end.

Definition getBalanceAtTime (c : Stores) (accountID : string) (at_ : Time)
  : outcome (result Money) :=
  let period := mkReportPeriod zeroTime at_ in
  match getTransactionsForPeriod c accountID period with
  | Err e => Returned (Err (wrapError "error getting transactions" e))
  | Ok transactions =>
      match readAccount c accountID with
      | Err e => Returned (Err (wrapError "error reading account" e))
      | Ok acc => calculateBalanceFromTransactions transactions (account.Type_ acc)
      end
  end.

(** The inner loop of [CalculateChanges] over the entries of [tx]. *)
Definition appendMovements (accountID : string) (tx : Transaction)
  (movements : list BalanceMovement) : list BalanceMovement :=
  fold_left
    (fun movements entry =>
       if String.eqb (Entry_AccountID entry) accountID
       then (movements ++
             [mkBalanceMovement (transaction.Date tx) (Entry_Amount entry)
                (entryTypeString (Entry_Type entry)) (transaction.Description tx)
                (transaction.ID tx)])%list
       else movements)
    (Entries tx) movements.

Definition CalculateChanges (c : Stores) (accountID : string)
  (period : ReportPeriod) : outcome (result BalanceChange) :=
  match getTransactionsForPeriod c accountID period with
  | Err e => Returned (Err (wrapError "error getting transactions" e))
  | Ok transactions =>
      match getBalanceAtTime c accountID (Start period) with
      | Panicked msg => Panicked msg
      | Returned (Err e) =>
          Returned (Err (wrapError "error calculating opening balance" e))
      | Returned (Ok openingBalance) =>
          match getBalanceAtTime c accountID (End_ period) with
          | Panicked msg => Panicked msg
          | Returned (Err e) =>
              Returned (Err (wrapError "error calculating closing balance" e))
          | Returned (Ok closingBalance) =>
              let movements :=
                fold_left (fun movements tx => appendMovements accountID tx movements)
                  transactions [] in
              let netChange :=
                mkMoney (decimal.Sub (Amount closingBalance) (Amount openingBalance))
                  (Currency closingBalance) in
              Returned (Ok (mkBalanceChange openingBalance closingBalance netChange
                              movements))
          end
      end
  end.

End reporting.

(** ** pkg/reporting/statements/generator.go *)
Module statements.
Import money account reporting.

Inductive StatementType := BalanceSheet | IncomeStatement | CashFlow.

(** [SubItems] and [Metadata] are never set by the generator. *)
Record LineItem := mkLineItem {
  Label : string;
  Item_Amount : Money;
  AccountIDs : list string
}.

Record StatementSection := mkStatementSection {
  Title : string;
  Items : list LineItem;
  Total : Money
}.

(** [Entity] and [Metadata] are never set by the generator. *)
#[warnings="-register-all"]
Inductive Statement := mkStatement {
  Stmt_Type : StatementType;
  Stmt_Title : string;
  AsOf : Time;
  PeriodStart : option Time;
  Sections : list StatementSection;
  Stmt_Currency : string;
  ComparativePeriod : option Statement
}.

(** [AccountGroupings] and [FormatOptions] are not read by the functions
    embedded here. *)
Record StatementOptions := mkStatementOptions {
  IncludeComparative : bool;
  ComparativePeriodMonths : Z;
  DetailLevel : string;
  Opt_Currency : string
}.

(** The [reporting.ReportCalculator] interface, as the generator uses
    it; [CalculateChanges] hands back a [BalanceChange] whenever its
    error is nil. *)
Record ReportCalculator := mkReportCalculator {
  calcBalance : string -> ReportPeriod -> outcome (result Money);
  calcChanges : string -> ReportPeriod -> outcome (result BalanceChange)
}.

(** The calculator of [pkg/reporting] behind that interface. *)
Definition defaultReportCalculator (c : Stores) : ReportCalculator :=
  mkReportCalculator (CalculateBalance c) (CalculateChanges c).

(** [accounts.Query(ctx, account.Account{Type: t}, &accounts)] is the
    only call made on the account repository. *)
Record Generator := mkGenerator {
  calculator : ReportCalculator;
  queryAccounts : AccountType -> result (list Account)
}.

(** [-n] on an [int]. *)
Definition negInt (n : Z) : Z := memory.wrap64 (- n).

(** The loop shared, word for word, by the balance-sheet, income,
    investing and financing sections: [amountOf] is the calculator call
    made for an account and [what] the message of its failure.  Returns
    the items appended so far and the running total, or the error. *)
Fixpoint sectionItems (amountOf : Account -> outcome (result Money)) (what : string)
  (opts : StatementOptions) (accounts : list Account) (items : list LineItem)
  (total : decimal.Decimal) : outcome (list LineItem * result decimal.Decimal) :=
  match accounts with
  | [] => Returned (items, Ok total)
  | acc :: rest =>
      match amountOf acc with
      | Panicked msg => Panicked msg
      | Returned (Err e) =>
          Returned (items, Err (wrapError (what ++ account.ID acc) e))
      | Returned (Ok amount) =>
          if negb (decimal.IsZero (Amount amount))
             || String.eqb (DetailLevel opts) "detailed"
          then
            let item := mkLineItem (account.Name acc) amount [account.ID acc] in
            sectionItems amountOf what opts rest (items ++ [item])%list
              (decimal.Add total (Amount amount))
          else sectionItems amountOf what opts rest items total
      end
  end.

(** A section function returns its section together with the error. *)
Definition accountSection (g : Generator) (title queryFailure : string)
  (accountType : AccountType) (amountOf : Account -> outcome (result Money))
  (what : string) (opts : StatementOptions)
  : outcome (StatementSection * option error) :=
  match queryAccounts g accountType with
  | Err e =>
      Returned (mkStatementSection title [] money.zeroValue,
                Some (wrapError queryFailure e))
  | Ok accounts =>
      match sectionItems amountOf what opts accounts [] decimal.Zero with
      | Panicked msg => Panicked msg
      | Returned (items, Err e) =>
          Returned (mkStatementSection title items money.zeroValue, Some e)
      | Returned (items, Ok total) =>
          Returned (mkStatementSection title items
                      (mkMoney total (Opt_Currency opts)), None)
      end
  end.

Definition balanceOf (g : Generator) (asOf : Time) (acc : Account)
  : outcome (result Money) :=
  calcBalance (calculator g) (account.ID acc) (mkReportPeriod zeroTime asOf).

Definition netChangeOf (g : Generator) (period : ReportPeriod) (acc : Account)
  : outcome (result Money) :=
  match calcChanges (calculator g) (account.ID acc) period with
  | Panicked msg => Panicked msg
  | Returned (Err e) => Returned (Err e)
  | Returned (Ok changes) => Returned (Ok (NetChange changes))
  end.

Definition generateBalanceSheetSection (g : Generator) (title : string)
  (accountType : AccountType) (asOf : Time) (opts : StatementOptions)
  : outcome (StatementSection * option error) :=
  accountSection g title "error querying accounts" accountType (balanceOf g asOf)
    "error calculating balance for account " opts.

Definition generateIncomeStatementSection (g : Generator) (title : string)
  (accountType : AccountType) (period : ReportPeriod) (opts : StatementOptions)
  : outcome (StatementSection * option error) :=
  accountSection g title "error querying accounts" accountType (netChangeOf g period)
    "error calculating changes for account " opts.

Definition generateInvestingCashFlow (g : Generator) (period : ReportPeriod)
  (opts : StatementOptions) : outcome (StatementSection * option error) :=
  accountSection g "Investing Activities" "error querying investing accounts" Asset
    (netChangeOf g period) "error calculating changes for account " opts.

Definition generateFinancingCashFlow (g : Generator) (period : ReportPeriod)
  (opts : StatementOptions) : outcome (StatementSection * option error) :=
  accountSection g "Financing Activities" "error querying financing accounts"
    Liability (netChangeOf g period) "error calculating changes for account " opts.

(** [for _, acc := range accounts { ...; sum = sum.Add(changes.NetChange.Amount) }]. *)
Fixpoint sumChanges (g : Generator) (period : ReportPeriod) (accounts : list Account)
  (sum : decimal.Decimal) : outcome (result decimal.Decimal) :=
  match accounts with
  | [] => Returned (Ok sum)
  | acc :: rest =>
      match calcChanges (calculator g) (account.ID acc) period with
      | Panicked msg => Panicked msg
      | Returned (Err e) => Returned (Err e)
      | Returned (Ok changes) =>
          sumChanges g period rest (decimal.Add sum (Amount (NetChange changes)))
      end
  end.

Definition calculateNonCashAdjustments (g : Generator) (period : ReportPeriod)
  : result (list LineItem) := Ok [].

Definition calculateWorkingCapitalChanges (g : Generator) (period : ReportPeriod)
  : result (list LineItem) := Ok [].

(** [for _, item := range section.Items { total = total.Add(item.Amount.Amount) }]. *)
Definition itemsTotal (items : list LineItem) : decimal.Decimal :=
  fold_left (fun total item => decimal.Add total (Amount (Item_Amount item)))
    items decimal.Zero.

Definition generateOperatingCashFlowIndirect (g : Generator) (period : ReportPeriod)
  (opts : StatementOptions) : outcome (StatementSection * option error) :=
  let section := mkStatementSection "Operating Activities" [] money.zeroValue in
  match queryAccounts g Revenue with
  | Err e => Returned (section, Some (wrapError "error querying revenue accounts" e))
  | Ok revenueAccounts =>
  match queryAccounts g Expense with
  | Err e => Returned (section, Some (wrapError "error querying expense accounts" e))
  | Ok expenseAccounts =>
  match sumChanges g period revenueAccounts decimal.Zero with
  | Panicked msg => Panicked msg
  | Returned (Err e) =>
      Returned (section, Some (wrapError "error calculating revenue changes" e))
  | Returned (Ok revenue) =>
  match sumChanges g period expenseAccounts decimal.Zero with
  | Panicked msg => Panicked msg
  | Returned (Err e) =>
      Returned (section, Some (wrapError "error calculating expense changes" e))
  | Returned (Ok expenses) =>
      let netIncome := decimal.Sub revenue expenses in
      let items := [mkLineItem "Net Income" (mkMoney netIncome "USD") []] in
      match calculateNonCashAdjustments g period with
      | Err e =>
          Returned (mkStatementSection "Operating Activities" items money.zeroValue,
                    Some (wrapError "error calculating non-cash adjustments" e))
      | Ok nonCashAdjustments =>
          let items := (items ++ nonCashAdjustments)%list in
          match calculateWorkingCapitalChanges g period with
          | Err e =>
              Returned (mkStatementSection "Operating Activities" items money.zeroValue,
                        Some (wrapError "error calculating working capital changes" e))
          | Ok workingCapitalChanges =>
              let items := (items ++ workingCapitalChanges)%list in
              Returned (mkStatementSection "Operating Activities" items
                          (mkMoney (itemsTotal items) (Opt_Currency opts)), None)
          end
      end
  end end end end.

Section BalanceSheet.
(** [time.Time.AddDate(years, months, days)], calendar arithmetic of the
    standard library. *)
Variable AddDate : Time -> Z -> Z -> Z -> Time.

(** [GenerateBalanceSheet] calls itself for the comparative period;
    [fuel] bounds the depth of the calls, [None] meaning it ran out. *)
Fixpoint GenerateBalanceSheet (fuel : nat) (g : Generator) (asOf : Time)
  (opts : StatementOptions) : option (outcome (result Statement)) :=
  match fuel with
  | O => None
  | S fuel =>
  match generateBalanceSheetSection g "Assets" Asset asOf opts with
  | Panicked msg => Some (Panicked msg)
  | Returned (_, Some e) =>
      Some (Returned (Err (wrapError "error generating assets section" e)))
  | Returned (assetSection, None) =>
  match generateBalanceSheetSection g "Liabilities" Liability asOf opts with
  | Panicked msg => Some (Panicked msg)
  | Returned (_, Some e) =>
      Some (Returned (Err (wrapError "error generating liabilities section" e)))
  | Returned (liabSection, None) =>
  match generateBalanceSheetSection g "Equity" Equity asOf opts with
  | Panicked msg => Some (Panicked msg)
  | Returned (_, Some e) =>
      Some (Returned (Err (wrapError "error generating equity section" e)))
  | Returned (equitySection, None) =>
      let stmt comparative :=
        mkStatement BalanceSheet "Balance Sheet" asOf None
          [assetSection; liabSection; equitySection] (Opt_Currency opts)
          comparative in
      if IncludeComparative opts
      then
        let comparativePeriod :=
          AddDate asOf 0 (negInt (ComparativePeriodMonths opts)) 0 in
        match GenerateBalanceSheet fuel g comparativePeriod
                (mkStatementOptions false 0 (DetailLevel opts) (Opt_Currency opts)) with
        | None => None
        | Some (Panicked msg) => Some (Panicked msg)
        | Some (Returned (Err e)) =>
            Some (Returned (Err (wrapError
                                  "error generating comparative balance sheet" e)))
        | Some (Returned (Ok comparative)) =>
            Some (Returned (Ok (stmt (Some comparative))))
        end
      else Some (Returned (Ok (stmt None)))
  end end end
  end.

End BalanceSheet.

End statements.

(** ** pkg/validation *)
Module validation.
Import money transaction.

Inductive ValidationSeverity := Error | Warning | Info.

#[global] Instance ValidationSeverity_eq_dec : EqDecision ValidationSeverity.
Proof. solve_decision. Defined.

(** [Metadata] is nil or holds the totals under "debits" and "credits". *)
Record ValidationResult := mkValidationResult {
  Code : string;
  Message : string;
  Severity : ValidationSeverity;
  Field : string;
  Metadata : option (decimal.Decimal * decimal.Decimal)
}.

(** The non-nil [interface{}] values handed to a validator: a pointer to
    a transaction, the nil pointer of that type, or a value of another
    dynamic type, of which only the name ([%T]) is read. *)
Inductive Object :=
| TransactionPtr (tx : Transaction)
| NilTransactionPtr
| OtherObject (typeName : string).

(** The [Validator] interface, as the engine uses it. *)
Record Validator := mkValidator {
  validate : Object -> outcome (result (list ValidationResult));
  priority : Z
}.

(** The errors of the engine: a plain error, or [*ValidationError]. *)
Inductive EngineError :=
| PlainError (e : error)
| ValidationErrorOf (Results : list ValidationResult).

(** [ValidationError.Error]. *)
Definition ErrorMessage (results : list ValidationResult) : string :=
  match results with
  | [] => "validation failed"
  | first :: _ => "validation failed: " ++ Message first
  end.

Section TransactionValidator.
(** [decimal.Decimal.String] of the library, used by [%s]. *)
Variable decimalString : decimal.Decimal -> string.

(** One turn of the loop over the entries: the running [debits] and
    [credits]. *)
Definition tally (totals : decimal.Decimal * decimal.Decimal) (entry : Entry)
  : decimal.Decimal * decimal.Decimal :=
  match Entry_Type entry with
  | Debit => (decimal.Add (fst totals) (Amount (Entry_Amount entry)), snd totals)
  | Credit => (fst totals, decimal.Add (snd totals) (Amount (Entry_Amount entry)))
  | Other _ => totals
  end.

(** [TransactionValidator.Validate]. *)
Definition ValidateTransaction (obj : Object)
  : outcome (result (list ValidationResult)) :=
  match obj with
  | OtherObject typeName =>
      Returned (Err (errorString ("expected *transaction.Transaction, got "
                                  ++ typeName)))
  | NilTransactionPtr =>
      Panicked "invalid memory address or nil pointer dereference"
  | TransactionPtr tx =>
      let results := [] in
      let results :=
        if (length (Entries tx) <? 2)%nat
        then (results ++
              [mkValidationResult "TX_MIN_ENTRIES"
                 "Transaction must have at least two entries" Error "Entries" None])%list
        else results in
      let results :=
        if String.eqb (transaction.Description tx) ""
        then (results ++
              [mkValidationResult "TX_DESCRIPTION"
                 "Transaction should have a description" Warning "Description"
                 None])%list
        else results in
      let results :=
        if (0 <? length (Entries tx))%nat
        then
          let '(debits, credits) :=
            fold_left tally (Entries tx) (decimal.zeroValue, decimal.zeroValue) in
          if negb (decimal.Equal debits credits)
          then (results ++
                [mkValidationResult "TX_BALANCE"
                   ("Transaction is not balanced: debits=" ++ decimalString debits
                    ++ ", credits=" ++ decimalString credits)
                   Error "Entries" (Some (debits, credits))])%list
          else results
        else results in
      Returned (Ok results)
  end.

(** The validator as the engine sees it; its [Priority] is 100. *)
Definition TransactionValidator : Validator := mkValidator ValidateTransaction 100.

End TransactionValidator.

(** The inner loop of the engine: is one of [results] an Error? *)
Definition noteErrors (hasErrors : bool) (results : list ValidationResult) : bool :=
  fold_left
    (fun hasErrors result =>
       if decide (Severity result = Error) then true else hasErrors)
    results hasErrors.

(** The loop over the validators, stopped by the first one that
    fails. *)
Fixpoint runValidators (validators : list Validator) (obj : Object)
  (allResults : list ValidationResult) (hasErrors : bool)
  : outcome (result (list ValidationResult * bool)) :=
  match validators with
  | [] => Returned (Ok (allResults, hasErrors))
  | validator :: rest =>
      match validate validator obj with
      | Panicked msg => Panicked msg
      | Returned (Err e) => Returned (Err (wrapError "validator error" e))
      | Returned (Ok results) =>
          runValidators rest obj (allResults ++ results)%list
            (noteErrors hasErrors results)
      end
  end.

(** [BasicValidationEngine.Validate] on the registered [validators];
    [None] is the nil [interface{}]. *)
Definition Validate (validators : list Validator) (obj : option Object)
  : outcome (list ValidationResult * option EngineError) :=
  match obj with
  | None => Returned ([], Some (PlainError (errorString "cannot validate nil object")))
  | Some obj =>
      match runValidators validators obj [] false with
      | Panicked msg => Panicked msg
      | Returned (Err e) => Returned ([], Some (PlainError e))
      | Returned (Ok (allResults, hasErrors)) =>
          if hasErrors
          then Returned (allResults, Some (ValidationErrorOf allResults))
          else Returned (allResults, None)
      end
  end.

End validation.

(** ** pkg/reporting/generator.go *)
Module generator.
Import money account reporting.

(** Of the definition types, the fields the generator reads. *)
Record AccountFilter := mkAccountFilter {
  Filter_Field : string;
  Filter_Operator : string
}.

Record Calculation := mkCalculation { Calculation_ID : string }.

Record CalculationRule := mkCalculationRule { Rule_ID : string }.

Record ValidationRule := mkValidationRule { Validation_ID : string }.

Record ReportSection := mkReportSection {
  Section_ID : string;
  Section_Title : string;
  AccountTypes : list AccountType;
  Filters : list AccountFilter;
  Calculations : list Calculation
}.

(** [Type] is a [ReportType], a string. *)
Record ReportDefinition := mkReportDefinition {
  Def_ID : string;
  Def_Type : string;
  Def_Name : string;
  Sections : list ReportSection;
  Rules : list CalculationRule;
  Validations : list ValidationRule
}.

(** [Previous] is [Period.Previous]. *)
Record ReportOptions := mkReportOptions {
  Period : ReportPeriod;
  Previous : option ReportPeriod;
  Opt_Currency : string
}.

(** [Details], [Level], [ParentID] and [Children] are left at their
    zero values. *)
Record ReportLine := mkReportLine {
  Line_AccountID : string;
  Line_AccountCode : string;
  Line_AccountName : string;
  Line_Amount : Money;
  Line_PreviousAmount : option Money
}.

(** [Totals] and [Metadata] stay empty, [GeneratedBy] unset. *)
Record Report := mkReport {
  Report_ID : string;
  Report_Type : string;
  Report_Title : string;
  Report_Period : ReportPeriod;
  Report_Previous : option ReportPeriod;
  Report_Currency : string;
  GeneratedAt : Time;
  Lines : list ReportLine
}.

Definition validateSection (section : ReportSection) : option error :=
  if String.eqb (Section_ID section) ""
  then Some (errorString "section ID is required")
  else if String.eqb (Section_Title section) ""
  then Some (errorString "section title is required")
  else if (length (AccountTypes section) =? 0)%nat && (length (Filters section) =? 0)%nat
  then Some (errorString "section must specify either account types or filters")
  else None.

(** The loop of [ValidateDefinition] over the sections. *)
Fixpoint validateSections (sections : list ReportSection) : option error :=
  match sections with
  | [] => None
  | section :: rest =>
      match validateSection section with
      | Some e => Some (wrapError ("invalid section " ++ Section_ID section) e)
      | None => validateSections rest
      end
  end.

(** [ValidateDefinition]; [None] is the nil pointer. *)
Definition ValidateDefinition (def : option ReportDefinition) : option error :=
  match def with
  | None => Some (errorString "report definition cannot be nil")
  | Some def =>
      if String.eqb (Def_Type def) ""
      then Some (errorString "report type is required")
      else if String.eqb (Def_Name def) ""
      then Some (errorString "report name is required")
      else if (length (Sections def) =? 0)%nat
      then Some (errorString "report must have at least one section")
      else validateSections (Sections def)
  end.

Section Generator.
(** The [ReportStorage] behind the generator, with its state: of its
    methods the generator calls [SaveDefinition] and [LoadDefinition]. *)
Context {Storage : Type}.
Variable saveDefinition : Storage -> option ReportDefinition -> Storage * option error.
Variable loadDefinition : Storage -> string -> result ReportDefinition.
Variable calculator : statements.ReportCalculator.

Definition SaveDefinition (st : Storage) (def : option ReportDefinition)
  : Storage * option error :=
  match ValidateDefinition def with
  | Some e => (st, Some (wrapError "invalid report definition" e))
  | None => saveDefinition st def
  end.

Definition LoadDefinition (st : Storage) (id : string) : result ReportDefinition :=
  loadDefinition st id.

Definition getAccountsForSection (section : ReportSection) : result (list Account) :=
  Err (errorString "getAccountsForSection not implemented").

Definition createReportLine (acc : Account) (section : ReportSection)
  (opts : ReportOptions) : outcome (result ReportLine) :=
  match statements.calcBalance calculator (account.ID acc) (Period opts) with
  | Panicked msg => Panicked msg
  | Returned (Err e) => Returned (Err (wrapError "error calculating balance" e))
  | Returned (Ok balance) =>
      let line := mkReportLine (account.ID acc) (account.Code acc) (account.Name acc)
                    balance None in
      match Previous opts with
      | None => Returned (Ok line)
      | Some previous =>
          match statements.calcBalance calculator (account.ID acc) previous with
          | Panicked msg => Panicked msg
          | Returned (Err e) =>
              Returned (Err (wrapError "error calculating previous balance" e))
          | Returned (Ok prevBalance) =>
              Returned (Ok (mkReportLine (account.ID acc) (account.Code acc)
                              (account.Name acc) balance (Some prevBalance)))
          end
      end
  end.

Definition appendLine (report : Report) (line : ReportLine) : Report :=
  mkReport (Report_ID report) (Report_Type report) (Report_Title report)
    (Report_Period report) (Report_Previous report) (Report_Currency report)
    (GeneratedAt report) (Lines report ++ [line])%list.

(** The loop of [processSection] over the accounts. *)
Fixpoint createLines (report : Report) (accounts : list Account)
  (section : ReportSection) (opts : ReportOptions) : outcome (Report * option error) :=
  match accounts with
  | [] => Returned (report, None)
  | acc :: rest =>
      match createReportLine acc section opts with
      | Panicked msg => Panicked msg
      | Returned (Err e) =>
          Returned (report,
                    Some (wrapError ("error creating report line for account "
                                     ++ account.ID acc) e))
      | Returned (Ok line) => createLines (appendLine report line) rest section opts
      end
  end.

Definition applyCalculation (report : Report) (calc : Calculation)
  (opts : ReportOptions) : option error := None.

Definition applyCalculationRule (report : Report) (rule : CalculationRule)
  (opts : ReportOptions) : option error := None.

Definition applyValidationRule (report : Report) (rule : ValidationRule)
  : option error := None.

Fixpoint applySectionCalculations (report : Report) (calcs : list Calculation)
  (opts : ReportOptions) : option error :=
  match calcs with
  | [] => None
  | calc :: rest =>
      match applyCalculation report calc opts with
      | Some e =>
          Some (wrapError ("error applying calculation " ++ Calculation_ID calc) e)
      | None => applySectionCalculations report rest opts
      end
  end.

Fixpoint applyCalculations (report : Report) (rules : list CalculationRule)
  (opts : ReportOptions) : option error :=
  match rules with
  | [] => None
  | rule :: rest =>
      match applyCalculationRule report rule opts with
      | Some e =>
          Some (wrapError ("error applying calculation rule " ++ Rule_ID rule) e)
      | None => applyCalculations report rest opts
      end
  end.

Fixpoint validateReport (report : Report) (rules : list ValidationRule)
  : option error :=
  match rules with
  | [] => None
  | rule :: rest =>
      match applyValidationRule report rule with
      | Some e =>
          Some (wrapError ("validation rule " ++ Validation_ID rule ++ " failed") e)
      | None => validateReport report rest
      end
  end.

Definition processSection (report : Report) (section : ReportSection)
  (opts : ReportOptions) : outcome (Report * option error) :=
  match getAccountsForSection section with
  | Err e => Returned (report, Some (wrapError "error getting accounts" e))
  | Ok accounts =>
      match createLines report accounts section opts with
      | Panicked msg => Panicked msg
      | Returned (report, Some e) => Returned (report, Some e)
      | Returned (report, None) =>
          match applySectionCalculations report (Calculations section) opts with
          | Some e =>
              Returned (report, Some (wrapError "error applying section calculations" e))
          | None => Returned (report, None)
          end
      end
  end.

(** The loop of [GenerateReport] over the sections. *)
Fixpoint processSections (report : Report) (sections : list ReportSection)
  (opts : ReportOptions) : outcome (Report * option error) :=
  match sections with
  | [] => Returned (report, None)
  | section :: rest =>
      match processSection report section opts with
      | Panicked msg => Panicked msg
      | Returned (report, Some e) =>
          Returned (report,
                    Some (wrapError ("error processing section " ++ Section_ID section)
                            e))
      | Returned (report, None) => processSections report rest opts
      end
  end.

Definition generateReportID (clk : Clock) : string := "RPT_" ++ itoa (clk 0%nat).

(** [GenerateReport]; reading [def.Type] through a nil pointer would
    panic. *)
Definition GenerateReport (clk : Clock) (def : option ReportDefinition)
  (opts : ReportOptions) : outcome (result Report) :=
  match ValidateDefinition def, def with
  | Some e, _ => Returned (Err (wrapError "invalid report definition" e))
  | None, None => Panicked "invalid memory address or nil pointer dereference"
  | None, Some def =>
      let report := mkReport (generateReportID clk) (Def_Type def) (Def_Name def)
                      (Period opts) (Previous opts) (Opt_Currency opts)
                      (clk 1%nat) [] in
      match processSections report (Sections def) opts with
      | Panicked msg => Panicked msg
      | Returned (_, Some e) => Returned (Err e)
      | Returned (report, None) =>
          match applyCalculations report (Rules def) opts with
          | Some e => Returned (Err (wrapError "error applying calculations" e))
          | None =>
              match validateReport report (Validations def) with
              | Some e => Returned (Err (wrapError "report validation failed" e))
              | None => Returned (Ok report)
              end
          end
      end
  end.

End Generator.

End generator.

(** ** Fixtures of the test suites *)
Module fixtures.
Import money account transaction processor reporting.

Definition usd (n : Z) : Money := mkMoney (decimal.NewFromInt n) "USD".

(** [NewTestTransaction] of the processor tests. *)
Definition NewTestTransaction : Transaction :=
  mkTransaction "TX001" Journal Draft 0 "Test Transaction"
    [ mkEntry "ACC001" (usd 100) Debit "Debit Entry";
      mkEntry "ACC002" (usd 100) Credit "Credit Entry" ]
    "test-user" 0 0 None None "" None "" "".

(** The same transaction with another id and in another state. *)
Definition testTransaction (id : string) (st : TransactionStatus) : Transaction :=
  mkTransaction id Journal st 0 "Test Transaction" (Entries NewTestTransaction)
    "test-user" 0 0 None None "" None "" "".

(** The rejected transactions of [TestBasicValidator_Validate]. *)
Definition withEntries (id : string) (entries : list Entry) : Transaction :=
  mkTransaction id Journal Draft 0 "" entries "" 0 0 None None "" None "" "".

Definition insufficientEntries : Transaction :=
  withEntries "TX002" [ mkEntry "ACC001" (usd 100) Debit "" ].

Definition unbalanced : Transaction :=
  withEntries "TX003"
    [ mkEntry "ACC001" (usd 100) Debit ""; mkEntry "ACC002" (usd 50) Credit "" ].

Definition mixedCurrencies : Transaction :=
  withEntries "TX004"
    [ mkEntry "ACC001" (usd 100) Debit "";
      mkEntry "ACC002" (mkMoney (decimal.NewFromInt 100) "EUR") Credit "" ].

Definition duplicateAccount : Transaction :=
  withEntries "TX005"
    [ mkEntry "ACC001" (usd 100) Debit ""; mkEntry "ACC001" (usd 100) Credit "" ].

Definition zeroAmounts : Transaction :=
  withEntries "TX001"
    [ mkEntry "ACC001" (mkMoney decimal.Zero "USD") Debit "";
      mkEntry "ACC002" (mkMoney decimal.Zero "USD") Credit "" ].

(** The first error code of a validation result, [""] when there is none. *)
Definition firstCode (r : ValidationResult * option error) : string :=
  match Errors (fst r) with
  | e :: _ => Code e
  | [] => ""
  end.

(** [assert.AnError]. *)
Definition AnError : error := errorString "assert.AnError general error for testing".

(** The mock of the "storage error" case: every [Update] fails. *)
Definition failingRepository : MockRepository :=
  mkMockRepository (fun _ => Err (errorString "transaction not found"))
    (fun _ => Some AnError).

(** The mock of the "storage error with rollback" case: [Update]
    succeeds for TX001 and fails for TX002. *)
Definition rollbackRepository : MockRepository :=
  mkMockRepository (fun _ => Err (errorString "transaction not found"))
    (fun tx => if String.eqb (transaction.ID tx) "TX002" then Some AnError else None).

(** The test transaction once posted at time 5, and a ledger holding it. *)
Definition postedTransaction : Transaction := markPosted 5 NewTestTransaction.

Definition postedLedger : Ledger := <["TX001" := postedTransaction]> ∅.

Definition clock0 : Clock := fun k => (10 + Z.of_nat k).

(** An asset account kept in euros, and stores that know it and hold no
    transactions for it. *)
Definition euroAccount : Account :=
  mkAccount "ACC-EUR" "1000" "Cash EUR" Asset Active None 0 0
    (Some (mkMoney (decimal.NewFromInt 0) "EUR")).

Definition euroStores : Stores :=
  mkStores (fun id => if String.eqb id "ACC-EUR" then Ok euroAccount
                      else Err (errorString "account not found"))
    (fun _ => Ok []).

(** The asset account ACC001 and stores that answer every query with the
    posted test transaction. *)
Definition cashAccount : Account :=
  mkAccount "ACC001" "1001" "Cash" Asset Active None 0 0 (Some (usd 0)).

Definition cashStores : Stores :=
  mkStores (fun id => if String.eqb id "ACC001" then Ok cashAccount
                      else Err (errorString "account not found"))
    (fun _ => Ok [postedTransaction]).

Definition anyPeriod : ReportPeriod := mkReportPeriod 0 100.

(** The entities of [TestMemoryStore] and the stores its steps reach. *)
Definition created : memory.TestEntity := memory.mkTestEntity "test1" 0 "test data".
Definition updated : memory.TestEntity := memory.mkTestEntity "test1" 1 "updated data".
Definition conflicting : memory.TestEntity :=
  memory.mkTestEntity "test1" 1 "conflict data".

Definition emptyStore : memory.MemoryStore memory.TestEntity := memory.NewMemoryStore.
Definition storeAfterCreate : memory.MemoryStore memory.TestEntity :=
  fst (memory.Create clock0 emptyStore created).
Definition storeAfterUpdate : memory.MemoryStore memory.TestEntity :=
  fst (memory.Update clock0 storeAfterCreate updated).

(** A run in the manner of the "Audit Trail" test: create, update, an
    update with a stale version, delete, and a second delete that finds
    nothing. *)
Definition auditScript : list (Clock * memory.Mutation memory.TestEntity) :=
  [ (clock0, memory.DoCreate created);
    (clock0, memory.DoUpdate updated);
    (clock0, memory.DoUpdate conflicting);
    (clock0, memory.DoDelete ["*memory.TestEntity"] "test1");
    (clock0, memory.DoDelete ["*memory.TestEntity"] "test1") ].

End fixtures.

(** ** Further sample data *)
Module samples.
Import money account transaction processor reporting statements.

(** A ledger holding the test transaction while it is still a draft. *)
Definition draftLedger : Ledger := <["TX001" := fixtures.NewTestTransaction]> ∅.

(** The ledger after the posted test transaction was reversed. *)
Definition reversedLedger : Ledger :=
  fst (ReverseTransaction fixtures.clock0 fixtures.postedLedger "TX001" "error").

(** A batch of two drafts and the recording ledger it is posted to. *)
Definition draftBatch : list Transaction :=
  [fixtures.NewTestTransaction; fixtures.testTransaction "TX002" Draft].

Definition emptyRecorded : Recorded Ledger := (∅, []).

Definition postedBatchStore : Recorded Ledger :=
  (<["TX002" := markPosted 10 (fixtures.testTransaction "TX002" Draft)]>
     (<["TX001" := markPosted 10 fixtures.NewTestTransaction]> ∅),
   map (markPosted 10) draftBatch).

(** The "Audit Trail" test of the store: one [SimpleEntity] behind a
    pointer, as it is when [Create] is called and as it is, after
    [entity.data = "updated audit test"], when [Update] is called. *)
Definition auditEntity : memory.Ref := 0%nat.

Definition memoryAtCreate : memory.Memory memory.SimpleEntity :=
  fun _ => memory.mkSimpleEntity "test2" "audit test".

Definition memoryAtUpdate : memory.Memory memory.SimpleEntity :=
  fun _ => memory.mkSimpleEntity "test2" "updated audit test".

Definition emptyRefStore : memory.MemoryStore memory.Ref := memory.NewMemoryStore.

Definition refStoreAfterCreate : memory.MemoryStore memory.Ref :=
  fst (memory.CreateIn memoryAtCreate fixtures.clock0 emptyRefStore auditEntity).

Definition refStoreAfterUpdate : memory.MemoryStore memory.Ref :=
  fst (memory.UpdateIn memoryAtUpdate fixtures.clock0 refStoreAfterCreate auditEntity).

(** A debit of 100 against an entry of 100 whose type is the empty
    string, the zero value of [EntryType]. *)
Definition untypedEntries : Transaction :=
  fixtures.withEntries "TX006"
    [ mkEntry "ACC001" (fixtures.usd 100) Debit "";
      mkEntry "ACC002" (fixtures.usd 100) (entryType "") "" ].

(** The chart of accounts of [TestGenerateBalanceSheet], with one asset
    account more whose balance is zero. *)
Definition chartAccount (id name : string) (accountType : AccountType) : Account :=
  mkAccount id "" name accountType Active None 0 0 None.

Definition chart (accountType : AccountType) : list Account :=
  match accountType with
  | Asset => [chartAccount "1001" "Cash" Asset;
              chartAccount "1002" "Accounts Receivable" Asset;
              chartAccount "1003" "Prepaid Rent" Asset]
  | Liability => [chartAccount "2001" "Accounts Payable" Liability]
  | Equity => [chartAccount "3001" "Retained Earnings" Equity]
  | Revenue => [chartAccount "4001" "Sales Revenue" Revenue]
  | Expense => [chartAccount "5001" "Operating Expenses" Expense]
  end.

Definition chartBalance (accountID : string) : Z :=
  if String.eqb accountID "1001" then 1000
  else if String.eqb accountID "1002" then 500
  else if String.eqb accountID "2001" then 300
  else if String.eqb accountID "3001" then 1200
  else if String.eqb accountID "4001" then 5000
  else if String.eqb accountID "5001" then 3000
  else 0.

(** A calculator that answers with these figures whatever the period:
    the balance of an account, and a change from nothing to it. *)
Definition chartCalculator : ReportCalculator :=
  mkReportCalculator
    (fun accountID _ => Returned (Ok (fixtures.usd (chartBalance accountID))))
    (fun accountID _ =>
       Returned (Ok (mkBalanceChange (fixtures.usd 0)
                       (fixtures.usd (chartBalance accountID))
                       (fixtures.usd (chartBalance accountID)) []))).

Definition chartGenerator : Generator :=
  mkGenerator chartCalculator (fun accountType => Ok (chart accountType)).

Definition summaryOptions : StatementOptions := mkStatementOptions false 0 "summary" "USD".

Definition comparativeOptions : StatementOptions :=
  mkStatementOptions true 12 "detailed" "USD".

(** A stand-in for [AddDate] that counts months of thirty days. *)
Definition thirtyDayMonths (t : Time) (years months days : Z) : Time :=
  t + ((years * 12 + months) * 30 + days) * 86400000000000.

End samples.

(** * Properties *)

(** ** Decimal arithmetic denotes rational arithmetic *)
Section DecimalFacts.
Import decimal.

Lemma ten_pow_nonzero (e : Z) : ~ ((10 # 1) ^ e == 0)%Q.
Proof. apply Qpower_not_0. discriminate. Qed.

Lemma rescale_dval (d : Decimal) (e : Z) :
  e <= exp d -> (inject_Z (rescale d e) * (10 # 1) ^ e == dval d)%Q.
Proof.
  intros Hle. unfold rescale, dval.
  rewrite inject_Z_mult, Zpower_Qpower by lia.
  replace (exp d) with ((exp d - e) + e) at 2 by lia.
  rewrite (Qpower_plus (inject_Z 10)) by discriminate.
  change (inject_Z 10) with (10 # 1).
  ring.
Qed.

Lemma dval_Add (a b : Decimal) : (dval (Add a b) == dval a + dval b)%Q.
Proof.
  rewrite <- (rescale_dval a (Z.min (exp a) (exp b))) by lia.
  rewrite <- (rescale_dval b (Z.min (exp a) (exp b))) by lia.
  unfold Add, dval at 1; cbn [value exp].
  rewrite inject_Z_plus. ring.
Qed.

Lemma dval_Sub (a b : Decimal) : (dval (Sub a b) == dval a - dval b)%Q.
Proof.
  rewrite <- (rescale_dval a (Z.min (exp a) (exp b))) by lia.
  rewrite <- (rescale_dval b (Z.min (exp a) (exp b))) by lia.
  unfold Sub, dval at 1; cbn [value exp].
  unfold Z.sub. rewrite inject_Z_plus, inject_Z_opp. ring.
Qed.

Lemma Equal_dval (a b : Decimal) : Equal a b = true <-> (dval a == dval b)%Q.
Proof.
  set (e := Z.min (exp a) (exp b)).
  rewrite <- (rescale_dval a e), <- (rescale_dval b e) by (subst e; lia).
  unfold Equal, Cmp. fold e.
  split.
  - destruct (Z.compare_spec (rescale a e) (rescale b e)) as [Heq| |];
      try discriminate.
    intros _. rewrite Heq. reflexivity.
  - intros Heq. apply Qmult_inj_r in Heq; [|apply ten_pow_nonzero].
    apply (proj1 (inject_Z_injective _ _)) in Heq.
    rewrite Heq, Z.compare_refl. reflexivity.
Qed.

Lemma dval_zeroValue : (dval zeroValue == 0)%Q.
Proof. reflexivity. Qed.

Lemma dval_Zero : (dval Zero == 0)%Q.
Proof. reflexivity. Qed.

End DecimalFacts.

(** ** The structural validator *)
Section ValidatorFacts.
Import money transaction processor.

Lemma sideTotal_cons (side : EntryType) (e : Entry) (es : list Entry) :
  sideTotal side (e :: es) =
  if decide (Entry_Type e = side)
  then (decimal.dval (Amount (Entry_Amount e)) + sideTotal side es)%Q
  else sideTotal side es.
Proof.
  unfold sideTotal. rewrite filter_cons.
  destruct (decide (Entry_Type e = side)); reflexivity.
Qed.

Lemma sideTotal_app (side : EntryType) (es1 es2 : list Entry) :
  (sideTotal side (es1 ++ es2) == sideTotal side es1 + sideTotal side es2)%Q.
Proof.
  induction es1 as [|e es1 IH]; cbn [app].
  - change (sideTotal side []) with 0%Q. ring.
  - rewrite !sideTotal_cons. case_decide; rewrite IH; ring.
Qed.

Lemma nonDebitTotal_cons (e : Entry) (es : list Entry) :
  nonDebitTotal (e :: es) =
  if decide (Entry_Type e = Debit)
  then nonDebitTotal es
  else (decimal.dval (Amount (Entry_Amount e)) + nonDebitTotal es)%Q.
Proof.
  unfold nonDebitTotal. rewrite filter_cons.
  destruct (decide (Entry_Type e <> Debit)), (decide (Entry_Type e = Debit));
    try contradiction; reflexivity.
Qed.

Lemma nonDebitTotal_app (es1 es2 : list Entry) :
  (nonDebitTotal (es1 ++ es2) == nonDebitTotal es1 + nonDebitTotal es2)%Q.
Proof.
  induction es1 as [|e es1 IH]; cbn [app].
  - change (nonDebitTotal []) with 0%Q. ring.
  - rewrite !nonDebitTotal_cons. case_decide; rewrite IH; ring.
Qed.

(** When every entry is a debit or a credit, the entries that are not
    debits are the credits. *)
Lemma nonDebitTotal_sided (es : list Entry) :
  Forall sided es -> nonDebitTotal es = sideTotal Credit es.
Proof.
  induction 1 as [|e es He _ IH]; [reflexivity|].
  rewrite nonDebitTotal_cons, sideTotal_cons, IH.
  destruct He as [He|He]; rewrite He; repeat case_decide; congruence.
Qed.

(** What one iteration past the first does to the loop state. *)
Lemma validateEntry_later (k : nat) (e : Entry) (st : validateState) :
  let st' := validateEntry (S k) e st in
  currency st' = currency st /\
  (decimal.dval (Amount (totalDebits st')) ==
     decimal.dval (Amount (totalDebits st)) + sideTotal Debit [e])%Q /\
  (decimal.dval (Amount (totalCredits st')) ==
     decimal.dval (Amount (totalCredits st)) + nonDebitTotal [e])%Q /\
  (Valid (vResult st') = true ->
     Valid (vResult st) = true /\ Currency (Entry_Amount e) = currency st).
Proof.
  unfold validateEntry. rewrite !sideTotal_cons, !nonDebitTotal_cons.
  destruct (money.IsZero (Entry_Amount e)), (money.IsNegative (Entry_Amount e)),
    (String.eqb_spec (Currency (Entry_Amount e)) (currency st)),
    (bool_decide (Entry_AccountID e ∈ seenAccounts st)),
    (Entry_Type e) eqn:Hty;
    cbn -[decimal.dval decimal.Add Qplus];
    repeat split; try discriminate; try tauto;
    unfold sideTotal, nonDebitTotal; cbn -[decimal.dval decimal.Add Qplus decide];
    repeat case_decide; try discriminate; try congruence; rewrite ?dval_Add; ring.
Qed.

(** The loop from a later index on: totals grow by the side sums, the
    currency stays, and a result still valid at the end was valid before
    and met no foreign currency. *)
Lemma validateEntries_later (es : list Entry) : forall (k : nat) (st : validateState),
  let st' := validateEntries (S k) es st in
  currency st' = currency st /\
  (decimal.dval (Amount (totalDebits st')) ==
     decimal.dval (Amount (totalDebits st)) + sideTotal Debit es)%Q /\
  (decimal.dval (Amount (totalCredits st')) ==
     decimal.dval (Amount (totalCredits st)) + nonDebitTotal es)%Q /\
  (Valid (vResult st') = true ->
     Valid (vResult st) = true /\
     Forall (fun e => Currency (Entry_Amount e) = currency st) es).
Proof.
  induction es as [|e es IH]; intros k st; cbn [validateEntries].
  - repeat split; try (unfold sideTotal, nonDebitTotal; cbn; ring); auto.
  - destruct (IH (S k) (validateEntry (S k) e st)) as (Hc & Hd & Hcr & Hv).
    destruct (validateEntry_later k e st) as (Hc1 & Hd1 & Hcr1 & Hv1).
    cbv zeta in *. repeat split.
    + congruence.
    + rewrite Hd, Hd1, !sideTotal_cons.
      repeat case_decide; unfold sideTotal; cbn -[decimal.dval Qplus]; ring.
    + rewrite Hcr, Hcr1, !nonDebitTotal_cons.
      repeat case_decide; unfold nonDebitTotal; cbn -[decimal.dval Qplus]; ring.
    + apply Hv in H as [H _]. apply Hv1 in H as [H _]. exact H.
    + pose proof H as H'. apply Hv in H' as [H1 H2]. apply Hv1 in H1 as [_ H1].
      constructor; [exact H1|]. rewrite Hc1 in H2. exact H2.
Qed.

(** The first iteration seeds both totals with the first amount. *)
Lemma validateEntry_first (e : Entry) (st : validateState) :
  let st' := validateEntry 0 e st in
  currency st' = Currency (Entry_Amount e) /\
  (decimal.dval (Amount (totalDebits st')) ==
     decimal.dval (Amount (Entry_Amount e)) + sideTotal Debit [e])%Q /\
  (decimal.dval (Amount (totalCredits st')) ==
     decimal.dval (Amount (Entry_Amount e)) + nonDebitTotal [e])%Q.
Proof.
  unfold validateEntry.
  destruct (money.IsZero (Entry_Amount e)), (money.IsNegative (Entry_Amount e)),
    (bool_decide (Entry_AccountID e ∈ seenAccounts st)),
    (Entry_Type e) eqn:Hty;
    cbn -[decimal.dval decimal.Add Qplus];
    repeat split; try reflexivity; rewrite ?sideTotal_cons, ?nonDebitTotal_cons, ?Hty;
    unfold sideTotal, nonDebitTotal; cbn -[decimal.dval decimal.Add Qplus decide];
    repeat case_decide; try discriminate; try congruence;
    cbn -[decimal.dval decimal.Add Qplus]; rewrite ?dval_Add; ring.
Qed.

Lemma Validate_entries (tx : Transaction) :
  Valid (fst (Validate tx)) = true ->
  exists first rest, Entries tx = first :: rest /\
    let st := validateEntries 1 rest
                (validateEntry 0 first
                   (mkValidateState (mkValidationResult true [] [])
                      money.zeroValue money.zeroValue ∅ "")) in
    Valid (vResult st) = true /\
    decimal.Equal (Amount (totalDebits st)) (Amount (totalCredits st)) = true.
Proof.
  unfold Validate. destruct (Entries tx) as [|first rest] eqn:HE.
  - cbn. discriminate.
  - intros HV. exists first, rest. split; [reflexivity|].
    cbn [fst] in HV. cbn [validateEntries] in HV.
    destruct (length (first :: rest) <? 2)%nat eqn:Hlen.
    + exfalso. revert HV.
      set (st0 := mkValidateState _ _ _ _ _).
      destruct (validateEntries_later rest 0 (validateEntry 0 first st0))
        as (_ & _ & _ & Hv).
      destruct (decimal.Equal _ _); cbn [negb]; [|discriminate].
      intros HV. apply Hv in HV as [HV _]. revert HV. clear.
      unfold validateEntry, st0.
      destruct (money.IsZero _), (money.IsNegative _), (bool_decide _), (Entry_Type _);
        cbn; discriminate.
    + cbv zeta. revert HV.
      destruct (decimal.Equal _ _); cbn [negb]; [|discriminate]. auto.
Qed.

End ValidatorFacts.

(** The verdicts the validator tests expect. *)
Example validator_test_cases :
  transaction.Valid (fst (processor.Validate fixtures.NewTestTransaction)) = true /\
  fixtures.firstCode (processor.Validate fixtures.insufficientEntries) =
    processor.ErrCodeInsufficientEntries /\
  fixtures.firstCode (processor.Validate fixtures.unbalanced) =
    processor.ErrCodeUnbalanced /\
  fixtures.firstCode (processor.Validate fixtures.mixedCurrencies) =
    processor.ErrCodeMixedCurrencies /\
  fixtures.firstCode (processor.Validate fixtures.duplicateAccount) =
    processor.ErrCodeDuplicateAccount /\
  fixtures.firstCode (processor.Validate fixtures.zeroAmounts) =
    processor.ErrCodeInvalidAmount.
Proof. repeat split; vm_compute; reflexivity. Qed.

(** What holds of every accepted transaction: the debit total equals
    the total of the entries that are not debits, and there is a single
    currency. *)
Lemma Validate_balances_debits_against_the_rest (tx : transaction.Transaction) :
  transaction.Valid (fst (processor.Validate tx)) = true ->
  (transaction.sideTotal transaction.Debit (transaction.Entries tx) ==
   transaction.nonDebitTotal (transaction.Entries tx))%Q /\
  exists cur : string,
    Forall (fun e => money.Currency (transaction.Entry_Amount e) = cur)
      (transaction.Entries tx).
Proof.
  intros HV. apply Validate_entries in HV as (first & rest & HE & Hvalid & Heq).
  cbv zeta in Hvalid, Heq. rewrite HE.
  set (st0 := processor.mkValidateState _ _ _ _ _) in *.
  destruct (validateEntries_later rest 0 (processor.validateEntry 0 first st0))
    as (Hc & Hd & Hcr & Hv).
  destruct (validateEntry_first first st0) as (Hc1 & Hd1 & Hcr1).
  cbv zeta in *. apply Equal_dval in Heq. split.
  - rewrite Hd, Hcr, Hd1, Hcr1 in Heq.
    rewrite (sideTotal_cons _ first rest), (nonDebitTotal_cons first rest).
    rewrite (sideTotal_cons _ first []), (nonDebitTotal_cons first []) in Heq.
    revert Heq. repeat case_decide; try congruence;
      change (transaction.sideTotal _ []) with 0%Q;
      change (transaction.nonDebitTotal []) with 0%Q; lra.
  - exists (money.Currency (transaction.Entry_Amount first)).
    apply Hv in Hvalid as [_ HF]. rewrite Hc1 in HF.
    constructor; [reflexivity | exact HF].
Qed.

(** C1. The structural validator does not enforce that debits equal
    credits: it adds every entry that is not a debit to its credit total,
    whatever the entry's type.  On a debit of 100 and an entry of 100
    whose type is the empty string it returns [Valid = true] with no
    error, although the debit entries sum to 100 and the credit entries
    to 0.  What an accepted transaction does satisfy is a single currency
    and a debit total equal to the total of all other entries, hence to
    the credit total when every entry is a debit or a credit. *)
Theorem validate_accepts_an_untyped_entry_as_credit :
  (transaction.Valid (fst (processor.Validate samples.untypedEntries)) = true /\
   transaction.Errors (fst (processor.Validate samples.untypedEntries)) = [] /\
   (transaction.sideTotal transaction.Debit
      (transaction.Entries samples.untypedEntries) == inject_Z 100)%Q /\
   (transaction.sideTotal transaction.Credit
      (transaction.Entries samples.untypedEntries) == 0)%Q) /\
  (forall tx : transaction.Transaction,
     transaction.Valid (fst (processor.Validate tx)) = true ->
     ((transaction.sideTotal transaction.Debit (transaction.Entries tx) ==
       transaction.nonDebitTotal (transaction.Entries tx))%Q /\
      exists cur : string,
        Forall (fun e => money.Currency (transaction.Entry_Amount e) = cur)
          (transaction.Entries tx)) /\
     (Forall transaction.sided (transaction.Entries tx) ->
      (transaction.sideTotal transaction.Debit (transaction.Entries tx) ==
       transaction.sideTotal transaction.Credit (transaction.Entries tx))%Q)).
Proof.
  split.
  - split; [vm_compute; reflexivity|]. split; [vm_compute; reflexivity|].
    split; vm_compute; reflexivity.
  - intros tx HV.
    pose proof (Validate_balances_debits_against_the_rest tx HV) as [Hbal Hcur].
    split; [split; [exact Hbal|exact Hcur]|].
    intros Hsided. rewrite <- (nonDebitTotal_sided _ Hsided). exact Hbal.
Qed.

(** ** The transaction summary *)
Section SummaryFacts.
Import money transaction processor.

Lemma summarize_fold (es : list Entry) : forall sm : TransactionSummary,
  let sm' := fold_left summarizeEntry es sm in
  (decimal.dval (Amount (TotalDebits sm')) ==
     decimal.dval (Amount (TotalDebits sm)) + sideTotal Debit es)%Q /\
  (decimal.dval (Amount (TotalCredits sm')) ==
     decimal.dval (Amount (TotalCredits sm)) + nonDebitTotal es)%Q /\
  EntryCount sm' = EntryCount sm /\
  AffectedAccounts sm' = (AffectedAccounts sm ++ map Entry_AccountID es)%list.
Proof.
  induction es as [|e es IH]; intros sm; cbn [fold_left].
  - change (sideTotal _ []) with 0%Q. change (nonDebitTotal []) with 0%Q.
    rewrite app_nil_r. repeat split; ring.
  - destruct (IH (summarizeEntry sm e)) as (Hd & Hc & Hn & Ha).
    cbv zeta in *. rewrite Hd, Hc, Hn, Ha, !sideTotal_cons, !nonDebitTotal_cons.
    unfold summarizeEntry.
    destruct (Entry_Type e); repeat case_decide; try congruence;
      cbn -[decimal.dval decimal.Add Qplus]; rewrite ?dval_Add, <- ?app_assoc;
      repeat split; ring.
Qed.

End SummaryFacts.

(** The claim of C10 fails on a debit of 100 with an entry of 100 whose
    type is the empty string: the summary's credit total is not the sum
    of the credit entries. *)
Lemma summary_counts_an_untyped_entry_as_credit :
  ~ (exists sm : transaction.TransactionSummary,
       processor.GetTransactionSummary samples.untypedEntries = Returned (sm, None) /\
       (decimal.dval (money.Amount (transaction.TotalCredits sm)) ==
        transaction.sideTotal transaction.Credit
          (transaction.Entries samples.untypedEntries))%Q).
Proof.
  intros (sm & Hsm & Hc). vm_compute in Hsm. injection Hsm as <-.
  vm_compute in Hc. discriminate.
Qed.

(** C10 (amended). [GetTransactionSummary] indexes the first entry
    without a length check: on an empty entry list the call panics; on a
    non-empty one it returns the debit total, as credit total the total
    of all entries that are not debits (the credit total when every entry
    is a debit or a credit), their difference as the net amount (in the
    first entry's currency) and the entry count. *)
Theorem transaction_summary_needs_an_entry (tx : transaction.Transaction) :
  match transaction.Entries tx with
  | [] =>
      processor.GetTransactionSummary tx =
      Panicked "index out of range [0] with length 0"
  | first :: _ =>
      exists sm : transaction.TransactionSummary,
        processor.GetTransactionSummary tx = Returned (sm, None) /\
        (decimal.dval (money.Amount (transaction.TotalDebits sm)) ==
           transaction.sideTotal transaction.Debit (transaction.Entries tx))%Q /\
        (decimal.dval (money.Amount (transaction.TotalCredits sm)) ==
           transaction.nonDebitTotal (transaction.Entries tx))%Q /\
        (Forall transaction.sided (transaction.Entries tx) ->
         (decimal.dval (money.Amount (transaction.TotalCredits sm)) ==
            transaction.sideTotal transaction.Credit (transaction.Entries tx))%Q) /\
        (decimal.dval (money.Amount (transaction.NetAmount sm)) ==
           decimal.dval (money.Amount (transaction.TotalDebits sm)) -
           decimal.dval (money.Amount (transaction.TotalCredits sm)))%Q /\
        money.Currency (transaction.NetAmount sm) =
          money.Currency (transaction.Entry_Amount first) /\
        transaction.EntryCount sm = length (transaction.Entries tx) /\
        transaction.AffectedAccounts sm =
          map transaction.Entry_AccountID (transaction.Entries tx)
  end.
Proof.
  unfold processor.GetTransactionSummary.
  destruct (transaction.Entries tx) as [|first rest] eqn:HE; [reflexivity|].
  destruct (summarize_fold (first :: rest)
              (transaction.mkTransactionSummary money.zeroValue money.zeroValue
                 money.zeroValue (length (first :: rest)) []))
    as (Hd & Hc & Hn & Ha).
  cbv zeta in Hd, Hc, Hn, Ha.
  eexists. split; [reflexivity|].
  cbn [transaction.TotalDebits transaction.TotalCredits
    transaction.NetAmount transaction.EntryCount transaction.AffectedAccounts
    money.Amount money.Currency].
  split; [rewrite Hd; cbn -[decimal.dval Qplus transaction.sideTotal];
          rewrite dval_zeroValue; ring|].
  assert (decimal.dval
            (money.Amount
               (transaction.TotalCredits
                  (fold_left processor.summarizeEntry (first :: rest)
                     (transaction.mkTransactionSummary money.zeroValue money.zeroValue
                        money.zeroValue (length (first :: rest)) [])))) ==
          transaction.nonDebitTotal (first :: rest))%Q as Hcredits.
  { rewrite Hc. cbn -[decimal.dval Qplus transaction.nonDebitTotal].
    rewrite dval_zeroValue. ring. }
  split; [exact Hcredits|].
  split; [intros Hsided; rewrite Hcredits, (nonDebitTotal_sided _ Hsided);
          reflexivity|].
  rewrite Hn, Ha, dval_Sub.
  repeat split; cbn -[decimal.dval Qplus]; ring.
Qed.

Lemma transaction_summary_needs_an_entry_witness :
  exists sm : transaction.TransactionSummary,
    processor.GetTransactionSummary samples.untypedEntries = Returned (sm, None) /\
    (decimal.dval (money.Amount (transaction.TotalCredits sm)) ==
     transaction.nonDebitTotal (transaction.Entries samples.untypedEntries))%Q /\
    transaction.EntryCount sm = 2%nat.
Proof.
  destruct (transaction_summary_needs_an_entry samples.untypedEntries)
    as (sm & Hsm & _ & Hc & _ & _ & _ & Hn & _).
  exists sm. split; [exact Hsm|]. split; [exact Hc|exact Hn].
Defined.

(** ** Posting a single transaction *)
Section ProcessFacts.
Import money transaction processor.
Context {Store : Type} `{Repository Store}.

(** A failure before the write leaves the object and the store as they
    were. *)
Lemma ProcessTransaction_rejected (clk : Clock) (s : Store) (tx : Transaction) :
  Valid (fst (Validate tx)) = false \/ canProcess (Status tx) = false ->
  exists e, ProcessTransaction clk s tx = (tx, s, Some e).
Proof.
  unfold ProcessTransaction, ValidateTransaction.
  destruct (Validate tx) as [res err] eqn:HV.
  assert (err = None) as -> by (unfold Validate in HV; congruence).
  cbn [fst]. intros [Hr|Hs].
  - rewrite Hr. cbn. eauto.
  - destruct (Valid res); cbn; [rewrite Hs; cbn|]; eauto.
Qed.

(** Once validation and the status check pass, the object is stamped
    before the write and keeps the stamp whatever the write answers. *)
Lemma ProcessTransaction_stamps (clk : Clock) (s : Store) (tx : Transaction) :
  Valid (fst (Validate tx)) = true -> canProcess (Status tx) = true ->
  ProcessTransaction clk s tx =
  (markPosted (clk 0%nat) tx,
   fst (repoUpdate s (markPosted (clk 0%nat) tx)),
   match snd (repoUpdate s (markPosted (clk 0%nat) tx)) with
   | Some e => Some (wrapError "failed to store transaction" e)
   | None => None
   end).
Proof.
  unfold ProcessTransaction, ValidateTransaction.
  destruct (Validate tx) as [res err] eqn:HV.
  assert (err = None) as -> by (unfold Validate in HV; congruence).
  cbn [fst]. intros -> ->. cbn [negb].
  destruct (repoUpdate s (markPosted (clk 0%nat) tx)) as [s' [e|]]; reflexivity.
Qed.

End ProcessFacts.

(** C2. When the store rejects the write, [ProcessTransaction] returns
    the failure but the caller's transaction object stays Posted with
    posted-at set: it is not put back to Draft.  Evaluated on the
    "storage error" case of the processor tests. *)
Theorem failed_store_leaves_transaction_posted (clk : Clock) :
  processor.ProcessTransaction clk fixtures.failingRepository
    fixtures.NewTestTransaction =
  (processor.markPosted (clk 0%nat) fixtures.NewTestTransaction,
   fixtures.failingRepository,
   Some (wrapError "failed to store transaction" fixtures.AnError)) /\
  transaction.Status fixtures.NewTestTransaction = transaction.Draft /\
  transaction.Status (processor.markPosted (clk 0%nat) fixtures.NewTestTransaction) =
    transaction.Posted /\
  transaction.PostedAt (processor.markPosted (clk 0%nat) fixtures.NewTestTransaction) =
    Some (clk 0%nat).
Proof. repeat split. Qed.

(** ** Voiding *)
Section VoidFacts.
Import money transaction processor.
Context {Store : Type} `{Repository Store}.

(** The first call: a Posted transaction without voided-at is stamped
    and written. *)
Lemma VoidTransaction_posted (clk : Clock) (s : Store) (txID reason : string)
  (tx : Transaction) :
  repoRead s txID = Ok tx -> Status tx = Posted -> VoidedAt tx = None ->
  let tx' := markVoided (clk 0%nat) reason tx in
  Status tx' = Voided /\ VoidedAt tx' = Some (clk 0%nat) /\ VoidReason tx' = reason /\
  VoidTransaction clk s txID reason =
    (fst (repoUpdate s tx'),
     match snd (repoUpdate s tx') with
     | Some e => Some (wrapError "failed to store voided transaction" e)
     | None => None
     end).
Proof.
  intros Hread Hst Hv tx'. repeat split.
  unfold VoidTransaction, GetTransaction. rewrite Hread, Hst, Hv. fold tx'.
  destruct (repoUpdate s tx') as [s' [e|]]; reflexivity.
Qed.

(** Any later call finds the status Voided and stops at the status
    check. *)
Lemma VoidTransaction_voided (clk : Clock) (s : Store) (txID reason : string)
  (tx : Transaction) :
  repoRead s txID = Ok tx -> Status tx = Voided ->
  VoidTransaction clk s txID reason =
    (s, Some (errorString "only posted transactions can be voided")).
Proof.
  intros Hread Hst. unfold VoidTransaction, GetTransaction.
  rewrite Hread, Hst. reflexivity.
Qed.

End VoidFacts.

(** C5. Voiding a Posted transaction succeeds and stores it as Voided
    with voided-at and the reason; the second call on the same id fails,
    but with the not-Posted error, never reaching the already-voided
    check. *)
Theorem second_void_reports_not_posted :
  processor.VoidTransaction fixtures.clock0 fixtures.postedLedger "TX001" "duplicate" =
  (<["TX001" := processor.markVoided 10 "duplicate"
                  fixtures.postedTransaction]>
     fixtures.postedLedger, None) /\
  processor.VoidTransaction fixtures.clock0
    (<["TX001" := processor.markVoided 10 "duplicate"
                    fixtures.postedTransaction]>
       fixtures.postedLedger) "TX001" "again" =
  (<["TX001" := processor.markVoided 10 "duplicate"
                  fixtures.postedTransaction]>
     fixtures.postedLedger,
   Some (errorString "only posted transactions can be voided")) /\
  errorString "only posted transactions can be voided" <>
  errorString "transaction is already voided".
Proof.
  split; [|split].
  - vm_compute. reflexivity.
  - vm_compute. reflexivity.
  - discriminate.
Qed.

(** ** The balance calculator *)

Section CalculatorFacts.
Import money account transaction reporting.

(** The inner loop over entries that all carry the currency [cur]: the
    balance moves by the normal-side total less the opposite-side total
    of these entries, whatever account each one references. *)
Lemma accumulateEntries_total (cur : string) (accountType : AccountType)
  (entries : list Entry) : forall balance : decimal.Decimal,
  Forall (fun e => Currency (Entry_Amount e) = cur) entries ->
  exists balance',
    accumulateEntries cur accountType balance entries = Ok balance' /\
    (decimal.dval balance' ==
     decimal.dval balance +
     (sideTotal (normalSide accountType) entries -
      sideTotal (Reverse (normalSide accountType)) entries))%Q.
Proof.
  induction entries as [|e es IH]; intros balance HF; cbn [accumulateEntries].
  - exists balance. split; [reflexivity|].
    change (sideTotal _ []) with 0%Q. ring.
  - inversion HF as [|? ? Hcur HF']; subst.
    unfold accumulateEntry. rewrite String.eqb_refl. cbn [negb].
    rewrite !sideTotal_cons. revert IH. unfold normalSide.
    destruct (Entry_Type e) eqn:Hty, (debitNormal accountType);
      cbn [Reverse]; intros IH;
      match goal with
      | |- context [accumulateEntries _ _ ?b es] =>
          destruct (IH b HF') as (b' & -> & Hb')
      end;
      exists b'; (split; [reflexivity|]);
      rewrite Hb', ?dval_Add, ?dval_Sub;
      repeat case_decide; try congruence; ring.
Qed.

Lemma accumulateTransactions_total (cur : string) (accountType : AccountType)
  (transactions : list Transaction) : forall balance : decimal.Decimal,
  Forall (fun e => Currency (Entry_Amount e) = cur)
    (concat (map Entries transactions)) ->
  exists balance',
    accumulateTransactions cur accountType balance transactions = Ok balance' /\
    (decimal.dval balance' ==
     decimal.dval balance +
     (sideTotal (normalSide accountType) (concat (map Entries transactions)) -
      sideTotal (Reverse (normalSide accountType))
        (concat (map Entries transactions))))%Q.
Proof.
  induction transactions as [|tx txs IH]; intros balance HF;
    cbn [accumulateTransactions map concat] in *.
  - exists balance. split; [reflexivity|].
    change (sideTotal _ []) with 0%Q. ring.
  - apply Forall_app in HF as [HF1 HF2].
    destruct (accumulateEntries_total cur accountType (Entries tx) balance HF1)
      as (b1 & -> & Hb1).
    destruct (IH b1 HF2) as (b2 & -> & Hb2).
    exists b2. split; [reflexivity|]. rewrite Hb2, Hb1.
    rewrite !sideTotal_app. ring.
Qed.

(** What [calculateBalanceFromTransactions] computes on single-currency
    input: the normal-direction rule over all entries of all the
    transactions, in the currency of the very first entry. *)
Lemma calculateBalance_sums_every_entry (transactions : list Transaction)
  (accountType : AccountType) (first : Transaction) (rest : list Transaction)
  (entry : Entry) (entries : list Entry) :
  transactions = first :: rest -> Entries first = entry :: entries ->
  Forall (fun e => Currency (Entry_Amount e) = Currency (Entry_Amount entry))
    (concat (map Entries transactions)) ->
  exists m : Money,
    calculateBalanceFromTransactions transactions accountType = Returned (Ok m) /\
    Currency m = Currency (Entry_Amount entry) /\
    (decimal.dval (Amount m) ==
     sideTotal (normalSide accountType) (concat (map Entries transactions)) -
     sideTotal (Reverse (normalSide accountType))
       (concat (map Entries transactions)))%Q.
Proof.
  intros -> Hfirst HF. unfold calculateBalanceFromTransactions. rewrite Hfirst.
  destruct (accumulateTransactions_total (Currency (Entry_Amount entry)) accountType
              (first :: rest) decimal.Zero HF) as (b & -> & Hb).
  eexists. split; [reflexivity|]. split; [reflexivity|].
  cbn [Amount]. rewrite Hb, dval_Zero. ring.
Qed.

End CalculatorFacts.

(** C3. [CalculateBalance] adds up every entry of the transactions the
    store returns, whatever account the entry references.  For the posted
    test transaction (100 debited to ACC001, 100 credited to ACC002) the
    asset account ACC001 gets 0, where the entries that reference ACC001
    give 100. *)
Theorem balance_counts_entries_of_other_accounts :
  exists m : money.Money,
    reporting.CalculateBalance fixtures.cashStores "ACC001" fixtures.anyPeriod =
      Returned (Ok m) /\
    (decimal.dval (money.Amount m) == 0)%Q /\
    (reporting.specBalance "ACC001" account.Asset
       [fixtures.postedTransaction] == 100)%Q.
Proof.
  eexists. split; [vm_compute; reflexivity|]. split; vm_compute; reflexivity.
Qed.

(** The claim of C4 fails on an account kept in euros: with no matching
    transaction the balance comes back in USD. *)
Lemma empty_balance_currency_counterexample :
  ~ (exists m : money.Money,
       reporting.CalculateBalance fixtures.euroStores "ACC-EUR" fixtures.anyPeriod =
         Returned (Ok m) /\
       money.IsZero m = true /\
       Some (money.Currency m) = reporting.accountCurrency fixtures.euroAccount).
Proof.
  intros (m & Hm & _ & Hcur).
  vm_compute in Hm. injection Hm as <-. vm_compute in Hcur. discriminate.
Qed.

(** C4 (amended). For every account the store knows and every period for
    which the store returns no transaction, [CalculateBalance] returns
    [decimal.Zero] in the fixed currency USD. *)
Theorem empty_balance_is_zero_usd (c : reporting.Stores) (accountID : string)
  (period : reporting.ReportPeriod) (acc : account.Account) :
  reporting.readAccount c accountID = Ok acc ->
  reporting.queryTransactions c (reporting.periodQuery accountID period) = Ok [] ->
  reporting.CalculateBalance c accountID period =
    Returned (Ok (money.mkMoney decimal.Zero "USD")) /\
  money.IsZero (money.mkMoney decimal.Zero "USD") = true.
Proof.
  intros Hacc Hq. unfold reporting.CalculateBalance, reporting.getTransactionsForPeriod.
  rewrite Hacc, Hq. split; reflexivity.
Qed.

Lemma empty_balance_is_zero_usd_witness :
  reporting.CalculateBalance fixtures.euroStores "ACC-EUR" fixtures.anyPeriod =
    Returned (Ok (money.mkMoney decimal.Zero "USD")) /\
  money.IsZero (money.mkMoney decimal.Zero "USD") = true.
Proof.
  apply (empty_balance_is_zero_usd fixtures.euroStores "ACC-EUR" fixtures.anyPeriod
           fixtures.euroAccount); reflexivity.
Defined.

(** ** Reversal *)
Section ReverseFacts.
Import money transaction processor.



End ReverseFacts.



(** ** Batch posting *)
Section BatchFacts.
Import money transaction processor.

Lemma preValidate_accepts (txs : list Transaction) :
  Forall (fun tx => postable tx = true) txs -> preValidate txs = None.
Proof.
  induction 1 as [|tx txs Htx _ IH]; [reflexivity|].
  cbn [preValidate]. unfold postable, ValidateTransaction in *.
  destruct (Validate tx) as [res err] eqn:HV.
  assert (err = None) as -> by (unfold Validate in HV; congruence).
  cbn [fst] in Htx. apply andb_prop in Htx as [-> ->]. exact IH.
Qed.

Lemma preValidate_rejects (txs : list Transaction) :
  Exists (fun tx => postable tx = false) txs -> exists e, preValidate txs = Some e.
Proof.
  induction txs as [|tx txs IH]; intros HE; [inversion HE|].
  cbn [preValidate]. unfold postable, ValidateTransaction in *.
  destruct (Validate tx) as [res err] eqn:HV.
  assert (err = None) as -> by (unfold Validate in HV; congruence).
  destruct (Valid res) eqn:Hres; cbn [negb]; [|eauto].
  destruct (canProcess (Status tx)) eqn:Hst; cbn [negb]; [|eauto].
  apply IH. inversion HE as [? ? Hhd|? ? Htl]; subst; [|exact Htl].
  cbv beta in Hhd. rewrite HV in Hhd. cbn [fst] in Hhd.
  rewrite Hres, Hst in Hhd. discriminate.
Qed.

(** The rollback loop over objects that are all Posted: each is turned
    into a Draft without posted-at and written, whatever the store
    answers. *)
Lemma rollback_recorded {Store : Type} `{Repository Store} (clk : Clock)
  (txs : list Transaction) : forall (k : nat) (s : Recorded Store),
  Forall (fun tx => Status tx = Posted) txs ->
  let drafts := imap (fun i tx => markDraft (clk (k + i)%nat) tx) txs in
  fst (rollback clk k s txs) = drafts /\
  snd (snd (rollback clk k s txs)) = (snd s ++ drafts)%list.
Proof.
  induction txs as [|tx txs IH]; intros k s HF; cbn [rollback imap].
  - split; [reflexivity|]. cbn. rewrite app_nil_r. reflexivity.
  - inversion HF as [|? ? Htx HF']; subst. rewrite Htx.
    cbn [repoUpdate recordedRepository].
    destruct (repoUpdate (fst s) (markDraft (clk k) tx)) as [s' err].
    specialize (IH (S k) (s', (snd s ++ [markDraft (clk k) tx])%list) HF').
    cbv zeta in IH.
    destruct (rollback clk (S k) _ txs) as [rest s''].
    cbn [fst snd] in IH |- *. destruct IH as [-> ->].
    rewrite Nat.add_0_r.
    assert (imap (fun i tx0 => markDraft (clk (S k + i)%nat) tx0) txs =
            imap ((fun i tx0 => markDraft (clk (k + i)%nat) tx0) ∘ S) txs) as ->.
    { apply imap_ext. intros i x _. cbn. rewrite Nat.add_succ_r. reflexivity. }
    split; [reflexivity|]. rewrite <- app_assoc. reflexivity.
Qed.

(** The store loop: when the writes of [done] succeed and the write of
    [tx] fails with [e], the loop rolls the whole batch back and returns
    [e] wrapped with the id of [tx]. *)
Lemma storeAll_recorded {Store : Type} `{Repository Store} (clk : Clock)
  (all : list Transaction) (done : list Transaction) :
  forall (s s1 s2 : Recorded Store) (tx : Transaction) (rest : list Transaction)
         (e : error),
  writeAll s done = Some s1 ->
  repoUpdate s1 tx = (s2, Some e) ->
  storeAll clk all s (done ++ tx :: rest) =
    (fst (rollback clk 1 s2 all), snd (rollback clk 1 s2 all),
     Some (wrapError ("failed to store transaction " ++ ID tx) e)) /\
  snd s2 = (snd s ++ done ++ [tx])%list.
Proof.
  induction done as [|d done IH]; intros s s1 s2 tx rest e Hall Hfail.
  - cbn in Hall. injection Hall as <-. cbn [app storeAll]. rewrite Hfail.
    destruct (rollback clk 1 s2 all). split; [reflexivity|].
    cbn in Hfail. destruct (repoUpdate (fst s) tx). injection Hfail as <- _.
    reflexivity.
  - cbn [writeAll] in Hall. cbn [app storeAll].
    destruct (repoUpdate s d) as [sd [ed|]] eqn:Hd; [discriminate|].
    destruct (IH sd s1 s2 tx rest e Hall Hfail) as [-> ->].
    split; [reflexivity|].
    cbn in Hd. destruct (repoUpdate (fst s) d). injection Hd as <- _.
    cbn [snd]. rewrite <- app_assoc. reflexivity.
Qed.

End BatchFacts.

(** C7. In [ProcessTransactionBatch], a transaction that fails
    validation or is not Draft or Pending makes the call return an error
    with the objects and the store untouched (no write).  When phase 1
    passes, the writes of [done] succeed and the next write fails with
    [e], the call returns [e] wrapped, leaves every object of the batch
    Draft without posted-at, and the writes it made are: [done], the
    failing transaction, then the Draft version of every transaction of
    the batch, whatever the store answered to those last writes. *)
Theorem batch_aborts_or_rolls_back {Store : Type} `{processor.Repository Store}
  (clk : Clock) (s : processor.Recorded Store) (txs : list transaction.Transaction) :
  (Exists (fun tx => processor.postable tx = false) txs ->
   exists e, processor.ProcessTransactionBatch clk s txs = (txs, s, Some e)) /\
  (forall (done rest : list transaction.Transaction) (tx : transaction.Transaction)
          (s1 s2 : processor.Recorded Store) (e : error),
     Forall (fun tx => processor.postable tx = true) txs ->
     map (processor.markPosted (clk 0%nat)) txs = (done ++ tx :: rest)%list ->
     processor.writeAll s done = Some s1 ->
     processor.repoUpdate s1 tx = (s2, Some e) ->
     let drafts :=
       imap (fun i t => processor.markDraft (clk (1 + i)%nat) t)
         (map (processor.markPosted (clk 0%nat)) txs) in
     exists s3,
       processor.ProcessTransactionBatch clk s txs =
         (drafts, s3,
          Some (wrapError ("failed to store transaction " ++ transaction.ID tx) e)) /\
       snd s3 = (snd s ++ done ++ [tx] ++ drafts)%list /\
       Forall (fun t => transaction.Status t = transaction.Draft /\
                        transaction.PostedAt t = None) drafts).
Proof.
  split.
  - intros HE. destruct (preValidate_rejects txs HE) as [e He].
    exists e. unfold processor.ProcessTransactionBatch. rewrite He.
    destruct txs; [inversion HE|reflexivity].
  - intros done rest tx s1 s2 e Hok Hsplit Hdone Hfail drafts.
    unfold processor.ProcessTransactionBatch.
    rewrite (preValidate_accepts txs Hok).
    destruct txs as [|t0 txs']; [destruct done; discriminate|].
    set (posted := map (processor.markPosted (clk 0%nat)) (t0 :: txs')) in *.
    cbv zeta.
    replace (processor.storeAll clk posted s posted)
      with (processor.storeAll clk posted s (done ++ tx :: rest))
      by (rewrite <- Hsplit; reflexivity).
    destruct (storeAll_recorded clk posted done s s1 s2 tx rest e Hdone Hfail)
      as [-> Hlog].
    assert (Forall (fun tx => transaction.Status tx = transaction.Posted) posted) as HP.
    { subst posted. apply Forall_map, Forall_forall. reflexivity. }
    destruct (rollback_recorded clk posted 1 s2 HP) as [Hd Hl]. cbv zeta in Hd, Hl.
    exists (snd (processor.rollback clk 1 s2 posted)).
    fold drafts in Hd, Hl. rewrite Hd. split; [reflexivity|].
    split; [rewrite Hl, Hlog, <- !app_assoc; reflexivity|].
    subst drafts. apply Forall_forall. intros t Ht.
    apply elem_of_lookup_imap in Ht as (i & t' & -> & _). split; reflexivity.
Qed.

Lemma batch_aborts_or_rolls_back_witness :
  let s : processor.Recorded processor.MockRepository :=
    (fixtures.rollbackRepository, []) in
  let invalid := [fixtures.NewTestTransaction;
                  fixtures.testTransaction "TX002" transaction.Posted] in
  let batch := [fixtures.NewTestTransaction;
                fixtures.testTransaction "TX002" transaction.Draft] in
  let posted := map (processor.markPosted 10) batch in
  let drafts := imap (fun i t => processor.markDraft (fixtures.clock0 (1 + i)%nat) t)
                  posted in
  (exists e, processor.ProcessTransactionBatch fixtures.clock0 s invalid =
               (invalid, s, Some e)) /\
  (exists s3,
     processor.ProcessTransactionBatch fixtures.clock0 s batch =
       (drafts, s3, Some (wrapError "failed to store transaction TX002" fixtures.AnError)) /\
     snd s3 = (posted ++ drafts)%list /\
     Forall (fun t => transaction.Status t = transaction.Draft /\
                      transaction.PostedAt t = None) drafts).
Proof.
  intros s invalid batch posted drafts. split.
  - apply (proj1 (batch_aborts_or_rolls_back fixtures.clock0 s invalid)).
    apply Exists_cons_tl, Exists_cons_hd. reflexivity.
  - destruct (proj2 (batch_aborts_or_rolls_back fixtures.clock0 s batch)
                [processor.markPosted 10 fixtures.NewTestTransaction] []
                (processor.markPosted 10
                   (fixtures.testTransaction "TX002" transaction.Draft))
                (fixtures.rollbackRepository,
                 [processor.markPosted 10 fixtures.NewTestTransaction])
                (fixtures.rollbackRepository, posted) fixtures.AnError)
      as (s3 & Hrun & Hlog & Hdrafts).
    + repeat constructor.
    + reflexivity.
    + reflexivity.
    + reflexivity.
    + exists s3. split; [exact Hrun|]. split; [exact Hlog | exact Hdrafts].
Defined.

(** ** The in-memory store *)
Section StoreFacts.
Import storage memory.
Context {A : Type} `{EntityOps A}.

Lemma wrap64_in_range (z : Z) : - 2 ^ 63 <= z < 2 ^ 63 -> wrap64 z = z.
Proof.
  intros Hz. unfold wrap64. rewrite Z.mod_small by lia. lia.
Qed.

(** The entity stored under a type and an id. *)
Lemma trail_recordAudit (clk : Clock) (s : MemoryStore A)
  (entityType entityID operation : string) (oldState newState : option A) :
  GetAuditTrail (recordAudit clk s entityType entityID operation oldState newState)
    entityID =
  (GetAuditTrail s entityID ++
   [mkAuditEntry ("audit_" ++ itoa (clk 0%nat)) entityType entityID operation ""
      (clk 1%nat) oldState newState])%list.
Proof.
  unfold GetAuditTrail, recordAudit. cbn [audit].
  rewrite lookup_insert_eq. reflexivity.
Qed.

Lemma trail_recordAudit_other (clk : Clock) (s : MemoryStore A)
  (entityType entityID operation : string) (oldState newState : option A)
  (id : string) :
  id <> entityID ->
  GetAuditTrail (recordAudit clk s entityType entityID operation oldState newState) id =
  GetAuditTrail s id.
Proof.
  intros Hne. unfold GetAuditTrail, recordAudit. cbn [audit].
  rewrite lookup_insert_ne by congruence. reflexivity.
Qed.

(** [Create] either fails and leaves the store as it was, or stores the
    entity, sets the version to 1 and records the creation. *)
Lemma Create_cases (clk : Clock) (s : MemoryStore A) (entity : A) :
  let entityType := getEntityType entity in
  let id := getEntityID entity in
  (exists e, Create clk s entity = (s, Some e)) \/
  (exists s0,
     stored s entityType id = None /\
     Create clk s entity =
       (recordAudit clk s0 entityType id "CREATE" None (Some entity), None) /\
     audit s0 = audit s /\ version s0 = <[id := 1]> (version s) /\
     data s0 = <[entityType := <[id := entity]> (default ∅ (data s !! entityType))]>
                 (data s)).
Proof.
  cbv zeta. unfold Create.
  destruct (String.eqb (getEntityID entity) ""); [left; eexists; reflexivity|].
  destruct (data s !! getEntityType entity) as [entities|] eqn:Hty.
  - destruct (entities !! getEntityID entity) eqn:Hid; [left; eexists; reflexivity|].
    right. eexists. split; [unfold stored; rewrite Hty; exact Hid|].
    split; [reflexivity|]. cbn. auto.
  - rewrite lookup_empty. right. eexists.
    split; [unfold stored; rewrite Hty; reflexivity|].
    split; [reflexivity|]. cbn. rewrite insert_insert_eq. auto.
Qed.

(** [Update] either fails and leaves the store as it was, or replaces
    the stored entity, bumps the version and records the update. *)
Lemma Update_cases (clk : Clock) (s : MemoryStore A) (entity : A) :
  let entityType := getEntityType entity in
  let id := getEntityID entity in
  (exists e, Update clk s entity = (s, Some e)) \/
  (exists s0 entities old,
     data s !! entityType = Some entities /\ entities !! id = Some old /\
     (forall expected, GetVersion entity = Some expected -> expected = versionOf s id) /\
     Update clk s entity =
       (recordAudit clk s0 entityType id "UPDATE" (Some old) (Some entity), None) /\
     audit s0 = audit s /\
     version s0 = <[id := wrap64 (versionOf s id + 1)]> (version s) /\
     data s0 = <[entityType := <[id := entity]> entities]> (data s)).
Proof.
  cbv zeta. unfold Update.
  destruct (data s !! getEntityType entity) as [entities|] eqn:Hty; [|left; eexists; reflexivity].
  destruct (entities !! getEntityID entity) as [old|] eqn:Hid; [|left; eexists; reflexivity].
  destruct (GetVersion entity) as [expected|] eqn:Hver.
  - destruct (Z.eqb_spec expected (versionOf s (getEntityID entity))) as [Heq|Hne];
      cbn [negb]; [|left; eexists; reflexivity].
    right. eexists _, entities, old.
    split; [reflexivity|]. split; [exact Hid|].
    split; [intros ? [= <-]; exact Heq|].
    split; [reflexivity|]. cbn. auto.
  - right. eexists _, entities, old.
    split; [reflexivity|]. split; [exact Hid|].
    split; [intros ? [=]|].
    split; [reflexivity|]. cbn. auto.
Qed.

(** [Delete] either finds nothing and leaves the store as it was, or
    removes the entity from the first type of [order] that holds the id
    and records the deletion. *)
Lemma Delete_cases (clk : Clock) (s : MemoryStore A) (id : string)
  (order : list string) :
  (exists e, Delete clk order s id = (s, Some e)) \/
  (exists s0 entityType entities stored,
     data s !! entityType = Some entities /\ entities !! id = Some stored /\
     Delete clk order s id =
       (recordAudit clk s0 entityType id "DELETE" (Some stored) None, None) /\
     audit s0 = audit s /\ version s0 = version s /\
     data s0 = <[entityType := delete id entities]> (data s)).
Proof.
  unfold Delete. induction order as [|entityType rest IH]; cbn [deleteFrom].
  - left. eexists. reflexivity.
  - destruct (data s !! entityType) as [entities|] eqn:Hty; [|exact IH].
    destruct (entities !! id) as [stored|] eqn:Hid; [|exact IH].
    right. eexists _, entityType, entities, stored.
    split; [exact Hty|]. split; [exact Hid|].
    split; [reflexivity|]. cbn. auto.
Qed.

End StoreFacts.

(** C8. A created entity gets version 1.  A successful [Update] of an
    entity that exposes [GetVersion] was called with the stored version
    and leaves the stored version at that version plus one (in [int64]
    arithmetic, hence plus one below the largest [int64]).  An [Update]
    of a stored entity whose version differs from the stored one returns
    [OptimisticLockError] with the stored and the expected version and
    leaves the whole store, entity and version included, as it was. *)
Theorem store_version_protocol {A : Type} `{memory.EntityOps A}
  (clk : Clock) (s : memory.MemoryStore A) (entity : A) :
  let entityType := memory.getEntityType entity in
  let id := memory.getEntityID entity in
  (forall s', memory.Create clk s entity = (s', None) -> memory.versionOf s' id = 1) /\
  (forall s' expected,
     memory.GetVersion entity = Some expected ->
     memory.Update clk s entity = (s', None) ->
     memory.versionOf s id = expected /\
     memory.versionOf s' id = memory.wrap64 (expected + 1) /\
     (- 2 ^ 63 <= expected < 2 ^ 63 - 1 -> memory.versionOf s' id = expected + 1)) /\
  (forall old expected,
     memory.stored s entityType id = Some old ->
     memory.GetVersion entity = Some expected ->
     expected <> memory.versionOf s id ->
     memory.Update clk s entity =
       (s, Some (OptimisticLockError entityType id (memory.versionOf s id) expected))).
Proof.
  cbv zeta. split; [|split].
  - intros s' HC. destruct (Create_cases clk s entity) as [[e He]|(s0 & _ & He & _ & Hv & _)];
      rewrite He in HC; [discriminate|]. injection HC as <-.
    unfold memory.versionOf, memory.recordAudit. cbn [memory.version].
    rewrite Hv, lookup_insert_eq. reflexivity.
  - intros s' expected Hver HU.
    destruct (Update_cases clk s entity)
      as [[e He]|(s0 & entities & old & _ & _ & Hexp & He & _ & Hv & _)];
      rewrite He in HU; [discriminate|]. injection HU as <-.
    rewrite <- (Hexp expected Hver).
    assert (memory.versionOf
              (memory.recordAudit clk s0 (memory.getEntityType entity)
                 (memory.getEntityID entity) "UPDATE" (Some old) (Some entity))
              (memory.getEntityID entity) = memory.wrap64 (expected + 1)) as Hnew.
    { unfold memory.versionOf at 1, memory.recordAudit. cbn [memory.version].
      rewrite Hv, lookup_insert_eq. cbn. rewrite <- (Hexp expected Hver). reflexivity. }
    split; [reflexivity|]. split; [exact Hnew|].
    intros Hrange. rewrite Hnew. apply wrap64_in_range. lia.
  - intros old expected Hst Hver Hne. unfold memory.stored in Hst.
    unfold memory.Update.
    destruct (memory.data s !! memory.getEntityType entity) as [entities|];
      [|discriminate].
    rewrite Hst, Hver.
    destruct (Z.eqb_spec expected (memory.versionOf s (memory.getEntityID entity)));
      [contradiction|reflexivity].
Qed.

Lemma store_version_protocol_witness :
  memory.versionOf fixtures.storeAfterCreate "test1" = 1 /\
  memory.versionOf fixtures.storeAfterUpdate "test1" = 2 /\
  memory.Update fixtures.clock0 fixtures.storeAfterUpdate fixtures.conflicting =
    (fixtures.storeAfterUpdate,
     Some (OptimisticLockError "*memory.TestEntity" "test1" 2 1)).
Proof.
  split; [|split].
  - refine (proj1 (store_version_protocol fixtures.clock0 fixtures.emptyStore
                     fixtures.created) fixtures.storeAfterCreate _).
    vm_compute. reflexivity.
  - refine (proj2 (proj2 (proj1 (proj2 (store_version_protocol fixtures.clock0
                       fixtures.storeAfterCreate fixtures.updated))
                     fixtures.storeAfterUpdate 1 eq_refl _)) _).
    + vm_compute. reflexivity.
    + lia.
  - refine (proj2 (proj2 (store_version_protocol fixtures.clock0
                            fixtures.storeAfterUpdate fixtures.conflicting))
              fixtures.updated 1 _ eq_refl _).
    + vm_compute. reflexivity.
    + vm_compute. discriminate.
Defined.

Section AuditFacts.
Import storage memory.
Context {A : Type} `{EntityOps A}.

Lemma stored_recordAudit (clk : Clock) (s : MemoryStore A)
  (entityType entityID operation : string) (oldState newState : option A)
  (ty id : string) :
  stored (recordAudit clk s entityType entityID operation oldState newState) ty id =
  stored s ty id.
Proof. reflexivity. Qed.

(** One mutation: a failure changes nothing; a success appends exactly
    one record to the trail of its id and touches no other trail. *)
Lemma apply_audit (clk : Clock) (s s' : MemoryStore A) (m : Mutation A)
  (err : option error) :
  apply clk s m = (s', err) ->
  match err with
  | Some _ => s' = s
  | None =>
      exists entry : AuditEntry A,
        GetAuditTrail s' (mutationID m) =
          (GetAuditTrail s (mutationID m) ++ [entry])%list /\
        Operation entry = mutationName m /\
        EntityID entry = mutationID m /\
        PreviousState entry = stored s (EntityType entry) (mutationID m) /\
        NewState entry = stored s' (EntityType entry) (mutationID m) /\
        forall id, id <> mutationID m -> GetAuditTrail s' id = GetAuditTrail s id
  end.
Proof.
  destruct m as [entity|entity|order id]; cbn [apply mutationID mutationName].
  - destruct (Create_cases clk s entity)
      as [[e ->]|(s0 & Hold & -> & Ha & _ & Hd)]; intros [= <- <-]; [reflexivity|].
    eexists. split; [rewrite trail_recordAudit|].
    { unfold GetAuditTrail. rewrite Ha. reflexivity. }
    cbn [Operation EntityID PreviousState NewState EntityType].
    split; [reflexivity|]. split; [reflexivity|]. split; [symmetry; exact Hold|].
    split.
    + rewrite stored_recordAudit. unfold stored. rewrite Hd, !lookup_insert_eq.
      reflexivity.
    + intros id Hne. rewrite trail_recordAudit_other by exact Hne.
      unfold GetAuditTrail. rewrite Ha. reflexivity.
  - destruct (Update_cases clk s entity)
      as [[e ->]|(s0 & entities & old & Hty & Hid & _ & -> & Ha & _ & Hd)];
      intros [= <- <-]; [reflexivity|].
    eexists. split; [rewrite trail_recordAudit|].
    { unfold GetAuditTrail. rewrite Ha. reflexivity. }
    cbn [Operation EntityID PreviousState NewState EntityType].
    split; [reflexivity|]. split; [reflexivity|].
    split; [unfold stored; rewrite Hty, Hid; reflexivity|].
    split.
    + rewrite stored_recordAudit. unfold stored. rewrite Hd, !lookup_insert_eq.
      reflexivity.
    + intros id Hne. rewrite trail_recordAudit_other by exact Hne.
      unfold GetAuditTrail. rewrite Ha. reflexivity.
  - destruct (Delete_cases clk s id order)
      as [[e ->]|(s0 & ty & entities & old & Hty & Hid & -> & Ha & _ & Hd)];
      intros [= <- <-]; [reflexivity|].
    eexists. split; [rewrite trail_recordAudit|].
    { unfold GetAuditTrail. rewrite Ha. reflexivity. }
    cbn [Operation EntityID PreviousState NewState EntityType].
    split; [reflexivity|]. split; [reflexivity|].
    split; [unfold stored; rewrite Hty, Hid; reflexivity|].
    split.
    + rewrite stored_recordAudit. unfold stored.
      rewrite Hd, lookup_insert_eq, lookup_delete_eq. reflexivity.
    + intros id' Hne. rewrite trail_recordAudit_other by exact Hne.
      unfold GetAuditTrail. rewrite Ha. reflexivity.
Qed.

(** A run of mutations: the operations on the trail of [id] are those of
    the successful mutations of [id], in the order they were issued. *)
Lemma run_audit (ms : list (Clock * Mutation A)) : forall (s : MemoryStore A) (id : string),
  map Operation (GetAuditTrail (fst (run s ms)) id) =
  (map Operation (GetAuditTrail s id) ++
   map mutationName (filter (fun m => mutationID m = id) (snd (run s ms))))%list.
Proof.
  induction ms as [|[clk m] ms IH]; intros s id; cbn [run].
  - cbn. rewrite app_nil_r. reflexivity.
  - destruct (apply clk s m) as [s' err] eqn:Hstep.
    specialize (IH s' id). destruct (run s' ms) as [s'' done].
    cbn [fst snd] in IH |- *. rewrite IH. clear IH.
    apply apply_audit in Hstep. destruct err as [e|]; [subst s'; reflexivity|].
    destruct Hstep as (entry & Htrail & Hop & _ & _ & _ & Hother).
    rewrite filter_cons. destruct (decide (mutationID m = id)) as [<-|Hne].
    + rewrite Htrail, map_app, <- app_assoc. cbn. rewrite Hop. reflexivity.
    + rewrite Hother by congruence. reflexivity.
Qed.

End AuditFacts.

(** Completeness of the audit trail, in terms of the values the store
    is handed: every successful Create, Update or Delete appends exactly
    one audit record to the trail of the entity id, with the operation name,
    the value held before as previous state and the value held after as
    new state; trails of other ids are untouched; a failed mutation
    leaves the store, trails included, as it was; and over any run of
    mutations the trail of an id lists the successful mutations of that
    id in the order they were issued. *)
Theorem audit_trail_is_complete {A : Type} `{memory.EntityOps A}
  (s : memory.MemoryStore A) :
  (forall (clk : Clock) (m : memory.Mutation A) (s' : memory.MemoryStore A)
          (err : option error),
     memory.apply clk s m = (s', err) ->
     match err with
     | Some _ => s' = s
     | None =>
         exists entry : storage.AuditEntry A,
           memory.GetAuditTrail s' (memory.mutationID m) =
             (memory.GetAuditTrail s (memory.mutationID m) ++ [entry])%list /\
           storage.Operation entry = memory.mutationName m /\
           storage.EntityID entry = memory.mutationID m /\
           storage.PreviousState entry =
             memory.stored s (storage.EntityType entry) (memory.mutationID m) /\
           storage.NewState entry =
             memory.stored s' (storage.EntityType entry) (memory.mutationID m) /\
           forall id, id <> memory.mutationID m ->
                      memory.GetAuditTrail s' id = memory.GetAuditTrail s id
     end) /\
  (forall (ms : list (Clock * memory.Mutation A)) (id : string),
     map storage.Operation (memory.GetAuditTrail (fst (memory.run s ms)) id) =
     (map storage.Operation (memory.GetAuditTrail s id) ++
      map memory.mutationName
        (filter (fun m => memory.mutationID m = id) (snd (memory.run s ms))))%list).
Proof.
  split.
  - intros clk m s' err. apply apply_audit.
  - intros ms id. apply run_audit.
Qed.

Lemma audit_trail_is_complete_witness :
  map storage.Operation
    (memory.GetAuditTrail (fst (memory.run fixtures.emptyStore fixtures.auditScript))
       "test1") = ["CREATE"; "UPDATE"; "DELETE"] /\
  fst (memory.apply fixtures.clock0 fixtures.storeAfterUpdate
         (memory.DoUpdate fixtures.conflicting)) = fixtures.storeAfterUpdate.
Proof.
  split.
  - rewrite (proj2 (audit_trail_is_complete fixtures.emptyStore) fixtures.auditScript
               "test1").
    vm_compute. reflexivity.
  - refine (proj1 (audit_trail_is_complete fixtures.storeAfterUpdate) fixtures.clock0
              (memory.DoUpdate fixtures.conflicting) _
              (Some (OptimisticLockError "*memory.TestEntity" "test1" 2 1)) _).
    vm_compute. reflexivity.
Defined.

(** C9. The audit records do not carry snapshots: the store keeps the
    pointer it is handed, in its data and in its audit records.  When an
    entity is created, changed by the caller through that same pointer
    (keeping its type and id) and updated, the trail of its id gains a
    CREATE and an UPDATE record whose states are all this one pointer: a
    reader of the trail finds the updated object as the new state of the
    CREATE record, whatever the object was when it was created, and the
    previous and the new state of the UPDATE record are the same
    object. *)
Theorem audit_records_alias_the_callers_entity {T : Type} `{memory.EntityOps T}
  (clk clk' : Clock) (s s1 s2 : memory.MemoryStore memory.Ref)
  (mem mem' : memory.Memory T) (r : memory.Ref) :
  memory.getEntityType (mem' r) = memory.getEntityType (mem r) ->
  memory.getEntityID (mem' r) = memory.getEntityID (mem r) ->
  memory.CreateIn mem clk s r = (s1, None) ->
  memory.UpdateIn mem' clk' s1 r = (s2, None) ->
  exists created updated : storage.AuditEntry memory.Ref,
    memory.GetAuditTrail s2 (memory.getEntityID (mem r)) =
      (memory.GetAuditTrail s (memory.getEntityID (mem r)) ++ [created; updated])%list /\
    storage.Operation created = "CREATE" /\
    storage.Operation updated = "UPDATE" /\
    storage.PreviousState created = None /\
    storage.NewState created = Some r /\
    storage.PreviousState updated = Some r /\
    storage.NewState updated = Some r /\
    memory.shows mem' (storage.NewState created) = Some (mem' r) /\
    memory.shows mem' (storage.PreviousState updated) =
      memory.shows mem' (storage.NewState updated).
Proof.
  intros Hty Hid HC HU. unfold memory.CreateIn in HC. unfold memory.UpdateIn in HU.
  destruct (@Update_cases memory.Ref (memory.throughRef mem') clk' s1 r)
    as [[e He']|(s0' & entities & old & Hty' & Hid' & _ & He' & Ha' & _ & _)];
    rewrite He' in HU; [discriminate|].
  injection HU as <-.
  destruct (@Create_cases memory.Ref (memory.throughRef mem) clk s r)
    as [[e He]|(s0 & _ & He & Ha & _ & Hd)]; rewrite He in HC; [discriminate|].
  injection HC as <-.
  change (@memory.getEntityType memory.Ref (memory.throughRef mem) r)
    with (memory.getEntityType (mem r)) in *.
  change (@memory.getEntityID memory.Ref (memory.throughRef mem) r)
    with (memory.getEntityID (mem r)) in *.
  change (@memory.getEntityType memory.Ref (memory.throughRef mem') r)
    with (memory.getEntityType (mem' r)) in *.
  change (@memory.getEntityID memory.Ref (memory.throughRef mem') r)
    with (memory.getEntityID (mem' r)) in *.
  rewrite Hty, Hid in *.
  assert (old = r) as ->.
  { unfold memory.recordAudit in Hty'. cbn [memory.data] in Hty'.
    rewrite Hd, lookup_insert_eq in Hty'. injection Hty' as <-.
    rewrite lookup_insert_eq in Hid'. congruence. }
  eexists _, _. split.
  - rewrite trail_recordAudit. unfold memory.GetAuditTrail. rewrite Ha'.
    unfold memory.recordAudit. cbn [memory.audit].
    rewrite lookup_insert_eq, Ha. unfold default. cbn [from_option id].
    rewrite <- app_assoc. reflexivity.
  - cbn. repeat split; reflexivity.
Qed.

Lemma audit_records_alias_the_callers_entity_witness :
  exists created updated : storage.AuditEntry memory.Ref,
    memory.GetAuditTrail samples.refStoreAfterUpdate "test2" = [created; updated] /\
    storage.Operation created = "CREATE" /\
    storage.Operation updated = "UPDATE" /\
    memory.shows samples.memoryAtUpdate (storage.NewState created) =
      Some (memory.mkSimpleEntity "test2" "updated audit test") /\
    memory.shows samples.memoryAtUpdate (storage.PreviousState updated) =
      memory.shows samples.memoryAtUpdate (storage.NewState updated).
Proof.
  destruct (audit_records_alias_the_callers_entity fixtures.clock0 fixtures.clock0
              samples.emptyRefStore samples.refStoreAfterCreate
              samples.refStoreAfterUpdate samples.memoryAtCreate
              samples.memoryAtUpdate samples.auditEntity)
    as (created & updated & Htrail & Hc & Hu & _ & _ & _ & _ & Hshown & Hsame).
  - reflexivity.
  - reflexivity.
  - vm_compute. reflexivity.
  - vm_compute. reflexivity.
  - exists created, updated. split; [exact Htrail|]. split; [exact Hc|].
    split; [exact Hu|]. split; [exact Hshown|exact Hsame].
Defined.

(** * Further properties *)

(** ** Signs of decimals *)
Section SignFacts.
Import decimal.

Lemma ten_pow_pos (e : Z) : (0 < (10 # 1) ^ e)%Q.
Proof. apply Qpower_0_lt. reflexivity. Qed.

Lemma dval_pos (d : Decimal) : (0 < dval d)%Q <-> 0 < value d.
Proof.
  unfold dval.
  pose proof (Qmult_lt_r 0 (inject_Z (value d)) _ (ten_pow_pos (exp d))) as Hm.
  rewrite Qmult_0_l in Hm. rewrite Hm, (Zlt_Qlt 0 (value d)). reflexivity.
Qed.

Lemma dval_neg (d : Decimal) : (dval d < 0)%Q <-> value d < 0.
Proof.
  unfold dval.
  pose proof (Qmult_lt_r (inject_Z (value d)) 0 _ (ten_pow_pos (exp d))) as Hm.
  rewrite Qmult_0_l in Hm. rewrite Hm, (Zlt_Qlt (value d) 0). reflexivity.
Qed.

Lemma dval_zero (d : Decimal) : (dval d == 0)%Q <-> value d = 0.
Proof.
  unfold dval. split.
  - intros Hz. apply Qmult_integral in Hz as [Hz|Hz].
    + change 0%Q with (inject_Z 0) in Hz.
      apply (proj1 (inject_Z_injective _ _)) in Hz. exact Hz.
    + exfalso. exact (ten_pow_nonzero _ Hz).
  - intros ->. ring.
Qed.

Lemma IsZero_dval (d : Decimal) : IsZero d = true <-> (dval d == 0)%Q.
Proof.
  rewrite dval_zero. unfold IsZero, Sign. rewrite Z.eqb_eq. apply Z.sgn_null_iff.
Qed.

Lemma IsNegative_dval (d : Decimal) : IsNegative d = true <-> (dval d < 0)%Q.
Proof.
  rewrite dval_neg. unfold IsNegative, Sign. rewrite Z.eqb_eq. apply Z.sgn_neg_iff.
Qed.

Lemma IsPositive_dval (d : Decimal) : IsPositive d = true <-> (0 < dval d)%Q.
Proof.
  rewrite dval_pos. unfold IsPositive, Sign. rewrite Z.eqb_eq. apply Z.sgn_pos_iff.
Qed.

End SignFacts.

(** ** The verdict of the structural validator *)
Section VerdictFacts.
Import money transaction processor.

Lemma addError_not_nil (r : ValidationResult) (e : ValidationError) :
  Errors (addError r e) <> [].
Proof. cbn. destruct (Errors r); discriminate. Qed.

(** One iteration keeps the verdict only when the entry passes every
    per-entry check, and records the account. *)
Lemma validateEntry_verdict (i : nat) (e : Entry) (st : validateState) :
  let st' := validateEntry i e st in
  seenAccounts st' = {[ Entry_AccountID e ]} ∪ seenAccounts st /\
  Valid (vResult st') =
    Valid (vResult st) && negb (money.IsZero (Entry_Amount e)) &&
    negb (money.IsNegative (Entry_Amount e)) &&
    match i with
    | O => true
    | S _ => String.eqb (Currency (Entry_Amount e)) (currency st)
    end &&
    negb (bool_decide (Entry_AccountID e ∈ seenAccounts st)).
Proof.
  unfold validateEntry.
  destruct (money.IsZero (Entry_Amount e)), (money.IsNegative (Entry_Amount e)),
    (bool_decide (Entry_AccountID e ∈ seenAccounts st)), (Entry_Type e), i as [|k];
    try destruct (String.eqb (Currency (Entry_Amount e)) (currency st));
    cbn; split; try reflexivity; destruct (Valid (vResult st)); reflexivity.
Qed.

(** The error list is empty exactly as long as the verdict is [true],
    and no warning is ever added. *)
Lemma validateEntry_errors (i : nat) (e : Entry) (st : validateState) :
  (Valid (vResult st) = true <-> Errors (vResult st) = []) ->
  Warnings (vResult st) = [] ->
  let st' := validateEntry i e st in
  (Valid (vResult st') = true <-> Errors (vResult st') = []) /\
  Warnings (vResult st') = [].
Proof.
  intros Hiff Hw. unfold validateEntry.
  destruct (money.IsZero (Entry_Amount e)), (money.IsNegative (Entry_Amount e)),
    (bool_decide (Entry_AccountID e ∈ seenAccounts st)), (Entry_Type e), i as [|k];
    try destruct (String.eqb (Currency (Entry_Amount e)) (currency st));
    cbn -[app]; (split; [|exact Hw]); try exact Hiff;
    (split; [discriminate|]); intros Hnil; apply app_eq_nil in Hnil as [_ Hnil];
    discriminate.
Qed.

Lemma validateEntries_errors (es : list Entry) : forall (i : nat) (st : validateState),
  (Valid (vResult st) = true <-> Errors (vResult st) = []) ->
  Warnings (vResult st) = [] ->
  let st' := validateEntries i es st in
  (Valid (vResult st') = true <-> Errors (vResult st') = []) /\
  Warnings (vResult st') = [].
Proof.
  induction es as [|e es IH]; intros i st Hiff Hw; cbn [validateEntries]; [auto|].
  destruct (validateEntry_errors i e st Hiff Hw) as [Hiff' Hw'].
  exact (IH (S i) _ Hiff' Hw').
Qed.

(** The loop past the first entry keeps the verdict exactly when every
    entry has a non-zero, non-negative amount in the running currency and
    an account seen neither before the loop nor earlier in it. *)
Lemma validateEntries_verdict (es : list Entry) : forall (k : nat) (st : validateState),
  Valid (vResult (validateEntries (S k) es st)) = true <->
  Valid (vResult st) = true /\
  Forall (fun e => money.IsZero (Entry_Amount e) = false /\
                   money.IsNegative (Entry_Amount e) = false) es /\
  Forall (fun e => Currency (Entry_Amount e) = currency st) es /\
  Forall (fun e => Entry_AccountID e ∉ seenAccounts st) es /\
  NoDup (map Entry_AccountID es).
Proof.
  induction es as [|e es IH]; intros k st; cbn [validateEntries map].
  - split; [intros Hv|intros [Hv _]; exact Hv].
    repeat split; try constructor. exact Hv.
  - rewrite IH. clear IH.
    destruct (validateEntry_verdict (S k) e st) as [Hseen Hverdict].
    destruct (validateEntry_later k e st) as (Hcur & _ & _ & _).
    cbv zeta in *. rewrite Hseen, Hcur, Hverdict.
    rewrite !andb_true_iff, !negb_true_iff, String.eqb_eq, bool_decide_eq_false.
    rewrite !Forall_cons, NoDup_cons.
    assert (Forall (fun e0 => Entry_AccountID e0 ∉ ({[Entry_AccountID e]} ∪ seenAccounts st)) es
            <-> (Entry_AccountID e ∉ map Entry_AccountID es) /\
                Forall (fun e0 => Entry_AccountID e0 ∉ seenAccounts st) es) as ->.
    { rewrite !Forall_forall. split.
      - intros Hall. split.
        + intros Hin. apply list_elem_of_fmap in Hin as (e0 & Heq & Hin).
          apply (Hall e0 Hin). rewrite <- Heq.
          apply elem_of_union_l, elem_of_singleton. reflexivity.
        + intros e0 Hin Hmem. apply (Hall e0 Hin).
          apply elem_of_union_r. exact Hmem.
      - intros [Hfresh Hall] e0 Hin Hmem.
        apply elem_of_union in Hmem as [Hmem|Hmem].
        + apply elem_of_singleton in Hmem. apply Hfresh. rewrite <- Hmem.
          apply list_elem_of_fmap. eauto.
        + exact (Hall e0 Hin Hmem). }
    tauto.
Qed.

(** [Validate] accepts a transaction exactly when it has at least two
    entries, every amount is strictly positive, all entries share one
    currency, no account occurs twice, and the debits equal the total of
    all other entries. *)
Lemma Validate_verdict (tx : Transaction) :
  Valid (fst (Validate tx)) = true <->
  (2 <= length (Entries tx))%nat /\
  Forall (fun e => (0 < decimal.dval (Amount (Entry_Amount e)))%Q) (Entries tx) /\
  (exists cur, Forall (fun e => Currency (Entry_Amount e) = cur) (Entries tx)) /\
  NoDup (map Entry_AccountID (Entries tx)) /\
  (sideTotal Debit (Entries tx) == nonDebitTotal (Entries tx))%Q.
Proof.
  assert (forall e : Entry,
            (money.IsZero (Entry_Amount e) = false /\
             money.IsNegative (Entry_Amount e) = false) <->
            (0 < decimal.dval (Amount (Entry_Amount e)))%Q) as Hpos.
  { intros e. unfold money.IsZero, money.IsNegative.
    rewrite <- !not_true_iff_false, IsZero_dval, IsNegative_dval. lra. }
  unfold Validate. cbn [fst].
  destruct (Entries tx) as [|first rest] eqn:HE.
  - cbn. split; [discriminate|]. intros [Hlen _]. cbn in Hlen. lia.
  - cbn [validateEntries].
    set (st0 := mkValidateState _ _ _ _ _).
    destruct (validateEntries_later rest 0 (validateEntry 0 first st0))
      as (Hc & Hd & Hcr & _).
    destruct (validateEntry_first first st0) as (Hc1 & Hd1 & Hcr1).
    destruct (validateEntry_verdict 0 first st0) as [Hseen1 Hv1].
    pose proof (validateEntries_verdict rest 0 (validateEntry 0 first st0)) as Hloop.
    cbv zeta in *.
    assert (decimal.Equal
              (Amount (totalDebits (validateEntries 1 rest (validateEntry 0 first st0))))
              (Amount (totalCredits (validateEntries 1 rest (validateEntry 0 first st0))))
            = true <->
            (sideTotal Debit (first :: rest) == nonDebitTotal (first :: rest))%Q)
      as Hbal.
    { rewrite Equal_dval, Hd, Hcr, Hd1, Hcr1.
      rewrite !(sideTotal_cons _ first rest), !(sideTotal_cons _ first []).
      rewrite !(nonDebitTotal_cons first rest), !(nonDebitTotal_cons first []).
      change (sideTotal _ []) with 0%Q. change (nonDebitTotal []) with 0%Q.
      repeat case_decide; try congruence; split; intros; lra. }
    assert (Valid (vResult (validateEntry 0 first st0)) = true <->
            (length (first :: rest) <? 2)%nat = false /\
            money.IsZero (Entry_Amount first) = false /\
            money.IsNegative (Entry_Amount first) = false) as Hfirst.
    { rewrite Hv1. subst st0. cbn [vResult seenAccounts].
      replace (bool_decide (Entry_AccountID first ∈ (∅ : gset string))) with false
        by (symmetry; apply bool_decide_eq_false, not_elem_of_empty).
      destruct (length (first :: rest) <? 2)%nat; cbn [Valid addError];
        rewrite ?andb_true_iff, ?negb_true_iff; cbn; intuition congruence. }
    assert (Valid (if negb (decimal.Equal
                (Amount (totalDebits (validateEntries 1 rest (validateEntry 0 first st0))))
                (Amount (totalCredits (validateEntries 1 rest (validateEntry 0 first st0)))))
             then addError (vResult (validateEntries 1 rest (validateEntry 0 first st0)))
                    (mkValidationError ErrCodeUnbalanced
                       "Total debits must equal total credits" ""
                       [("totalDebits", totalDebits (validateEntries 1 rest (validateEntry 0 first st0)));
                        ("totalCredits", totalCredits (validateEntries 1 rest (validateEntry 0 first st0)))])
             else vResult (validateEntries 1 rest (validateEntry 0 first st0))) = true <->
            Valid (vResult (validateEntries 1 rest (validateEntry 0 first st0))) = true /\
            decimal.Equal
              (Amount (totalDebits (validateEntries 1 rest (validateEntry 0 first st0))))
              (Amount (totalCredits (validateEntries 1 rest (validateEntry 0 first st0))))
            = true) as ->.
    { destruct (decimal.Equal _ _); cbn; intuition congruence. }
    rewrite Hbal, Hloop, Hfirst, Hseen1, Hc1. subst st0. cbn [seenAccounts].
    cbn [map]. rewrite Nat.ltb_ge, !Forall_cons, NoDup_cons.
    setoid_rewrite <- Hpos.
    assert (Forall (fun e => Entry_AccountID e ∉ ({[Entry_AccountID first]} ∪ (∅ : gset string))) rest
            <-> (Entry_AccountID first ∉ map Entry_AccountID rest)) as ->.
    { rewrite Forall_forall. split.
      - intros Hall Hin. apply list_elem_of_fmap in Hin as (e0 & Heq & Hin).
        apply (Hall e0 Hin). rewrite <- Heq.
        apply elem_of_union_l, elem_of_singleton. reflexivity.
      - intros Hfresh e0 Hin Hmem. apply Hfresh.
        apply elem_of_union in Hmem as [Hmem|Hmem];
          [|exfalso; exact (not_elem_of_empty _ Hmem)].
        apply elem_of_singleton in Hmem. rewrite <- Hmem.
        apply list_elem_of_fmap. eauto. }
    split.
    + intros (((Hlen & Hz & Hn) & Hok & Hcur & Hfresh & Hnd) & Hb).
      repeat split; try assumption.
      exists (Currency (Entry_Amount first)). constructor; [reflexivity|exact Hcur].
    + intros (Hlen & ((Hz & Hn) & Hok) & (cur & Hall) & (Hfresh & Hnd) & Hb).
      inversion Hall as [|? ? Hc0 Hcur]; subst.
      repeat split; assumption.
Qed.

End VerdictFacts.

(** X1. [Validate] accepts a transaction exactly when it has at least
    two entries, every amount is strictly positive, all entries share one
    currency, no account id occurs twice, and the debit total equals the
    total of all entries that are not debits, whatever their type; when
    every entry is a debit or a credit, that is the credit total. *)
Theorem validate_accepts_exactly_the_well_formed (tx : transaction.Transaction) :
  let wellFormed (others : Q) :=
    (2 <= length (transaction.Entries tx))%nat /\
    Forall (fun e => (0 < decimal.dval (money.Amount (transaction.Entry_Amount e)))%Q)
      (transaction.Entries tx) /\
    (exists cur, Forall (fun e => money.Currency (transaction.Entry_Amount e) = cur)
                   (transaction.Entries tx)) /\
    NoDup (map transaction.Entry_AccountID (transaction.Entries tx)) /\
    (transaction.sideTotal transaction.Debit (transaction.Entries tx) == others)%Q in
  (transaction.Valid (fst (processor.Validate tx)) = true <->
   wellFormed (transaction.nonDebitTotal (transaction.Entries tx))) /\
  (Forall transaction.sided (transaction.Entries tx) ->
   (transaction.Valid (fst (processor.Validate tx)) = true <->
    wellFormed (transaction.sideTotal transaction.Credit (transaction.Entries tx)))).
Proof.
  intros wellFormed. split; [apply Validate_verdict|].
  intros Hsided. rewrite <- (nonDebitTotal_sided _ Hsided). apply Validate_verdict.
Qed.

(** X2. The result of [Validate] is consistent: [Valid] is [true]
    exactly when the error list is empty, the warning list is always
    empty, and the returned [error] is always [nil]. *)
Theorem validate_valid_iff_no_errors (tx : transaction.Transaction) :
  (transaction.Valid (fst (processor.Validate tx)) = true <->
   transaction.Errors (fst (processor.Validate tx)) = []) /\
  transaction.Warnings (fst (processor.Validate tx)) = [] /\
  snd (processor.Validate tx) = None.
Proof.
  unfold processor.Validate. cbn [fst snd].
  set (r0 := if (length (transaction.Entries tx) <? 2)%nat then _ else _).
  set (st0 := processor.mkValidateState r0 _ _ _ _).
  assert ((transaction.Valid (processor.vResult st0) = true <->
           transaction.Errors (processor.vResult st0) = []) /\
          transaction.Warnings (processor.vResult st0) = []) as [Hiff0 Hw0].
  { subst st0 r0. cbn [processor.vResult].
    destruct (length (transaction.Entries tx) <? 2)%nat; cbn; split;
      try reflexivity; split; congruence. }
  destruct (validateEntries_errors (transaction.Entries tx) 0 st0 Hiff0 Hw0)
    as [Hiff Hw].
  cbv zeta in Hiff, Hw.
  destruct (decimal.Equal _ _); cbn [negb].
  - split; [exact Hiff|]. split; [exact Hw|reflexivity].
  - split; [|split; [exact Hw|reflexivity]].
    split; [discriminate|]. intros Hnil. exfalso.
    exact (addError_not_nil _ _ Hnil).
Qed.

Section ReversalVerdictFacts.
Import money transaction processor.

(** Reversing the entries turns the debits into credits and every other
    entry into a debit. *)
Lemma sideTotal_Debit_reverseEntry (es : list Entry) :
  sideTotal Debit (map reverseEntry es) = nonDebitTotal es.
Proof.
  induction es as [|e es IH]; [reflexivity|].
  cbn [map]. rewrite sideTotal_cons, nonDebitTotal_cons, IH.
  cbn [reverseEntry Entry_Type Entry_Amount].
  destruct (Entry_Type e); cbn [Reverse]; repeat case_decide;
    try congruence; reflexivity.
Qed.

Lemma sideTotal_Credit_reverseEntry (es : list Entry) :
  sideTotal Credit (map reverseEntry es) = sideTotal Debit es.
Proof.
  induction es as [|e es IH]; [reflexivity|].
  cbn [map]. rewrite !sideTotal_cons, IH.
  cbn [reverseEntry Entry_Type Entry_Amount].
  destruct (Entry_Type e); cbn [Reverse]; repeat case_decide;
    try congruence; reflexivity.
Qed.

Lemma nonDebitTotal_reverseEntry (es : list Entry) :
  nonDebitTotal (map reverseEntry es) = sideTotal Debit es.
Proof.
  induction es as [|e es IH]; [reflexivity|].
  cbn [map]. rewrite sideTotal_cons, nonDebitTotal_cons, IH.
  cbn [reverseEntry Entry_Type Entry_Amount].
  destruct (Entry_Type e); cbn [Reverse]; repeat case_decide;
    try congruence; reflexivity.
Qed.

End ReversalVerdictFacts.

(** X3. The reversal [ReverseTransaction] builds passes [Validate]
    exactly when the original does: swapping the sides keeps the entry
    count, the amounts, the currency and the accounts, and exchanges the
    two totals. *)
Theorem reversal_is_valid_iff_original_is (now : Time)
  (origTx : transaction.Transaction) (reason : string) :
  transaction.Valid (fst (processor.Validate (processor.reversalOf now origTx reason))) =
  transaction.Valid (fst (processor.Validate origTx)).
Proof.
  apply Bool.eq_iff_eq_true. rewrite !Validate_verdict.
  cbn [processor.reversalOf transaction.Entries].
  rewrite length_map, sideTotal_Debit_reverseEntry, nonDebitTotal_reverseEntry.
  rewrite Forall_map, <- list_fmap_compose. setoid_rewrite Forall_map.
  split; intros (Hlen & Hpos & Hcur & Hnd & Hbal);
    (repeat split; [exact Hlen|exact Hpos|exact Hcur|exact Hnd|symmetry; exact Hbal]).
Qed.

(** ** More on posting, voiding and reversing *)
Section EngineFacts.
Import money transaction processor.

Lemma postable_split (tx : Transaction) :
  postable tx = true <->
  Valid (fst (Validate tx)) = true /\ canProcess (Status tx) = true.
Proof. unfold postable, ValidateTransaction. apply andb_true_iff. Qed.

Lemma preValidate_None (txs : list Transaction) :
  preValidate txs = None <-> Forall (fun tx => postable tx = true) txs.
Proof.
  split; [|apply preValidate_accepts].
  induction txs as [|tx txs IH]; [constructor|].
  cbn [preValidate]. unfold ValidateTransaction.
  destruct (Validate tx) as [res err] eqn:HV.
  assert (err = None) as -> by (unfold Validate in HV; congruence).
  destruct (Valid res) eqn:Hres; cbn [negb]; [|discriminate].
  destruct (canProcess (Status tx)) eqn:Hst; cbn [negb]; [|discriminate].
  intros Hrest. constructor; [|exact (IH Hrest)].
  apply postable_split. rewrite HV. auto.
Qed.

(** The store loop returns [nil] exactly when every write succeeds, and
    then leaves the batch as it is. *)
Lemma storeAll_succeeds {Store : Type} `{Repository Store} (clk : Clock)
  (all : list Transaction) (todo : list Transaction) : forall s : Store,
  match writeAll s todo with
  | Some s' => storeAll clk all s todo = (all, s', None)
  | None => snd (storeAll clk all s todo) <> None
  end.
Proof.
  induction todo as [|tx rest IH]; intros s; cbn [writeAll storeAll]; [reflexivity|].
  destruct (repoUpdate s tx) as [s1 [e|]].
  - destruct (rollback clk 1 s1 all). cbn. discriminate.
  - apply IH.
Qed.

Lemma writeAll_recorded {Store : Type} `{Repository Store}
  (txs : list Transaction) : forall s s' : Recorded Store,
  writeAll s txs = Some s' -> snd s' = (snd s ++ txs)%list.
Proof.
  induction txs as [|tx txs IH]; intros s s'; cbn [writeAll].
  - intros [= <-]. rewrite app_nil_r. reflexivity.
  - destruct (repoUpdate s tx) as [s1 [e|]] eqn:Hup; [discriminate|].
    intros Hrest. rewrite (IH s1 s' Hrest).
    cbn in Hup. destruct (repoUpdate (fst s) tx). injection Hup as <- _.
    cbn [snd]. rewrite <- app_assoc. reflexivity.
Qed.

End EngineFacts.

(** X4. [ProcessTransactionBatch] returns [nil] exactly when every
    transaction of the batch validates and is Draft or Pending and every
    write succeeds; it then leaves each object Posted with posted-at set
    to the one time read at the start of phase 2, and has written exactly
    these objects, in batch order. *)
Theorem batch_succeeds_iff_all_postable_and_written
  {Store : Type} `{processor.Repository Store}
  (clk : Clock) (s : processor.Recorded Store) (txs : list transaction.Transaction) :
  let posted := map (processor.markPosted (clk 0%nat)) txs in
  (snd (processor.ProcessTransactionBatch clk s txs) = None <->
   Forall (fun tx => processor.postable tx = true) txs /\
   processor.writeAll s posted <> None) /\
  (forall s', txs <> [] ->
     Forall (fun tx => processor.postable tx = true) txs ->
     processor.writeAll s posted = Some s' ->
     processor.ProcessTransactionBatch clk s txs = (posted, s', None) /\
     snd s' = (snd s ++ posted)%list /\
     Forall (fun tx => transaction.Status tx = transaction.Posted /\
                       transaction.PostedAt tx = Some (clk 0%nat)) posted).
Proof.
  intros posted. unfold processor.ProcessTransactionBatch. split.
  - destruct txs as [|t0 txs']; [cbn; split; [intros _; split; [constructor|discriminate]|reflexivity]|].
    fold posted.
    destruct (processor.preValidate (t0 :: txs')) as [e|] eqn:Hpre.
    + cbn [snd]. split; [discriminate|]. intros [Hok _].
      apply preValidate_None in Hok. congruence.
    + apply preValidate_None in Hpre.
      pose proof (storeAll_succeeds clk posted posted s) as Hstore.
      destruct (processor.writeAll s posted) as [s'|].
      * subst posted. cbv zeta. rewrite Hstore. cbn [snd].
        split; [intros _; split; [exact Hpre|discriminate]|reflexivity].
      * subst posted. cbv zeta. split; [intros Hnone; contradiction|].
        intros [_ Hne]. contradiction.
  - intros s' Hne Hok Hall.
    destruct txs as [|t0 txs']; [contradiction|]. fold posted.
    rewrite (proj2 (preValidate_None _) Hok).
    pose proof (storeAll_succeeds clk posted posted s) as Hstore.
    rewrite Hall in Hstore. subst posted. cbv zeta. rewrite Hstore.
    split; [reflexivity|]. split; [exact (writeAll_recorded _ _ _ Hall)|].
    apply Forall_map, Forall_forall. intros tx _. split; reflexivity.
Qed.

Lemma batch_succeeds_iff_all_postable_and_written_witness :
  processor.ProcessTransactionBatch fixtures.clock0 samples.emptyRecorded
    samples.draftBatch =
    (map (processor.markPosted 10) samples.draftBatch, samples.postedBatchStore, None) /\
  snd samples.postedBatchStore = map (processor.markPosted 10) samples.draftBatch.
Proof.
  destruct (proj2 (batch_succeeds_iff_all_postable_and_written fixtures.clock0
                     samples.emptyRecorded samples.draftBatch)
              samples.postedBatchStore)
    as (Hrun & Hlog & _).
  - discriminate.
  - repeat constructor.
  - vm_compute. reflexivity.
  - split; [exact Hrun|exact Hlog].
Defined.

(** X5. [ProcessTransaction] never writes and never touches the object
    when the transaction fails validation or is not Draft or Pending;
    otherwise it issues exactly one write, of the object stamped Posted,
    and returns [nil] exactly when that write succeeds. *)
Theorem process_writes_only_postable_transactions
  {Store : Type} `{processor.Repository Store}
  (clk : Clock) (s : processor.Recorded Store) (tx : transaction.Transaction) :
  if processor.postable tx
  then
    let posted := processor.markPosted (clk 0%nat) tx in
    fst (fst (processor.ProcessTransaction clk s tx)) = posted /\
    snd (snd (fst (processor.ProcessTransaction clk s tx))) = (snd s ++ [posted])%list /\
    (snd (processor.ProcessTransaction clk s tx) = None <->
     snd (processor.repoUpdate (fst s) posted) = None)
  else
    exists e, processor.ProcessTransaction clk s tx = (tx, s, Some e).
Proof.
  destruct (processor.postable tx) eqn:Hp.
  - apply postable_split in Hp as [HV HS].
    rewrite (ProcessTransaction_stamps clk s tx HV HS).
    cbn [fst snd processor.repoUpdate processor.recordedRepository].
    destruct (processor.repoUpdate (fst s) (processor.markPosted (clk 0%nat) tx))
      as [s' [e|]]; cbn [fst snd]; repeat split; congruence.
  - apply ProcessTransaction_rejected.
    unfold processor.postable, processor.ValidateTransaction in Hp.
    apply andb_false_iff in Hp. exact Hp.
Qed.

(** X6. [VoidTransaction] returns an error and leaves the store as it
    was whenever the transaction cannot be read, is not Posted, or
    already carries a voided-at. *)
Theorem void_refuses_without_writing {Store : Type} `{processor.Repository Store}
  (clk : Clock) (s : Store) (txID reason : string) :
  (forall tx, processor.repoRead s txID = Ok tx ->
              transaction.Status tx <> transaction.Posted \/
              transaction.VoidedAt tx <> None) ->
  exists e, processor.VoidTransaction clk s txID reason = (s, Some e).
Proof.
  intros Hguard. unfold processor.VoidTransaction, processor.GetTransaction.
  destruct (processor.repoRead s txID) as [tx|e]; [|eauto].
  destruct (Hguard tx eq_refl) as [Hst|Hv].
  - destruct (transaction.Status tx); try contradiction; eauto.
  - destruct (transaction.Status tx); eauto.
    destruct (transaction.VoidedAt tx); [eauto|contradiction].
Qed.

Lemma void_refuses_without_writing_witness :
  exists e,
    processor.VoidTransaction fixtures.clock0 samples.draftLedger "TX001" "duplicate" =
      (samples.draftLedger, Some e).
Proof.
  apply (void_refuses_without_writing fixtures.clock0 samples.draftLedger "TX001"
           "duplicate").
  intros tx Hread. vm_compute in Hread. injection Hread as <-.
  left. discriminate.
Defined.

(** X7. Once [ReverseTransaction] has succeeded and the store reads back
    the stamped original it was handed, a second [ReverseTransaction] of
    the same id fails with "transaction is already reversed" and leaves
    the store as it is. *)
Theorem second_reversal_is_refused {Store : Type} `{processor.Repository Store}
  (clk clk' : Clock) (s s' : Store) (txID reason reason' : string)
  (origTx : transaction.Transaction) :
  processor.repoRead s txID = Ok origTx ->
  processor.ReverseTransaction clk s txID reason = (s', None) ->
  processor.repoRead s' txID =
    Ok (processor.markReversed (clk 0%nat) ("REV-" ++ transaction.ID origTx) origTx) ->
  processor.ReverseTransaction clk' s' txID reason' =
    (s', Some (errorString "transaction is already reversed")).
Proof.
  intros Hread Hfirst Hback.
  assert (transaction.Status origTx = transaction.Posted) as Hposted.
  { revert Hfirst. unfold processor.ReverseTransaction, processor.GetTransaction.
    rewrite Hread. destruct (transaction.Status origTx); try discriminate. reflexivity. }
  unfold processor.ReverseTransaction, processor.GetTransaction.
  rewrite Hback. cbn [processor.markReversed transaction.Status transaction.ReversedAt].
  rewrite Hposted. reflexivity.
Qed.

Lemma second_reversal_is_refused_witness :
  processor.ReverseTransaction fixtures.clock0 samples.reversedLedger "TX001" "again" =
    (samples.reversedLedger, Some (errorString "transaction is already reversed")).
Proof.
  refine (second_reversal_is_refused fixtures.clock0 fixtures.clock0
            fixtures.postedLedger samples.reversedLedger "TX001" "error" "again"
            fixtures.postedTransaction _ _ _).
  - vm_compute. reflexivity.
  - vm_compute. reflexivity.
  - vm_compute. reflexivity.
Defined.

(** X8. A transaction whose entries are all debits or credits and the
    reversal [ReverseTransaction] builds for it cancel in the balance
    calculation: for every account type, the balance computed from the
    pair is zero in the transaction's currency (given the transaction has
    an entry and a single currency).  An entry of another type breaks
    this: the calculation skips it, while its reversal is a debit. *)
Theorem transaction_and_reversal_cancel (now : Time) (tx : transaction.Transaction)
  (reason : string) (accountType : account.AccountType)
  (entry : transaction.Entry) (entries : list transaction.Entry) :
  transaction.Entries tx = entry :: entries ->
  Forall (fun e => money.Currency (transaction.Entry_Amount e) =
                   money.Currency (transaction.Entry_Amount entry))
    (transaction.Entries tx) ->
  Forall transaction.sided (transaction.Entries tx) ->
  exists m : money.Money,
    reporting.calculateBalanceFromTransactions
      [tx; processor.reversalOf now tx reason] accountType = Returned (Ok m) /\
    money.Currency m = money.Currency (transaction.Entry_Amount entry) /\
    (decimal.dval (money.Amount m) == 0)%Q /\
    money.IsZero m = true.
Proof.
  intros HE Hcur Hsided.
  destruct (calculateBalance_sums_every_entry
              [tx; processor.reversalOf now tx reason] accountType tx
              [processor.reversalOf now tx reason] entry entries eq_refl HE)
    as (m & Hm & Hc & Hval).
  { cbn [map concat processor.reversalOf transaction.Entries]. rewrite app_nil_r.
    apply Forall_app. split; [exact Hcur|].
    apply Forall_map. exact Hcur. }
  assert (decimal.dval (money.Amount m) == 0)%Q as Hzero.
  { rewrite Hval. cbn [map concat processor.reversalOf transaction.Entries].
    rewrite app_nil_r, !sideTotal_app.
    unfold reporting.normalSide.
    destruct (reporting.debitNormal accountType); cbn [transaction.Reverse];
      rewrite sideTotal_Debit_reverseEntry, sideTotal_Credit_reverseEntry,
        (nonDebitTotal_sided _ Hsided); ring. }
  exists m. split; [exact Hm|]. split; [exact Hc|]. split; [exact Hzero|].
  apply IsZero_dval. exact Hzero.
Qed.

Lemma transaction_and_reversal_cancel_witness :
  exists m : money.Money,
    reporting.calculateBalanceFromTransactions
      [fixtures.postedTransaction;
       processor.reversalOf 20 fixtures.postedTransaction "error"] account.Asset =
      Returned (Ok m) /\
    money.Currency m = "USD" /\
    (decimal.dval (money.Amount m) == 0)%Q /\
    money.IsZero m = true.
Proof.
  refine (transaction_and_reversal_cancel 20 fixtures.postedTransaction "error"
            account.Asset _ _ eq_refl _ _).
  - repeat constructor.
  - constructor; [left; reflexivity|].
    constructor; [right; reflexivity|]. constructor.
Defined.



(** ** Outcomes of the balance calculation *)
Section BalanceOutcomeFacts.
Import money account transaction reporting.

(** The inner loop stops with the mixed-currency error as soon as an
    entry carries another currency than [cur]. *)
Lemma accumulateEntries_mixed (cur : string) (accountType : AccountType)
  (entries : list Entry) : forall balance : decimal.Decimal,
  Exists (fun e => Currency (Entry_Amount e) <> cur) entries ->
  accumulateEntries cur accountType balance entries =
    Err (errorString "mixed currencies in transactions").
Proof.
  induction entries as [|e es IH]; intros balance HE; [inversion HE|].
  cbn [accumulateEntries]. unfold accumulateEntry.
  destruct (String.eqb_spec (Currency (Entry_Amount e)) cur) as [Heq|Hne];
    cbn [negb]; [|reflexivity].
  assert (Exists (fun e => Currency (Entry_Amount e) <> cur) es) as HE'.
  { inversion HE; subst; [contradiction|assumption]. }
  destruct (Entry_Type e), (debitNormal accountType); apply IH; exact HE'.
Qed.

Lemma accumulateEntries_ok_or_mixed (cur : string) (accountType : AccountType)
  (entries : list Entry) (balance : decimal.Decimal) :
  (exists b, accumulateEntries cur accountType balance entries = Ok b) \/
  accumulateEntries cur accountType balance entries =
    Err (errorString "mixed currencies in transactions").
Proof.
  destruct (Forall_Exists_dec (fun e => Currency (Entry_Amount e) = cur)
              (fun e => Currency (Entry_Amount e) <> cur)
              (fun e => String.string_dec (Currency (Entry_Amount e)) cur) entries)
    as [HF|HE].
  - destruct (accumulateEntries_total cur accountType entries balance HF)
      as (b & Hb & _). left. eauto.
  - right. apply accumulateEntries_mixed. exact HE.
Qed.

Lemma accumulateTransactions_mixed (cur : string) (accountType : AccountType)
  (transactions : list Transaction) : forall balance : decimal.Decimal,
  Exists (fun e => Currency (Entry_Amount e) <> cur)
    (concat (map Entries transactions)) ->
  accumulateTransactions cur accountType balance transactions =
    Err (errorString "mixed currencies in transactions").
Proof.
  induction transactions as [|tx txs IH]; intros balance HE;
    cbn [map concat accumulateTransactions] in *; [inversion HE|].
  apply Exists_app in HE as [HE|HE].
  - rewrite (accumulateEntries_mixed cur accountType (Entries tx) balance HE).
    reflexivity.
  - destruct (accumulateEntries_ok_or_mixed cur accountType (Entries tx) balance)
      as [[b ->]| ->]; [apply IH; exact HE|reflexivity].
Qed.

End BalanceOutcomeFacts.

(** X10. The four outcomes of [calculateBalanceFromTransactions]: zero
    USD for no transaction; a panic when the first transaction has no
    entry; the mixed-currency error exactly when some entry of some
    transaction is in another currency than the very first entry; and
    otherwise a balance in that first currency. *)
Theorem balance_calculation_outcomes (transactions : list transaction.Transaction)
  (accountType : account.AccountType) :
  match transactions with
  | [] =>
      reporting.calculateBalanceFromTransactions transactions accountType =
        Returned (Ok (money.mkMoney decimal.Zero "USD"))
  | first :: _ =>
      match transaction.Entries first with
      | [] =>
          reporting.calculateBalanceFromTransactions transactions accountType =
            Panicked "index out of range [0] with length 0"
      | entry :: _ =>
          let cur := money.Currency (transaction.Entry_Amount entry) in
          (Forall (fun e => money.Currency (transaction.Entry_Amount e) = cur)
             (concat (map transaction.Entries transactions)) ->
           exists m, reporting.calculateBalanceFromTransactions transactions accountType =
                       Returned (Ok m) /\ money.Currency m = cur) /\
          (Exists (fun e => money.Currency (transaction.Entry_Amount e) <> cur)
             (concat (map transaction.Entries transactions)) ->
           reporting.calculateBalanceFromTransactions transactions accountType =
             Returned (Err (errorString "mixed currencies in transactions")))
      end
  end.
Proof.
  destruct transactions as [|first rest]; [reflexivity|].
  destruct (transaction.Entries first) as [|entry entries] eqn:HE.
  - unfold reporting.calculateBalanceFromTransactions. rewrite HE. reflexivity.
  - cbv zeta. split.
    + intros HF.
      destruct (calculateBalance_sums_every_entry (first :: rest) accountType first rest
                  entry entries eq_refl HE HF) as (m & Hm & Hc & _).
      eauto.
    + intros HX. unfold reporting.calculateBalanceFromTransactions. rewrite HE.
      rewrite (accumulateTransactions_mixed _ accountType (first :: rest) decimal.Zero HX).
      reflexivity.
Qed.

(** ** Money arithmetic *)
Section MoneyFacts.
Import decimal.

Lemma dval_Mul (a b : Decimal) : (dval (Mul a b) == dval a * dval b)%Q.
Proof.
  unfold Mul, dval; cbn [value exp].
  rewrite inject_Z_mult, (Qpower_plus (10 # 1)) by discriminate. ring.
Qed.

Lemma dval_Abs (d : Decimal) : (dval (Abs d) == Qabs (dval d))%Q.
Proof.
  unfold Abs. destruct (IsNegative d) eqn:Hneg; cbn [negb].
  - apply IsNegative_dval in Hneg.
    rewrite Qabs_neg by (apply Qlt_le_weak; exact Hneg).
    apply dval_neg in Hneg. unfold dval; cbn [value exp].
    rewrite Z.abs_neq by lia. rewrite inject_Z_opp. ring.
  - symmetry. apply Qabs_pos. apply Qnot_lt_le. intros Hlt.
    apply IsNegative_dval in Hlt. congruence.
Qed.

End MoneyFacts.

(** X11. Same-currency [Add] and [Subtract] are exact and keep the
    currency; with different currencies both return
    [ErrMismatchedCurrencies]. *)
Theorem money_arithmetic_is_exact_or_refused (m other : money.Money) :
  if String.eqb (money.Currency m) (money.Currency other)
  then
    exists sum diff : money.Money,
      money_ops.Add m other = Ok sum /\ money_ops.Subtract m other = Ok diff /\
      money.Currency sum = money.Currency m /\
      money.Currency diff = money.Currency m /\
      (decimal.dval (money.Amount sum) ==
       decimal.dval (money.Amount m) + decimal.dval (money.Amount other))%Q /\
      (decimal.dval (money.Amount diff) ==
       decimal.dval (money.Amount m) - decimal.dval (money.Amount other))%Q
  else
    money_ops.Add m other = Err money_ops.ErrMismatchedCurrencies /\
    money_ops.Subtract m other = Err money_ops.ErrMismatchedCurrencies.
Proof.
  unfold money_ops.Add, money_ops.Subtract.
  destruct (String.eqb (money.Currency m) (money.Currency other)); cbn [negb].
  - eexists _, _. split; [reflexivity|]. split; [reflexivity|].
    cbn [money.Currency money.Amount].
    split; [reflexivity|]. split; [reflexivity|].
    split; [apply dval_Add|apply dval_Sub].
  - split; reflexivity.
Qed.

(** X12. [Money.Equal] holds exactly when the currencies are the same
    and the amounts denote the same number, whatever their
    representation; it is reflexive, symmetric and transitive. *)
Theorem money_equal_is_numeric_equality (a b c : money.Money) :
  (money_ops.Equal a b = true <->
   money.Currency a = money.Currency b /\
   (decimal.dval (money.Amount a) == decimal.dval (money.Amount b))%Q) /\
  money_ops.Equal a a = true /\
  money_ops.Equal a b = money_ops.Equal b a /\
  (money_ops.Equal a b = true -> money_ops.Equal b c = true ->
   money_ops.Equal a c = true).
Proof.
  assert (forall x y : money.Money,
            money_ops.Equal x y = true <->
            money.Currency x = money.Currency y /\
            (decimal.dval (money.Amount x) == decimal.dval (money.Amount y))%Q) as Hspec.
  { intros x y. unfold money_ops.Equal.
    rewrite andb_true_iff, String.eqb_eq, Equal_dval. reflexivity. }
  split; [apply Hspec|]. split; [apply Hspec; split; reflexivity|]. split.
  - apply Bool.eq_iff_eq_true. rewrite !Hspec.
    split; intros [Hc Hv]; (split; [congruence|symmetry; exact Hv]).
  - rewrite !Hspec. intros [Hc1 Hv1] [Hc2 Hv2].
    split; [congruence|]. rewrite Hv1. exact Hv2.
Qed.

(** X13. Adding and then subtracting the same amount gives back an
    equal [Money], and [Add] does not depend on the order of its
    operands. *)
Theorem money_add_then_subtract_round_trip (a b : money.Money) :
  money.Currency a = money.Currency b ->
  exists sum sum' back : money.Money,
    money_ops.Add a b = Ok sum /\ money_ops.Add b a = Ok sum' /\
    money_ops.Subtract sum b = Ok back /\
    money_ops.Equal back a = true /\
    decimal.Equal (money.Amount sum) (money.Amount sum') = true.
Proof.
  intros Hc.
  exists (money.mkMoney (decimal.Add (money.Amount a) (money.Amount b)) (money.Currency a)),
         (money.mkMoney (decimal.Add (money.Amount b) (money.Amount a)) (money.Currency b)),
         (money.mkMoney
            (decimal.Sub (decimal.Add (money.Amount a) (money.Amount b)) (money.Amount b))
            (money.Currency a)).
  unfold money_ops.Add, money_ops.Subtract, money_ops.Equal.
  cbn [money.Currency money.Amount].
  rewrite <- Hc, !String.eqb_refl. cbn [negb andb].
  repeat split.
  - apply Equal_dval. rewrite dval_Sub, dval_Add. ring.
  - apply Equal_dval. rewrite !dval_Add. ring.
Qed.

Lemma money_add_then_subtract_round_trip_witness :
  exists sum sum' back : money.Money,
    money_ops.Add (fixtures.usd 100) (fixtures.usd 30) = Ok sum /\
    money_ops.Add (fixtures.usd 30) (fixtures.usd 100) = Ok sum' /\
    money_ops.Subtract sum (fixtures.usd 30) = Ok back /\
    money_ops.Equal back (fixtures.usd 100) = true /\
    decimal.Equal (money.Amount sum) (money.Amount sum') = true.
Proof.
  apply (money_add_then_subtract_round_trip (fixtures.usd 100) (fixtures.usd 30)).
  reflexivity.
Defined.

(** X14. Exactly one of [IsZero], [IsNegative] and [IsPositive] holds
    of a [Money], in agreement with the sign of the number it denotes;
    [Abs] keeps the currency, denotes the absolute value and is never
    negative; [Multiply] keeps the currency and is exact. *)
Theorem money_sign_abs_multiply (m : money.Money) (factor : decimal.Decimal) :
  (money.IsZero m = true <-> (decimal.dval (money.Amount m) == 0)%Q) /\
  (money.IsNegative m = true <-> (decimal.dval (money.Amount m) < 0)%Q) /\
  (money.IsPositive m = true <-> (0 < decimal.dval (money.Amount m))%Q) /\
  (money.IsZero m, money.IsNegative m, money.IsPositive m) <> (false, false, false) /\
  (money.IsZero m = true -> money.IsNegative m = false /\ money.IsPositive m = false) /\
  (money.IsNegative m = true -> money.IsPositive m = false) /\
  money.Currency (money_ops.Abs m) = money.Currency m /\
  (decimal.dval (money.Amount (money_ops.Abs m)) ==
   Qabs (decimal.dval (money.Amount m)))%Q /\
  money.IsNegative (money_ops.Abs m) = false /\
  money.Currency (money_ops.Multiply m factor) = money.Currency m /\
  (decimal.dval (money.Amount (money_ops.Multiply m factor)) ==
   decimal.dval (money.Amount m) * decimal.dval factor)%Q.
Proof.
  unfold money.IsZero, money.IsNegative, money.IsPositive.
  split; [apply IsZero_dval|]. split; [apply IsNegative_dval|].
  split; [apply IsPositive_dval|].
  assert (forall b : bool, b = false <-> b <> true) as Hnt
    by (intros []; split; congruence).
  split.
  { intros [= Hz Hn Hp]. apply Hnt in Hz, Hn, Hp.
    rewrite IsZero_dval in Hz. rewrite IsNegative_dval in Hn.
    rewrite IsPositive_dval in Hp. lra. }
  split.
  { rewrite !Hnt, IsZero_dval, IsNegative_dval, IsPositive_dval. lra. }
  split.
  { rewrite Hnt, IsNegative_dval, IsPositive_dval. lra. }
  split; [reflexivity|]. cbn [money_ops.Abs money_ops.Multiply money.Amount money.Currency].
  split; [apply dval_Abs|]. split.
  { apply Hnt. rewrite IsNegative_dval, dval_Abs.
    pose proof (Qabs_nonneg (decimal.dval (money.Amount m))). lra. }
  split; [reflexivity|apply dval_Mul].
Qed.

(** ** The in-memory store: reads, guards and invariants *)
Section StoreReadFacts.
Import storage memory.
Context {A : Type} `{EntityOps A} `{Copier A}.

Lemma wrap64_succ_ne (v : Z) : wrap64 (v + 1) <> v.
Proof.
  unfold wrap64. intros Heq.
  pose proof (Z.div_mod (v + 1 + 2 ^ 63) (2 ^ 64) ltac:(lia)) as Hdm.
  lia.
Qed.

Lemma Read_stored (s : MemoryStore A) (id : string) (dst held : A) :
  stored s (getEntityType dst) id = Some held ->
  Read s id dst = (copyEntity held dst, None).
Proof.
  unfold stored, Read. intros Hst.
  destruct (data s !! getEntityType dst) as [entities|]; [|discriminate].
  rewrite Hst. reflexivity.
Qed.

Lemma Read_missing (s : MemoryStore A) (id : string) (dst : A) :
  stored s (getEntityType dst) id = None ->
  exists e, Read s id dst = (dst, Some e).
Proof.
  unfold stored, Read. intros Hst.
  destruct (data s !! getEntityType dst) as [entities|]; [|eexists; reflexivity].
  rewrite Hst. eexists; reflexivity.
Qed.

Lemma versionOf_recordAudit (clk : Clock) (s : MemoryStore A)
  (entityType entityID operation : string) (oldState newState : option A)
  (id : string) :
  versionOf (recordAudit clk s entityType entityID operation oldState newState) id =
  versionOf s id.
Proof. reflexivity. Qed.

(** What a successful mutation leaves stored. *)
Lemma Create_stored (clk : Clock) (s s' : MemoryStore A) (entity : A) :
  Create clk s entity = (s', None) ->
  forall ty id,
    stored s' ty id =
    if decide (ty = getEntityType entity /\ id = getEntityID entity)
    then Some entity else stored s ty id.
Proof.
  intros HC ty id.
  destruct (Create_cases clk s entity) as [[e He]|(s0 & Hold & He & _ & _ & Hd)];
    rewrite He in HC; [discriminate|]. injection HC as <-.
  rewrite stored_recordAudit. unfold stored in *. rewrite Hd.
  destruct (decide (ty = getEntityType entity /\ id = getEntityID entity))
    as [[-> ->]|Hne].
  - rewrite !lookup_insert_eq. reflexivity.
  - destruct (decide (ty = getEntityType entity)) as [->|Hty].
    + rewrite lookup_insert_eq, lookup_insert_ne by (intros <-; apply Hne; auto).
      destruct (data s !! getEntityType entity); [reflexivity|apply lookup_empty].
    + rewrite lookup_insert_ne by congruence. reflexivity.
Qed.

Lemma Update_stored (clk : Clock) (s s' : MemoryStore A) (entity : A) :
  Update clk s entity = (s', None) ->
  forall ty id,
    stored s' ty id =
    if decide (ty = getEntityType entity /\ id = getEntityID entity)
    then Some entity else stored s ty id.
Proof.
  intros HU ty id.
  destruct (Update_cases clk s entity)
    as [[e He]|(s0 & entities & old & Hty & Hid & _ & He & _ & _ & Hd)];
    rewrite He in HU; [discriminate|]. injection HU as <-.
  rewrite stored_recordAudit. unfold stored in *. rewrite Hd.
  destruct (decide (ty = getEntityType entity /\ id = getEntityID entity))
    as [[-> ->]|Hne].
  - rewrite !lookup_insert_eq. reflexivity.
  - destruct (decide (ty = getEntityType entity)) as [->|Hty'].
    + rewrite lookup_insert_eq, lookup_insert_ne by (intros <-; apply Hne; auto).
      rewrite Hty. reflexivity.
    + rewrite lookup_insert_ne by congruence. reflexivity.
Qed.

Lemma Delete_stored (clk : Clock) (order : list string) (s s' : MemoryStore A)
  (id : string) :
  Delete clk order s id = (s', None) ->
  exists entityType,
    In entityType order /\ stored s entityType id <> None /\
    (forall ty id',
       stored s' ty id' =
       if decide (ty = entityType /\ id' = id) then None else stored s ty id') /\
    GetAuditTrail s' id =
      (GetAuditTrail s id ++
       [mkAuditEntry ("audit_" ++ itoa (clk 0%nat)) entityType id "DELETE" ""
          (clk 1%nat) (stored s entityType id) None])%list.
Proof.
  unfold Delete. induction order as [|entityType rest IH]; cbn [deleteFrom];
    [discriminate|].
  assert (deleteFrom clk s id rest = (s', None) ->
          exists ty, In ty (entityType :: rest) /\ stored s ty id <> None /\
            (forall ty1 id', stored s' ty1 id' =
              if decide (ty1 = ty /\ id' = id) then None else stored s ty1 id') /\
            GetAuditTrail s' id =
              (GetAuditTrail s id ++
               [mkAuditEntry ("audit_" ++ itoa (clk 0%nat)) ty id "DELETE" ""
                  (clk 1%nat) (stored s ty id) None])%list) as Hlift.
  { intros HD. destruct (IH HD) as (ty & Hin & Hrest). exists ty.
    split; [right; exact Hin|exact Hrest]. }
  destruct (data s !! entityType) as [entities|] eqn:Hty; [|exact Hlift].
  destruct (entities !! id) as [held|] eqn:Hid; [|exact Hlift].
  intros [= <-]. exists entityType. split; [left; reflexivity|].
  split; [unfold stored; rewrite Hty, Hid; discriminate|]. split.
  - intros ty id'. rewrite stored_recordAudit. unfold stored. cbn [data].
    destruct (decide (ty = entityType /\ id' = id)) as [[-> ->]|Hne].
    + rewrite lookup_insert_eq, lookup_delete_eq. reflexivity.
    + destruct (decide (ty = entityType)) as [->|Hty'].
      * rewrite lookup_insert_eq, Hty, lookup_delete_ne by (intros <-; apply Hne; auto).
        reflexivity.
      * rewrite lookup_insert_ne by congruence. reflexivity.
  - rewrite trail_recordAudit. unfold stored. rewrite Hty, Hid. reflexivity.
Qed.

Lemma Delete_not_found (clk : Clock) (order : list string) (s : MemoryStore A)
  (id : string) :
  Forall (fun ty => stored s ty id = None) order ->
  Delete clk order s id = (s, Some (errorString ("entity not found: " ++ id))).
Proof.
  unfold Delete. induction 1 as [|ty rest Hty _ IH]; cbn [deleteFrom]; [reflexivity|].
  unfold stored in Hty. destruct (data s !! ty) as [entities|]; [|exact IH].
  rewrite Hty. exact IH.
Qed.

Lemma Delete_found (clk : Clock) (order : list string) (s : MemoryStore A)
  (id : string) :
  Exists (fun ty => stored s ty id <> None) order ->
  snd (Delete clk order s id) = None.
Proof.
  unfold Delete. induction order as [|ty rest IH]; intros HE; [inversion HE|].
  cbn [deleteFrom]. unfold stored in HE at 1.
  destruct (data s !! ty) as [entities|] eqn:Hty.
  - destruct (entities !! id) as [held|] eqn:Hid; [reflexivity|].
    apply IH. inversion HE as [? ? Hh|? ? Ht]; subst; [|exact Ht].
    unfold stored in Hh. rewrite Hty, Hid in Hh. contradiction.
  - apply IH. inversion HE as [? ? Hh|? ? Ht]; subst; [|exact Ht].
    unfold stored in Hh. rewrite Hty in Hh. contradiction.
Qed.

Lemma apply_version_other (clk : Clock) (s s' : MemoryStore A) (m : Mutation A)
  (err : option error) (id : string) :
  apply clk s m = (s', err) -> id <> mutationID m ->
  versionOf s' id = versionOf s id.
Proof.
  intros Hstep Hne. destruct m as [entity|entity|order id0];
    cbn [apply mutationID] in *.
  - destruct (Create_cases clk s entity) as [[e He]|(s0 & _ & He & _ & Hv & _)];
      rewrite He in Hstep; injection Hstep as <- <-; [reflexivity|].
    rewrite versionOf_recordAudit. unfold versionOf. rewrite Hv.
    rewrite lookup_insert_ne by congruence. reflexivity.
  - destruct (Update_cases clk s entity)
      as [[e He]|(s0 & entities & old & _ & _ & _ & He & _ & Hv & _)];
      rewrite He in Hstep; injection Hstep as <- <-; [reflexivity|].
    rewrite versionOf_recordAudit. unfold versionOf at 1. rewrite Hv.
    rewrite lookup_insert_ne by congruence. reflexivity.
  - destruct (Delete_cases clk s id0 order)
      as [[e He]|(s0 & ty & entities & old & _ & _ & He & _ & Hv & _)];
      rewrite He in Hstep; injection Hstep as <- <-; [reflexivity|].
    rewrite versionOf_recordAudit. unfold versionOf. rewrite Hv. reflexivity.
Qed.

(** The shape of a successful mutation: one record appended to the trail
    of its id, and one slot of the store (a type and the id) changed to
    the new state of that record. *)
Lemma apply_shape (clk : Clock) (s s' : MemoryStore A) (m : Mutation A) :
  apply clk s m = (s', None) ->
  exists entityType newState,
    GetAuditTrail s' (mutationID m) =
      (GetAuditTrail s (mutationID m) ++
       [mkAuditEntry ("audit_" ++ itoa (clk 0%nat)) entityType (mutationID m)
          (mutationName m) "" (clk 1%nat) (stored s entityType (mutationID m))
          newState])%list /\
    forall ty id,
      stored s' ty id =
      if decide (ty = entityType /\ id = mutationID m) then newState
      else stored s ty id.
Proof.
  intros Hstep. destruct m as [entity|entity|order id0];
    cbn [apply mutationID mutationName] in *.
  - exists (getEntityType entity), (Some entity).
    split; [|exact (Create_stored _ _ _ _ Hstep)].
    destruct (Create_cases clk s entity) as [[e He]|(s0 & Hold & He & Ha & _)];
      rewrite He in Hstep; [discriminate|]. injection Hstep as <-.
    rewrite trail_recordAudit, Hold. unfold GetAuditTrail. rewrite Ha. reflexivity.
  - exists (getEntityType entity), (Some entity).
    split; [|exact (Update_stored _ _ _ _ Hstep)].
    destruct (Update_cases clk s entity)
      as [[e He]|(s0 & entities & old & Hty & Hid & _ & He & Ha & _)];
      rewrite He in Hstep; [discriminate|]. injection Hstep as <-.
    rewrite trail_recordAudit. unfold stored. rewrite Hty, Hid.
    unfold GetAuditTrail. rewrite Ha. reflexivity.
  - destruct (Delete_stored _ _ _ _ _ Hstep) as (ty & _ & _ & Hall & Htrail).
    exists ty, None. split; [exact Htrail|exact Hall].
Qed.

Lemma apply_stored_other (clk : Clock) (s s' : MemoryStore A) (m : Mutation A)
  (err : option error) (ty id : string) :
  apply clk s m = (s', err) -> id <> mutationID m ->
  stored s' ty id = stored s ty id.
Proof.
  intros Hstep Hne. destruct err as [e|].
  { apply apply_audit in Hstep. subst s'. reflexivity. }
  destruct (apply_shape _ _ _ _ Hstep) as (ty0 & new & _ & Hall).
  rewrite Hall. destruct (decide _) as [[_ ->]|_]; [contradiction|reflexivity].
Qed.

Lemma apply_audited (clk : Clock) (s s' : MemoryStore A) (m : Mutation A)
  (err : option error) :
  apply clk s m = (s', err) -> audited s -> audited s'.
Proof.
  intros Hstep Hs.
  pose proof (apply_audit clk s s' m err Hstep) as Haud.
  destruct err as [e|]; [subst s'; exact Hs|].
  destruct Haud as (_ & _ & _ & _ & _ & _ & Hother).
  destruct (apply_shape _ _ _ _ Hstep) as (ty0 & new & Htrail & Hall).
  intros ty id e Hst. rewrite Hall in Hst.
  destruct (decide (id = mutationID m)) as [->|Hne].
  - rewrite Htrail. destruct (decide _) as [[-> _]|_].
    + eexists. split; [apply in_or_app; right; left; reflexivity|].
      cbn. auto.
    + destruct (Hs _ _ _ Hst) as (entry & Hin & Hrest).
      exists entry. split; [apply in_or_app; left; exact Hin|exact Hrest].
  - rewrite (Hother id Hne).
    destruct (decide _) as [[_ ->]|_]; [contradiction|]. exact (Hs _ _ _ Hst).
Qed.

Lemma run_audited (ms : list (Clock * Mutation A)) : forall s : MemoryStore A,
  audited s -> audited (fst (run s ms)).
Proof.
  induction ms as [|[clk m] ms IH]; intros s Hs; cbn [run]; [exact Hs|].
  destruct (apply clk s m) as [s' err] eqn:Hstep.
  specialize (IH s' (apply_audited _ _ _ _ _ Hstep Hs)).
  destruct (run s' ms) as [s'' done]. exact IH.
Qed.

Lemma audited_empty : audited (NewMemoryStore (A:=A)).
Proof.
  intros ty id e Hst. unfold stored, NewMemoryStore in Hst. cbn in Hst.
  rewrite lookup_empty in Hst. discriminate.
Qed.

(** Records already on a trail stay as they are, at their position. *)
Lemma run_trail_grows (ms : list (Clock * Mutation A)) :
  forall (s : MemoryStore A) (id : string),
  exists more,
    GetAuditTrail (fst (run s ms)) id = (GetAuditTrail s id ++ more)%list /\
    length more = length (filter (fun m => mutationID m = id) (snd (run s ms))) /\
    Forall (fun entry => EntityID entry = id) more.
Proof.
  induction ms as [|[clk m] ms IH]; intros s id; cbn [run].
  - exists []. rewrite app_nil_r. auto.
  - destruct (apply clk s m) as [s' err] eqn:Hstep.
    destruct (IH s' id) as (more & Htrail & Hlen & Hids).
    destruct (run s' ms) as [s'' done]. cbn [fst snd] in *.
    pose proof (apply_audit _ _ _ _ _ Hstep) as Haud.
    destruct err as [e|]; [subst s'; exists more; auto|].
    destruct Haud as (entry & Hone & _ & Hid & _ & _ & Hother).
    rewrite filter_cons. destruct (decide (mutationID m = id)) as [<-|Hne].
    + exists (entry :: more). rewrite Htrail, Hone, <- app_assoc.
      split; [reflexivity|]. split; [cbn; rewrite Hlen; reflexivity|].
      constructor; assumption.
    + exists more. rewrite Htrail, Hother by congruence. auto.
Qed.

End StoreReadFacts.

(** X15. Reading back what was written: after a successful [Create] or
    [Update] of an entity, [Read] of its id into a destination of the
    same type succeeds and leaves in the destination what [CopyFrom]
    makes of the written entity; after a successful [Delete], [Read] of
    the id into a destination of the type it was removed from fails with
    "entity not found" and leaves the destination as it was. *)
Theorem read_returns_the_last_write {A : Type} `{memory.EntityOps A}
  `{memory.Copier A} (clk : Clock) (s s' : memory.MemoryStore A)
  (m : memory.Mutation A) (dst : A) :
  memory.apply clk s m = (s', None) ->
  match m with
  | memory.DoCreate entity | memory.DoUpdate entity =>
      memory.getEntityType dst = memory.getEntityType entity ->
      memory.Read s' (memory.getEntityID entity) dst =
        (memory.copyEntity entity dst, None)
  | memory.DoDelete order id =>
      exists entityType,
        memory.stored s entityType id <> None /\
        (memory.getEntityType dst = entityType ->
         memory.Read s' id dst =
           (dst, Some (errorString ("entity not found: " ++ id))))
  end.
Proof.
  intros Hstep. destruct m as [entity|entity|order id]; cbn [memory.apply] in Hstep.
  - intros Hty. apply Read_stored. rewrite Hty.
    rewrite (Create_stored _ _ _ _ Hstep). destruct (decide _) as [_|Hne];
      [reflexivity|exfalso; apply Hne; auto].
  - intros Hty. apply Read_stored. rewrite Hty.
    rewrite (Update_stored _ _ _ _ Hstep). destruct (decide _) as [_|Hne];
      [reflexivity|exfalso; apply Hne; auto].
  - destruct (Delete_cases clk s id order)
      as [[e He]|(s0 & ty & entities & held & Hty & Hid & He & _ & _ & Hd)];
      rewrite He in Hstep; [discriminate|]. injection Hstep as <-.
    exists ty. split; [unfold memory.stored; rewrite Hty, Hid; discriminate|].
    intros Hdst. subst ty. unfold memory.Read, memory.recordAudit. cbn [memory.data].
    rewrite Hd, lookup_insert_eq, lookup_delete_eq. reflexivity.
Qed.

Lemma read_returns_the_last_write_witness :
  memory.Read fixtures.storeAfterCreate "test1" (memory.mkTestEntity "" 0 "") =
    (fixtures.created, None).
Proof.
  refine (read_returns_the_last_write fixtures.clock0 fixtures.emptyStore
            fixtures.storeAfterCreate (memory.DoCreate fixtures.created)
            (memory.mkTestEntity "" 0 "") _ _).
  - vm_compute. reflexivity.
  - reflexivity.
Defined.

(** X16. [Create] succeeds exactly when the entity has a non-empty id
    that its type does not hold yet.  An entity without [GetID], or with
    the empty id, is refused with "entity ID cannot be empty"; an id the
    type already holds is refused with "entity already exists"; and in
    both cases the store is returned as it was, so a second [Create] of
    an id never overwrites the first. *)
Theorem create_succeeds_iff_id_is_fresh {A : Type} `{memory.EntityOps A}
  (clk : Clock) (s : memory.MemoryStore A) (entity : A) :
  let entityType := memory.getEntityType entity in
  let id := memory.getEntityID entity in
  (snd (memory.Create clk s entity) = None <->
   id <> "" /\ memory.stored s entityType id = None) /\
  (id = "" ->
   memory.Create clk s entity = (s, Some (errorString "entity ID cannot be empty"))) /\
  (forall held, id <> "" -> memory.stored s entityType id = Some held ->
   memory.Create clk s entity =
     (s, Some (errorString ("entity already exists: " ++ id)))) /\
  (forall s' clk', memory.Create clk s entity = (s', None) ->
   memory.Create clk' s' entity =
     (s', Some (errorString ("entity already exists: " ++ id))) /\
   memory.stored s' entityType id = Some entity).
Proof.
  cbv zeta.
  assert (memory.getEntityID entity = "" ->
          memory.Create clk s entity =
            (s, Some (errorString "entity ID cannot be empty"))) as Hempty.
  { intros Hid. unfold memory.Create. rewrite Hid. reflexivity. }
  assert (forall (s0 : memory.MemoryStore A) clk0 held,
            memory.getEntityID entity <> "" ->
            memory.stored s0 (memory.getEntityType entity) (memory.getEntityID entity)
              = Some held ->
            memory.Create clk0 s0 entity =
              (s0, Some (errorString ("entity already exists: " ++
                                      memory.getEntityID entity)))) as Hheld.
  { intros s0 clk0 held Hid Hst. unfold memory.Create.
    destruct (String.eqb_spec (memory.getEntityID entity) ""); [contradiction|].
    unfold memory.stored in Hst.
    destruct (memory.data s0 !! memory.getEntityType entity) as [entities|];
      [|discriminate].
    rewrite Hst. reflexivity. }
  split; [|split; [exact Hempty|split; [intros held; apply Hheld|]]].
  - split.
    + intros Hok.
      destruct (String.eqb_spec (memory.getEntityID entity) "") as [Hid|Hid].
      { rewrite (Hempty Hid) in Hok. discriminate. }
      split; [exact Hid|].
      destruct (memory.stored s (memory.getEntityType entity)
                  (memory.getEntityID entity)) as [held|] eqn:Hst; [|reflexivity].
      rewrite (Hheld s clk held Hid Hst) in Hok. discriminate.
    + intros [Hid Hst]. unfold memory.Create.
      destruct (String.eqb_spec (memory.getEntityID entity) ""); [contradiction|].
      unfold memory.stored in Hst.
      destruct (memory.data s !! memory.getEntityType entity) as [entities|].
      * rewrite Hst. reflexivity.
      * rewrite lookup_empty. reflexivity.
  - intros s' clk' HC.
    assert (memory.stored s' (memory.getEntityType entity) (memory.getEntityID entity)
            = Some entity) as Hst.
    { rewrite (Create_stored _ _ _ _ HC). destruct (decide _) as [_|Hne];
        [reflexivity|exfalso; apply Hne; auto]. }
    split; [|exact Hst]. apply (Hheld s' clk' entity); [|exact Hst].
    intros Hid. rewrite (Hempty Hid) in HC. discriminate.
Qed.

(** X17. A mutation touches only its own id: whether it succeeds or
    fails, the entities held under every other id (in every type), the
    versions of the other ids and their audit trails are what they were. *)
Theorem mutation_leaves_other_ids_alone {A : Type} `{memory.EntityOps A}
  (clk : Clock) (s s' : memory.MemoryStore A) (m : memory.Mutation A)
  (err : option error) (id : string) :
  memory.apply clk s m = (s', err) ->
  id <> memory.mutationID m ->
  (forall entityType, memory.stored s' entityType id = memory.stored s entityType id) /\
  memory.versionOf s' id = memory.versionOf s id /\
  memory.GetAuditTrail s' id = memory.GetAuditTrail s id.
Proof.
  intros Hstep Hne. split; [|split].
  - intros ty. exact (apply_stored_other _ _ _ _ _ ty id Hstep Hne).
  - exact (apply_version_other _ _ _ _ _ id Hstep Hne).
  - pose proof (apply_audit _ _ _ _ _ Hstep) as Haud.
    destruct err as [e|]; [subst s'; reflexivity|].
    destruct Haud as (_ & _ & _ & _ & _ & _ & Hother). exact (Hother id Hne).
Qed.

Lemma mutation_leaves_other_ids_alone_witness :
  let other := memory.mkTestEntity "test2" 0 "other data" in
  let s' := fst (memory.Create fixtures.clock0 fixtures.storeAfterUpdate other) in
  (forall entityType,
     memory.stored s' entityType "test1" =
     memory.stored fixtures.storeAfterUpdate entityType "test1") /\
  memory.versionOf s' "test1" = memory.versionOf fixtures.storeAfterUpdate "test1" /\
  memory.GetAuditTrail s' "test1" =
    memory.GetAuditTrail fixtures.storeAfterUpdate "test1".
Proof.
  intros other s'.
  refine (mutation_leaves_other_ids_alone fixtures.clock0 fixtures.storeAfterUpdate
            s' (memory.DoCreate other) None "test1" _ _).
  - vm_compute. reflexivity.
  - vm_compute. discriminate.
Defined.

(** X18. No lost update: when an [Update] carrying version [v] has
    succeeded, a second [Update] of the same type and id that still
    carries [v] is refused with [OptimisticLockError] (current version
    [v + 1] in [int64] arithmetic, expected [v]), whatever the clock, and
    the store keeps the first writer's entity. *)
Theorem stale_update_is_rejected {A : Type} `{memory.EntityOps A}
  (clk clk' : Clock) (s s1 : memory.MemoryStore A) (first second : A) (v : Z) :
  memory.GetVersion first = Some v ->
  memory.GetVersion second = Some v ->
  memory.getEntityType second = memory.getEntityType first ->
  memory.getEntityID second = memory.getEntityID first ->
  memory.Update clk s first = (s1, None) ->
  memory.Update clk' s1 second =
    (s1, Some (OptimisticLockError (memory.getEntityType first)
                 (memory.getEntityID first) (memory.wrap64 (v + 1)) v)) /\
  memory.stored s1 (memory.getEntityType first) (memory.getEntityID first) =
    Some first.
Proof.
  intros Hv1 Hv2 Hty Hid HU.
  assert (memory.stored s1 (memory.getEntityType first) (memory.getEntityID first)
          = Some first) as Hst.
  { rewrite (Update_stored _ _ _ _ HU). destruct (decide _) as [_|Hne];
      [reflexivity|exfalso; apply Hne; auto]. }
  split; [|exact Hst].
  assert (memory.versionOf s1 (memory.getEntityID first) = memory.wrap64 (v + 1))
    as Hcur.
  { destruct (Update_cases clk s first)
      as [[e He]|(s0 & entities & old & _ & _ & Hexp & He & _ & Hver & _)];
      rewrite He in HU; [discriminate|]. injection HU as <-.
    rewrite versionOf_recordAudit. unfold memory.versionOf at 1.
    rewrite Hver, lookup_insert_eq. cbn. rewrite <- (Hexp v Hv1). reflexivity. }
  unfold memory.Update. rewrite Hty, Hid.
  unfold memory.stored in Hst.
  destruct (memory.data s1 !! memory.getEntityType first) as [entities|];
    [|discriminate].
  rewrite Hst, Hv2, Hcur.
  destruct (Z.eqb_spec v (memory.wrap64 (v + 1))) as [Heq|_]; [|reflexivity].
  exfalso. exact (wrap64_succ_ne v (eq_sym Heq)).
Qed.

Lemma stale_update_is_rejected_witness :
  memory.Update fixtures.clock0 fixtures.storeAfterUpdate fixtures.conflicting =
    (fixtures.storeAfterUpdate,
     Some (OptimisticLockError "*memory.TestEntity" "test1" 2 1)) /\
  memory.stored fixtures.storeAfterUpdate "*memory.TestEntity" "test1" =
    Some fixtures.updated.
Proof.
  refine (stale_update_is_rejected fixtures.clock0 fixtures.clock0
            fixtures.storeAfterCreate fixtures.storeAfterUpdate
            fixtures.updated fixtures.conflicting 1 _ _ _ _ _).
  - reflexivity.
  - reflexivity.
  - reflexivity.
  - reflexivity.
  - vm_compute. reflexivity.
Defined.

(** X19. [Update] succeeds exactly when the entity's type holds its id
    and the entity either has no [GetVersion] or carries the stored
    version; it then holds the new entity.  When the type holds nothing
    under the id the call fails and the store is as it was: [Update]
    never creates. *)
Theorem update_succeeds_iff_stored_and_current {A : Type} `{memory.EntityOps A}
  (clk : Clock) (s : memory.MemoryStore A) (entity : A) :
  let entityType := memory.getEntityType entity in
  let id := memory.getEntityID entity in
  (snd (memory.Update clk s entity) = None <->
   (exists old, memory.stored s entityType id = Some old) /\
   (forall expected, memory.GetVersion entity = Some expected ->
                     expected = memory.versionOf s id)) /\
  (forall s', memory.Update clk s entity = (s', None) ->
              memory.stored s' entityType id = Some entity) /\
  (memory.stored s entityType id = None ->
   exists e, memory.Update clk s entity = (s, Some e) /\
             (e = errorString ("entity type not found: " ++ entityType) \/
              e = errorString ("entity not found: " ++ id))).
Proof.
  cbv zeta. split; [|split].
  - split.
    + intros Hok.
      destruct (Update_cases clk s entity)
        as [[e He]|(s0 & entities & old & Hty & Hid & Hexp & _)].
      { rewrite He in Hok. discriminate. }
      split; [|exact Hexp]. exists old. unfold memory.stored. rewrite Hty. exact Hid.
    + intros [[old Hst] Hexp]. unfold memory.stored in Hst. unfold memory.Update.
      destruct (memory.data s !! memory.getEntityType entity) as [entities|];
        [|discriminate].
      rewrite Hst. destruct (memory.GetVersion entity) as [expected|]; [|reflexivity].
      rewrite (Hexp expected eq_refl), Z.eqb_refl. reflexivity.
  - intros s' HU. rewrite (Update_stored _ _ _ _ HU).
    destruct (decide _) as [_|Hne]; [reflexivity|exfalso; apply Hne; auto].
  - intros Hst. unfold memory.stored in Hst. unfold memory.Update.
    destruct (memory.data s !! memory.getEntityType entity) as [entities|].
    + rewrite Hst. eexists. split; [reflexivity|]. right. reflexivity.
    + eexists. split; [reflexivity|]. left. reflexivity.
Qed.

(** X20. [Delete] looks the id up under every entity type: it succeeds
    exactly when some type it visits holds the id, and otherwise returns
    "entity not found" with the store as it was.  A successful [Delete]
    removes the entity of one type only (entities other types hold under
    the same id stay) and keeps the version counter of the id. *)
Theorem delete_succeeds_iff_some_type_holds_the_id {A : Type} `{memory.EntityOps A}
  (clk : Clock) (order : list string) (s : memory.MemoryStore A) (id : string) :
  (snd (memory.Delete clk order s id) = None <->
   Exists (fun entityType => memory.stored s entityType id <> None) order) /\
  (Forall (fun entityType => memory.stored s entityType id = None) order ->
   memory.Delete clk order s id =
     (s, Some (errorString ("entity not found: " ++ id)))) /\
  (forall s', memory.Delete clk order s id = (s', None) ->
     memory.versionOf s' id = memory.versionOf s id /\
     exists entityType,
       In entityType order /\
       memory.stored s entityType id <> None /\
       memory.stored s' entityType id = None /\
       forall other, other <> entityType ->
                     memory.stored s' other id = memory.stored s other id).
Proof.
  split; [|split].
  - split; [|apply Delete_found].
    intros Hok. destruct (memory.Delete clk order s id) as [s' err] eqn:HD.
    cbn in Hok. subst err.
    destruct (Delete_stored _ _ _ _ _ HD) as (ty & Hin & Hst & _).
    apply List.Exists_exists. exists ty. split; [exact Hin|exact Hst].
  - apply Delete_not_found.
  - intros s' HD. split.
    + destruct (Delete_cases clk s id order)
        as [[e He]|(s0 & ty & entities & held & _ & _ & He & _ & Hv & _)];
        rewrite He in HD; [discriminate|]. injection HD as <-.
      rewrite versionOf_recordAudit. unfold memory.versionOf. rewrite Hv. reflexivity.
    + destruct (Delete_stored _ _ _ _ _ HD) as (ty & Hin & Hst & Hall & _).
      exists ty. split; [exact Hin|]. split; [exact Hst|]. split.
      * rewrite Hall. destruct (decide _) as [_|Hne];
          [reflexivity|exfalso; apply Hne; auto].
      * intros other Hne. rewrite Hall.
        destruct (decide _) as [[-> _]|_]; [contradiction|reflexivity].
Qed.

(** X21. The audit log is append-only: over any run of mutations, issued
    against any store, the trail of an id afterwards is the trail before
    followed by new records, one for each successful mutation of that id,
    all carrying that id.  No record is ever changed, reordered or
    removed. *)
Theorem audit_trail_only_grows {A : Type} `{memory.EntityOps A}
  (s : memory.MemoryStore A) (ms : list (Clock * memory.Mutation A)) (id : string) :
  exists more,
    memory.GetAuditTrail (fst (memory.run s ms)) id =
      (memory.GetAuditTrail s id ++ more)%list /\
    length more =
      length (filter (fun m => memory.mutationID m = id) (snd (memory.run s ms))) /\
    Forall (fun entry => storage.EntityID entry = id) more.
Proof. apply run_trail_grows. Qed.

(** X22. Nothing is stored that was not audited: in every store reached
    from the empty store by a run of mutations, each entity held under a
    type and an id is the new state of a record of that id's trail, with
    that type and that id. *)
Theorem stored_entities_are_on_the_audit_trail {A : Type} `{memory.EntityOps A}
  (ms : list (Clock * memory.Mutation A)) (entityType id : string) (entity : A) :
  let s := fst (memory.run memory.NewMemoryStore ms) in
  memory.stored s entityType id = Some entity ->
  exists entry,
    In entry (memory.GetAuditTrail s id) /\
    storage.EntityType entry = entityType /\
    storage.EntityID entry = id /\
    storage.NewState entry = Some entity.
Proof.
  intros s. apply (run_audited ms memory.NewMemoryStore audited_empty).
Qed.

Lemma stored_entities_are_on_the_audit_trail_witness :
  let s := fst (memory.run fixtures.emptyStore (firstn 2 fixtures.auditScript)) in
  exists entry,
    In entry (memory.GetAuditTrail s "test1") /\
    storage.EntityType entry = "*memory.TestEntity" /\
    storage.EntityID entry = "test1" /\
    storage.NewState entry = Some fixtures.updated.
Proof.
  intros s.
  refine (stored_entities_are_on_the_audit_trail (firstn 2 fixtures.auditScript)
            "*memory.TestEntity" "test1" fixtures.updated _).
  vm_compute. reflexivity.
Defined.

(** ** Changes over a period *)
Section ChangesFacts.
Import money account transaction reporting.

(** The movement [CalculateChanges] records for an entry of [tx]. *)
Lemma appendMovements_app (accountID : string) (tx : Transaction)
  (entries : list Entry) : forall movements : list BalanceMovement,
  fold_left
    (fun movements entry =>
       if String.eqb (Entry_AccountID entry) accountID
       then (movements ++
             [mkBalanceMovement (transaction.Date tx) (Entry_Amount entry)
                (entryTypeString (Entry_Type entry)) (transaction.Description tx)
                (transaction.ID tx)])%list
       else movements) entries movements =
  (movements ++
   map (fun entry =>
          mkBalanceMovement (transaction.Date tx) (Entry_Amount entry)
            (entryTypeString (Entry_Type entry)) (transaction.Description tx)
            (transaction.ID tx))
     (filter (fun entry => Entry_AccountID entry = accountID) entries))%list.
Proof.
  induction entries as [|entry entries IH]; intros movements; cbn [fold_left].
  - cbn. rewrite app_nil_r. reflexivity.
  - rewrite IH, filter_cons.
    destruct (String.eqb_spec (Entry_AccountID entry) accountID) as [Heq|Hne];
      destruct (decide (Entry_AccountID entry = accountID)); try contradiction.
    + rewrite <- app_assoc. reflexivity.
    + reflexivity.
Qed.

Lemma collectMovements_app (accountID : string) (transactions : list Transaction) :
  forall movements : list BalanceMovement,
  fold_left (fun movements tx => appendMovements accountID tx movements)
    transactions movements =
  (movements ++
   flat_map
     (fun tx =>
        map (fun entry =>
               mkBalanceMovement (transaction.Date tx) (Entry_Amount entry)
                 (entryTypeString (Entry_Type entry)) (transaction.Description tx)
                 (transaction.ID tx))
          (filter (fun entry => Entry_AccountID entry = accountID) (Entries tx)))
     transactions)%list.
Proof.
  induction transactions as [|tx transactions IH]; intros movements;
    cbn [fold_left flat_map].
  - rewrite app_nil_r. reflexivity.
  - rewrite IH. unfold appendMovements. rewrite appendMovements_app, <- app_assoc.
    reflexivity.
Qed.

Lemma movement_amounts (accountID : string) (transactions : list Transaction) :
  map Movement_Amount
    (flat_map
       (fun tx =>
          map (fun entry =>
                 mkBalanceMovement (transaction.Date tx) (Entry_Amount entry)
                   (entryTypeString (Entry_Type entry)) (transaction.Description tx)
                   (transaction.ID tx))
            (filter (fun entry => Entry_AccountID entry = accountID) (Entries tx)))
       transactions) =
  map Entry_Amount (entriesOf accountID transactions).
Proof.
  unfold entriesOf. induction transactions as [|tx transactions IH]; [reflexivity|].
  cbn [flat_map map concat]. rewrite filter_app, !map_app, IH, map_map. reflexivity.
Qed.

End ChangesFacts.

(** X23. [CalculateChanges] over the transactions [transactions] the
    store returns for the period: a failing query is reported as "error
    getting transactions"; a failing opening (closing) balance as "error
    calculating opening (closing) balance", the opening one first; a
    panic of either balance is a panic of the call.  When both balances
    are computed the call succeeds, reports them, reports as net change
    the closing amount less the opening amount in the closing balance's
    currency, and lists one movement for each entry of [transactions]
    that names the account, in order, with the entry's amount and side
    and its transaction's date, description and id. *)
Theorem changes_are_closing_less_opening_with_the_account_movements
  (c : reporting.Stores) (accountID : string) (period : reporting.ReportPeriod) :
  match reporting.queryTransactions c (reporting.periodQuery accountID period) with
  | Err e =>
      reporting.CalculateChanges c accountID period =
        Returned (Err (wrapError "error getting transactions"
                         (wrapError "error querying transactions" e)))
  | Ok transactions =>
      match reporting.getBalanceAtTime c accountID (reporting.Start period) with
      | Panicked msg => reporting.CalculateChanges c accountID period = Panicked msg
      | Returned (Err e) =>
          reporting.CalculateChanges c accountID period =
            Returned (Err (wrapError "error calculating opening balance" e))
      | Returned (Ok opening) =>
          match reporting.getBalanceAtTime c accountID (reporting.End_ period) with
          | Panicked msg => reporting.CalculateChanges c accountID period = Panicked msg
          | Returned (Err e) =>
              reporting.CalculateChanges c accountID period =
                Returned (Err (wrapError "error calculating closing balance" e))
          | Returned (Ok closing) =>
              exists changes,
                reporting.CalculateChanges c accountID period = Returned (Ok changes) /\
                reporting.OpeningBalance changes = opening /\
                reporting.ClosingBalance changes = closing /\
                money.Currency (reporting.NetChange changes) = money.Currency closing /\
                (decimal.dval (money.Amount (reporting.NetChange changes)) ==
                 decimal.dval (money.Amount closing)
                 - decimal.dval (money.Amount opening))%Q /\
                reporting.Movements changes =
                  flat_map
                    (fun tx =>
                       map (fun entry =>
                              reporting.mkBalanceMovement (transaction.Date tx)
                                (transaction.Entry_Amount entry)
                                (reporting.entryTypeString (transaction.Entry_Type entry))
                                (transaction.Description tx) (transaction.ID tx))
                         (filter (fun entry =>
                                    transaction.Entry_AccountID entry = accountID)
                            (transaction.Entries tx)))
                    transactions /\
                map reporting.Movement_Amount (reporting.Movements changes) =
                  map transaction.Entry_Amount
                    (reporting.entriesOf accountID transactions)
          end
      end
  end.
Proof.
  unfold reporting.CalculateChanges, reporting.getTransactionsForPeriod.
  destruct (reporting.queryTransactions c (reporting.periodQuery accountID period))
    as [transactions|e]; [|reflexivity].
  destruct (reporting.getBalanceAtTime c accountID (reporting.Start period))
    as [[opening|e]|msg]; [|reflexivity|reflexivity].
  destruct (reporting.getBalanceAtTime c accountID (reporting.End_ period))
    as [[closing|e]|msg]; [|reflexivity|reflexivity].
  eexists. split; [reflexivity|]. cbn.
  split; [reflexivity|]. split; [reflexivity|]. split; [reflexivity|].
  split; [apply dval_Sub|].
  rewrite (collectMovements_app accountID transactions []). cbn [app].
  split; [reflexivity|apply movement_amounts].
Qed.

(** ** Financial statements *)
Section StatementFacts.
Import money account reporting statements.

Lemma sectionItems_ok (amountOf : Account -> outcome (result Money)) (what : string)
  (opts : StatementOptions) (accounts : list Account) (amounts : list Money) :
  Forall2 (fun acc amount => amountOf acc = Returned (Ok amount)) accounts amounts ->
  forall (items : list LineItem) (total : decimal.Decimal),
  let shown :=
    map (fun p => mkLineItem (account.Name (fst p)) (snd p) [account.ID (fst p)])
      (List.filter
         (fun p => negb (decimal.IsZero (Amount (snd p)))
                   || String.eqb (DetailLevel opts) "detailed")
         (combine accounts amounts)) in
  exists total',
    sectionItems amountOf what opts accounts items total =
      Returned ((items ++ shown)%list, Ok total') /\
    (decimal.dval total' ==
     decimal.dval total
     + fold_right Qplus 0 (map (fun item => decimal.dval (Amount (Item_Amount item)))
                             shown))%Q.
Proof.
  induction 1 as [|acc amount accounts amounts Hacc _ IH]; intros items total;
    cbn zeta.
  - exists total. cbn. rewrite app_nil_r. split; [reflexivity|lra].
  - cbn [sectionItems combine List.filter fst snd]. rewrite Hacc.
    destruct (negb (decimal.IsZero (Amount amount))
              || String.eqb (DetailLevel opts) "detailed").
    + destruct (IH (items ++ [mkLineItem (account.Name acc) amount [account.ID acc]])%list
                  (decimal.Add total (Amount amount))) as (total' & -> & Hsum).
      exists total'. cbn zeta in Hsum. cbn [map fold_right fst snd Item_Amount].
      rewrite <- app_assoc. split; [reflexivity|].
      rewrite Hsum, dval_Add. lra.
    + exact (IH items total).
Qed.

Lemma sectionItems_fails (amountOf : Account -> outcome (result Money)) (what : string)
  (opts : StatementOptions) (done : list Account) (amounts : list Money)
  (acc : Account) (rest : list Account) (e : error) :
  Forall2 (fun acc amount => amountOf acc = Returned (Ok amount)) done amounts ->
  amountOf acc = Returned (Err e) ->
  forall (items : list LineItem) (total : decimal.Decimal),
  sectionItems amountOf what opts (done ++ acc :: rest) items total =
    Returned
      ((items ++
        map (fun p => mkLineItem (account.Name (fst p)) (snd p) [account.ID (fst p)])
          (List.filter
             (fun p => negb (decimal.IsZero (Amount (snd p)))
                       || String.eqb (DetailLevel opts) "detailed")
             (combine done amounts)))%list,
       Err (wrapError (what ++ account.ID acc) e)).
Proof.
  intros Hdone Hacc.
  induction Hdone as [|acc0 amount done amounts Hacc0 _ IH]; intros items total.
  - cbn. rewrite Hacc, app_nil_r. reflexivity.
  - cbn [app sectionItems combine List.filter fst snd]. rewrite Hacc0.
    destruct (negb (decimal.IsZero (Amount amount))
              || String.eqb (DetailLevel opts) "detailed").
    + rewrite IH. cbn [map fst snd]. rewrite <- app_assoc. reflexivity.
    + apply IH.
Qed.

Lemma accountSection_ok (g : Generator) (title queryFailure : string)
  (accountType : AccountType) (amountOf : Account -> outcome (result Money))
  (what : string) (opts : StatementOptions) (accounts : list Account)
  (amounts : list Money) :
  queryAccounts g accountType = Ok accounts ->
  Forall2 (fun acc amount => amountOf acc = Returned (Ok amount)) accounts amounts ->
  exists section,
    accountSection g title queryFailure accountType amountOf what opts =
      Returned (section, None) /\
    Title section = title /\
    Items section =
      map (fun p => mkLineItem (account.Name (fst p)) (snd p) [account.ID (fst p)])
        (List.filter
           (fun p => negb (decimal.IsZero (Amount (snd p)))
                     || String.eqb (DetailLevel opts) "detailed")
           (combine accounts amounts)) /\
    Currency (Total section) = Opt_Currency opts /\
    (decimal.dval (Amount (Total section)) ==
     fold_right Qplus 0 (map (fun item => decimal.dval (Amount (Item_Amount item)))
                           (Items section)))%Q.
Proof.
  intros Hq Hall. unfold accountSection. rewrite Hq.
  destruct (sectionItems_ok amountOf what opts accounts amounts Hall [] decimal.Zero)
    as (total & -> & Hsum).
  eexists. split; [reflexivity|]. cbn [Title Items Total Currency Amount app].
  split; [reflexivity|]. split; [reflexivity|]. split; [reflexivity|].
  cbn zeta in Hsum. rewrite Hsum, dval_Zero. lra.
Qed.

Lemma accountSection_fails (g : Generator) (title queryFailure : string)
  (accountType : AccountType) (amountOf : Account -> outcome (result Money))
  (what : string) (opts : StatementOptions) (done : list Account)
  (amounts : list Money) (acc : Account) (rest : list Account) (e : error) :
  queryAccounts g accountType = Ok (done ++ acc :: rest)%list ->
  Forall2 (fun acc amount => amountOf acc = Returned (Ok amount)) done amounts ->
  amountOf acc = Returned (Err e) ->
  exists section,
    accountSection g title queryFailure accountType amountOf what opts =
      Returned (section, Some (wrapError (what ++ account.ID acc) e)).
Proof.
  intros Hq Hdone Hacc. unfold accountSection. rewrite Hq.
  rewrite (sectionItems_fails amountOf what opts done amounts acc rest e Hdone Hacc).
  eexists. reflexivity.
Qed.

Lemma netChangeOf_ok (g : Generator) (period : ReportPeriod) (accounts : list Account)
  (changes : list BalanceChange) :
  Forall2 (fun acc change =>
             calcChanges (calculator g) (account.ID acc) period = Returned (Ok change))
    accounts changes ->
  Forall2 (fun acc amount => netChangeOf g period acc = Returned (Ok amount))
    accounts (map NetChange changes).
Proof.
  induction 1 as [|acc change accounts changes Hacc _ IH]; cbn [map]; constructor;
    [|exact IH].
  unfold netChangeOf. rewrite Hacc. reflexivity.
Qed.

Lemma sumChanges_ok (g : Generator) (period : ReportPeriod) (accounts : list Account)
  (changes : list BalanceChange) :
  Forall2 (fun acc change =>
             calcChanges (calculator g) (account.ID acc) period = Returned (Ok change))
    accounts changes ->
  forall sum,
  exists sum',
    sumChanges g period accounts sum = Returned (Ok sum') /\
    (decimal.dval sum' ==
     decimal.dval sum
     + fold_right Qplus 0 (map (fun change => decimal.dval (Amount (NetChange change)))
                             changes))%Q.
Proof.
  induction 1 as [|acc change accounts changes Hacc _ IH]; intros sum.
  - exists sum. cbn. split; [reflexivity|lra].
  - cbn [sumChanges]. rewrite Hacc.
    destruct (IH (decimal.Add sum (Amount (NetChange change)))) as (sum' & -> & Hsum).
    exists sum'. split; [reflexivity|]. cbn [map fold_right].
    rewrite Hsum, dval_Add. lra.
Qed.

Lemma itemsTotal_sum (items : list LineItem) :
  (decimal.dval (itemsTotal items) ==
   fold_right Qplus 0 (map (fun item => decimal.dval (Amount (Item_Amount item)))
                         items))%Q.
Proof.
  unfold itemsTotal.
  assert (forall total,
            decimal.dval
              (fold_left (fun total item => decimal.Add total (Amount (Item_Amount item)))
                 items total) ==
            decimal.dval total
            + fold_right Qplus 0
                (map (fun item => decimal.dval (Amount (Item_Amount item))) items))%Q
    as Hgen.
  { induction items as [|item items IH]; intros total; cbn [fold_left map fold_right].
    - lra.
    - rewrite IH, dval_Add. lra. }
  rewrite Hgen, dval_Zero. lra.
Qed.

Variable AddDate : Time -> Z -> Z -> Z -> Time.

(** Without a comparative period a single call does all the work. *)
Lemma GenerateBalanceSheet_plain (fuel : nat) (g : Generator) (asOf : Time)
  (opts : StatementOptions) :
  IncludeComparative opts = false ->
  GenerateBalanceSheet AddDate (S fuel) g asOf opts =
  GenerateBalanceSheet AddDate 1 g asOf opts.
Proof.
  intros Hno. cbn [GenerateBalanceSheet]. rewrite Hno. reflexivity.
Qed.

Lemma GenerateBalanceSheet_fuel (fuel : nat) (g : Generator) (asOf : Time)
  (opts : StatementOptions) :
  GenerateBalanceSheet AddDate (S (S fuel)) g asOf opts =
  GenerateBalanceSheet AddDate 2 g asOf opts.
Proof.
  cbn [GenerateBalanceSheet IncludeComparative]. reflexivity.
Qed.

Lemma GenerateBalanceSheet_shape (g : Generator) (asOf : Time)
  (opts : StatementOptions) :
  IncludeComparative opts = false ->
  exists out,
    GenerateBalanceSheet AddDate 1 g asOf opts = Some out /\
    forall stmt, out = Returned (Ok stmt) ->
      Stmt_Type stmt = BalanceSheet /\ Stmt_Title stmt = "Balance Sheet" /\
      AsOf stmt = asOf /\ PeriodStart stmt = None /\
      Stmt_Currency stmt = Opt_Currency opts /\
      ComparativePeriod stmt = None /\
      exists assets liabilities equity,
        Sections stmt = [assets; liabilities; equity] /\
        generateBalanceSheetSection g "Assets" Asset asOf opts =
          Returned (assets, None) /\
        generateBalanceSheetSection g "Liabilities" Liability asOf opts =
          Returned (liabilities, None) /\
        generateBalanceSheetSection g "Equity" Equity asOf opts =
          Returned (equity, None).
Proof.
  intros Hno. cbn [GenerateBalanceSheet]. rewrite Hno.
  destruct (generateBalanceSheetSection g "Assets" Asset asOf opts)
    as [[assetSection [e|]]|msg];
    try solve [eexists; split; [reflexivity|]; intros stmt [=]].
  destruct (generateBalanceSheetSection g "Liabilities" Liability asOf opts)
    as [[liabSection [e|]]|msg];
    try solve [eexists; split; [reflexivity|]; intros stmt [=]].
  destruct (generateBalanceSheetSection g "Equity" Equity asOf opts)
    as [[equitySection [e|]]|msg];
    try solve [eexists; split; [reflexivity|]; intros stmt [=]].
  eexists; split; [reflexivity|]. intros stmt [= <-]. cbn.
  repeat (split; [reflexivity|]).
  exists assetSection, liabSection, equitySection. auto.
Qed.

End StatementFacts.

(** X24. A balance-sheet section and an income-statement section, when
    the account query and every calculator call succeed: the section
    carries the given title; it lists, in the order of the accounts, one
    item for each account whose amount (the balance as of the date, resp.
    the net change over the period) is not zero, or for every account
    when the detail level is "detailed", labelled with the account's name
    and naming the account's id; and its total is the sum of the listed
    amounts, labelled with the currency of the options whatever the
    currencies of the items. *)
Theorem section_lists_nonzero_accounts_and_totals_them
  (g : statements.Generator) (title : string) (accountType : account.AccountType)
  (opts : statements.StatementOptions) (accounts : list account.Account) :
  statements.queryAccounts g accountType = Ok accounts ->
  let listed (amounts : list money.Money) (section : statements.StatementSection) :=
    statements.Title section = title /\
    statements.Items section =
      map (fun p => statements.mkLineItem (account.Name (fst p)) (snd p)
                      [account.ID (fst p)])
        (List.filter
           (fun p => negb (decimal.IsZero (money.Amount (snd p)))
                     || String.eqb (statements.DetailLevel opts) "detailed")
           (combine accounts amounts)) /\
    money.Currency (statements.Total section) = statements.Opt_Currency opts /\
    (decimal.dval (money.Amount (statements.Total section)) ==
     fold_right Qplus 0
       (map (fun item => decimal.dval (money.Amount (statements.Item_Amount item)))
          (statements.Items section)))%Q in
  (forall (asOf : Time) (balances : list money.Money),
     Forall2 (fun acc balance =>
                statements.calcBalance (statements.calculator g) (account.ID acc)
                  (reporting.mkReportPeriod reporting.zeroTime asOf) =
                Returned (Ok balance)) accounts balances ->
     exists section,
       statements.generateBalanceSheetSection g title accountType asOf opts =
         Returned (section, None) /\
       listed balances section) /\
  (forall (period : reporting.ReportPeriod) (changes : list reporting.BalanceChange),
     Forall2 (fun acc change =>
                statements.calcChanges (statements.calculator g) (account.ID acc) period =
                Returned (Ok change)) accounts changes ->
     exists section,
       statements.generateIncomeStatementSection g title accountType period opts =
         Returned (section, None) /\
       listed (map reporting.NetChange changes) section).
Proof.
  intros Hq listed. split.
  - intros asOf balances Hall.
    destruct (accountSection_ok g title "error querying accounts" accountType
                (statements.balanceOf g asOf) "error calculating balance for account "
                opts accounts balances Hq Hall) as (section & Hrun & Hrest).
    exists section. split; [exact Hrun|exact Hrest].
  - intros period changes Hall.
    destruct (accountSection_ok g title "error querying accounts" accountType
                (statements.netChangeOf g period)
                "error calculating changes for account "
                opts accounts (map reporting.NetChange changes) Hq
                (netChangeOf_ok g period accounts changes Hall))
      as (section & Hrun & Hrest).
    exists section. split; [exact Hrun|exact Hrest].
Qed.

Lemma section_lists_nonzero_accounts_and_totals_them_witness :
  exists section,
    statements.generateBalanceSheetSection samples.chartGenerator "Assets"
      account.Asset 100 samples.summaryOptions = Returned (section, None) /\
    map statements.Label (statements.Items section) =
      ["Cash"; "Accounts Receivable"] /\
    statements.Total section = money.mkMoney (decimal.mkDecimal 1500 0) "USD".
Proof.
  destruct (proj1 (section_lists_nonzero_accounts_and_totals_them
                     samples.chartGenerator "Assets" account.Asset
                     samples.summaryOptions (samples.chart account.Asset) eq_refl)
              100 [fixtures.usd 1000; fixtures.usd 500; fixtures.usd 0])
    as (section & Hrun & _ & Hitems & _).
  - repeat constructor.
  - exists section. split; [exact Hrun|]. split; [rewrite Hitems; reflexivity|].
    vm_compute in Hrun. injection Hrun as <-. reflexivity.
Defined.

(** A section stops at the first account whose calculator call
    fails: the error names that account ("error calculating balance for
    account <id>", resp. "error calculating changes for account <id>")
    and wraps the calculator's error, and no later account is asked for.
    A failing account query is reported as "error querying accounts". *)
Theorem section_stops_at_the_first_failing_account
  (g : statements.Generator) (title : string) (accountType : account.AccountType)
  (opts : statements.StatementOptions) :
  (forall e, statements.queryAccounts g accountType = Err e ->
     forall asOf period,
     (exists section,
        statements.generateBalanceSheetSection g title accountType asOf opts =
          Returned (section, Some (wrapError "error querying accounts" e))) /\
     (exists section,
        statements.generateIncomeStatementSection g title accountType period opts =
          Returned (section, Some (wrapError "error querying accounts" e)))) /\
  (forall (done : list account.Account) (acc : account.Account)
          (rest : list account.Account) (e : error),
     statements.queryAccounts g accountType = Ok (done ++ acc :: rest)%list ->
     (forall (asOf : Time) (balances : list money.Money),
        Forall2 (fun acc balance =>
                   statements.balanceOf g asOf acc = Returned (Ok balance))
          done balances ->
        statements.balanceOf g asOf acc = Returned (Err e) ->
        exists section,
          statements.generateBalanceSheetSection g title accountType asOf opts =
            Returned (section,
                      Some (wrapError ("error calculating balance for account "
                                       ++ account.ID acc) e))) /\
     (forall (period : reporting.ReportPeriod) (changes : list money.Money),
        Forall2 (fun acc change =>
                   statements.netChangeOf g period acc = Returned (Ok change))
          done changes ->
        statements.netChangeOf g period acc = Returned (Err e) ->
        exists section,
          statements.generateIncomeStatementSection g title accountType period opts =
            Returned (section,
                      Some (wrapError ("error calculating changes for account "
                                       ++ account.ID acc) e)))).
Proof.
  split.
  - intros e Hq asOf period.
    unfold statements.generateBalanceSheetSection,
      statements.generateIncomeStatementSection, statements.accountSection.
    rewrite Hq. split; eexists; reflexivity.
  - intros done acc rest e Hq. split.
    + intros asOf balances Hdone Hacc.
      exact (accountSection_fails g title "error querying accounts" accountType
               (statements.balanceOf g asOf) "error calculating balance for account "
               opts done balances acc rest e Hq Hdone Hacc).
    + intros period changes Hdone Hacc.
      exact (accountSection_fails g title "error querying accounts" accountType
               (statements.netChangeOf g period)
               "error calculating changes for account "
               opts done changes acc rest e Hq Hdone Hacc).
Qed.

(** X25. [GenerateBalanceSheet] makes at most one nested call: two
    levels of calls always suffice, whatever the stores answer.  A balance
    sheet it returns is of type BalanceSheet, as of the given date, in the
    currency of the options, and has the sections Assets, Liabilities and
    Equity in this order, each the section [generateBalanceSheetSection]
    returns.  It carries a comparative statement exactly when the options
    ask for one; that statement is the balance sheet as of the date moved
    back by the comparative months, in the same currency and detail level,
    and has no comparative statement of its own. *)
Theorem balance_sheet_has_three_sections_and_one_comparative
  (AddDate : Time -> Z -> Z -> Z -> Time) (fuel : nat) (g : statements.Generator)
  (asOf : Time) (opts : statements.StatementOptions) :
  (2 <= fuel)%nat ->
  let sheet (stmt : statements.Statement) (date : Time)
        (o : statements.StatementOptions) :=
    statements.Stmt_Type stmt = statements.BalanceSheet /\
    statements.Stmt_Title stmt = "Balance Sheet" /\
    statements.AsOf stmt = date /\
    statements.PeriodStart stmt = None /\
    statements.Stmt_Currency stmt = statements.Opt_Currency o /\
    exists assets liabilities equity,
      statements.Sections stmt = [assets; liabilities; equity] /\
      statements.generateBalanceSheetSection g "Assets" account.Asset date o =
        Returned (assets, None) /\
      statements.generateBalanceSheetSection g "Liabilities" account.Liability date o =
        Returned (liabilities, None) /\
      statements.generateBalanceSheetSection g "Equity" account.Equity date o =
        Returned (equity, None) in
  exists out,
    statements.GenerateBalanceSheet AddDate fuel g asOf opts = Some out /\
    forall stmt, out = Returned (Ok stmt) ->
      sheet stmt asOf opts /\
      match statements.ComparativePeriod stmt with
      | None => statements.IncludeComparative opts = false
      | Some comparative =>
          statements.IncludeComparative opts = true /\
          sheet comparative
            (AddDate asOf 0
               (statements.negInt (statements.ComparativePeriodMonths opts)) 0)
            (statements.mkStatementOptions false 0 (statements.DetailLevel opts)
               (statements.Opt_Currency opts)) /\
          statements.ComparativePeriod comparative = None
      end.
Proof.
  intros Hfuel sheet.
  destruct fuel as [|[|fuel]]; [lia|lia|]. clear Hfuel.
  rewrite GenerateBalanceSheet_fuel.
  destruct (statements.IncludeComparative opts) eqn:Hinc.
  - pose proof (GenerateBalanceSheet_shape AddDate g
                  (AddDate asOf 0
                     (statements.negInt (statements.ComparativePeriodMonths opts)) 0)
                  (statements.mkStatementOptions false 0 (statements.DetailLevel opts)
                     (statements.Opt_Currency opts)) eq_refl)
      as (out' & Hout' & Hshape').
    cbn [statements.GenerateBalanceSheet] in Hout' |- *.
    cbn [statements.GenerateBalanceSheet statements.IncludeComparative] in Hout'.
    rewrite Hinc.
    destruct (statements.generateBalanceSheetSection g "Assets" account.Asset asOf opts)
      as [[assetSection [e|]]|msg] eqn:Ha;
      try solve [eexists; split; [reflexivity|]; intros stmt [=]].
    destruct (statements.generateBalanceSheetSection g "Liabilities"
                account.Liability asOf opts)
      as [[liabSection [e|]]|msg] eqn:Hl;
      try solve [eexists; split; [reflexivity|]; intros stmt [=]].
    destruct (statements.generateBalanceSheetSection g "Equity" account.Equity asOf opts)
      as [[equitySection [e|]]|msg] eqn:He;
      try solve [eexists; split; [reflexivity|]; intros stmt [=]].
    cbn [statements.IncludeComparative].
    rewrite Hout'.
    destruct out' as [[comparative|e]|msg];
      try solve [eexists; split; [reflexivity|]; intros stmt [=]].
    eexists. split; [reflexivity|]. intros stmt [= <-].
    cbn [statements.ComparativePeriod]. split.
    + unfold sheet. cbn. repeat (split; [reflexivity|]).
      exists assetSection, liabSection, equitySection. auto.
    + split; [reflexivity|].
      destruct (Hshape' comparative eq_refl)
        as (Hty & Hti & Hd & Hps & Hcur & Hcmp & Hsec).
      split; [|exact Hcmp]. unfold sheet.
      repeat (split; [assumption|]). exact Hsec.
  - rewrite (GenerateBalanceSheet_plain AddDate 1 g asOf opts Hinc).
    destruct (GenerateBalanceSheet_shape AddDate g asOf opts Hinc)
      as (out & Hout & Hshape).
    exists out. split; [exact Hout|]. intros stmt Hstmt.
    destruct (Hshape stmt Hstmt) as (Hty & Hti & Hd & Hps & Hcur & Hcmp & Hsec).
    rewrite Hcmp. split; [|reflexivity]. unfold sheet.
    repeat (split; [assumption|]). exact Hsec.
Qed.

Lemma balance_sheet_has_three_sections_and_one_comparative_witness :
  exists stmt comparative,
    statements.GenerateBalanceSheet samples.thirtyDayMonths 2 samples.chartGenerator
      (400 * 86400000000000) samples.comparativeOptions =
      Some (Returned (Ok stmt)) /\
    map statements.Title (statements.Sections stmt) =
      ["Assets"; "Liabilities"; "Equity"] /\
    statements.ComparativePeriod stmt = Some comparative /\
    statements.AsOf comparative = 40 * 86400000000000 /\
    statements.ComparativePeriod comparative = None.
Proof.
  destruct (balance_sheet_has_three_sections_and_one_comparative
              samples.thirtyDayMonths 2 samples.chartGenerator
              (400 * 86400000000000) samples.comparativeOptions (le_n 2))
    as (out & Hout & Hsheet).
  assert (exists stmt, out = Returned (Ok stmt)) as [stmt ->].
  { vm_compute in Hout. injection Hout as <-. eexists. reflexivity. }
  destruct (Hsheet stmt eq_refl)
    as ((_ & _ & _ & _ & _ & a & l & e & Hsec & Ha & Hl & He) & Hcmp).
  destruct (statements.ComparativePeriod stmt) as [comparative|] eqn:Hc;
    [|discriminate Hcmp].
  destruct Hcmp as (_ & (_ & _ & Hdate & _) & Hnone).
  exists stmt, comparative. split; [exact Hout|].
  split.
  - rewrite Hsec. cbn [map].
    vm_compute in Ha. injection Ha as <-.
    vm_compute in Hl. injection Hl as <-.
    vm_compute in He. injection He as <-. reflexivity.
  - split; [exact Hc|]. split; [rewrite Hdate; vm_compute; reflexivity|exact Hnone].
Defined.

(** X26. The operating section of the indirect cash-flow statement, when
    the revenue and expense accounts can be queried and their changes
    calculated: it holds the single item "Net Income", whose amount is
    the sum of the net changes of the revenue accounts less the sum of
    the net changes of the expense accounts and whose currency is always
    "USD"; the section total equals that amount and is labelled with the
    currency of the options. *)
Theorem operating_cash_flow_is_net_income
  (g : statements.Generator) (period : reporting.ReportPeriod)
  (opts : statements.StatementOptions)
  (revenueAccounts expenseAccounts : list account.Account)
  (revenueChanges expenseChanges : list reporting.BalanceChange) :
  statements.queryAccounts g account.Revenue = Ok revenueAccounts ->
  statements.queryAccounts g account.Expense = Ok expenseAccounts ->
  Forall2 (fun acc change =>
             statements.calcChanges (statements.calculator g) (account.ID acc) period =
             Returned (Ok change)) revenueAccounts revenueChanges ->
  Forall2 (fun acc change =>
             statements.calcChanges (statements.calculator g) (account.ID acc) period =
             Returned (Ok change)) expenseAccounts expenseChanges ->
  exists section netIncome,
    statements.generateOperatingCashFlowIndirect g period opts =
      Returned (section, None) /\
    statements.Title section = "Operating Activities" /\
    statements.Items section =
      [statements.mkLineItem "Net Income" (money.mkMoney netIncome "USD") []] /\
    (decimal.dval netIncome ==
     fold_right Qplus 0
       (map (fun change => decimal.dval (money.Amount (reporting.NetChange change)))
          revenueChanges)
     - fold_right Qplus 0
         (map (fun change => decimal.dval (money.Amount (reporting.NetChange change)))
            expenseChanges))%Q /\
    money.Currency (statements.Total section) = statements.Opt_Currency opts /\
    (decimal.dval (money.Amount (statements.Total section)) ==
     decimal.dval netIncome)%Q.
Proof.
  intros Hrev Hexp Hrc Hec. unfold statements.generateOperatingCashFlowIndirect.
  rewrite Hrev, Hexp.
  destruct (sumChanges_ok g period revenueAccounts revenueChanges Hrc decimal.Zero)
    as (revenue & -> & Hr).
  destruct (sumChanges_ok g period expenseAccounts expenseChanges Hec decimal.Zero)
    as (expenses & -> & He).
  cbn [statements.calculateNonCashAdjustments
         statements.calculateWorkingCapitalChanges app].
  eexists _, (decimal.Sub revenue expenses). split; [reflexivity|].
  cbn [statements.Title statements.Items statements.Total money.Currency money.Amount].
  split; [reflexivity|]. split; [reflexivity|].
  split; [rewrite dval_Sub, Hr, He, dval_Zero; lra|].
  split; [reflexivity|].
  rewrite itemsTotal_sum. cbn [map fold_right statements.Item_Amount money.Amount]. lra.
Qed.

Lemma operating_cash_flow_is_net_income_witness :
  exists section,
    statements.generateOperatingCashFlowIndirect samples.chartGenerator
      fixtures.anyPeriod samples.summaryOptions = Returned (section, None) /\
    statements.Items section =
      [statements.mkLineItem "Net Income" (fixtures.usd 2000) []] /\
    statements.Total section = fixtures.usd 2000.
Proof.
  destruct (operating_cash_flow_is_net_income samples.chartGenerator
              fixtures.anyPeriod samples.summaryOptions
              (samples.chart account.Revenue) (samples.chart account.Expense)
              [reporting.mkBalanceChange (fixtures.usd 0) (fixtures.usd 5000)
                 (fixtures.usd 5000) []]
              [reporting.mkBalanceChange (fixtures.usd 0) (fixtures.usd 3000)
                 (fixtures.usd 3000) []]
              eq_refl eq_refl)
    as (section & netIncome & Hrun & _).
  - repeat constructor.
  - repeat constructor.
  - exists section. split; [exact Hrun|].
    vm_compute in Hrun. injection Hrun as <-. split; reflexivity.
Defined.

(** ** The validation package *)
Section ValidationFacts.
Import money transaction validation.

Lemma tally_totals (entries : list Entry) :
  forall totals : decimal.Decimal * decimal.Decimal,
  (decimal.dval (fst (fold_left tally entries totals)) ==
   decimal.dval (fst totals) + sideTotal Debit entries)%Q /\
  (decimal.dval (snd (fold_left tally entries totals)) ==
   decimal.dval (snd totals) + sideTotal Credit entries)%Q.
Proof.
  induction entries as [|entry entries IH]; intros totals; cbn [fold_left].
  - unfold sideTotal. cbn. split; lra.
  - destruct (IH (tally totals entry)) as [Hd Hc]. rewrite Hd, Hc.
    rewrite !sideTotal_cons. unfold tally.
    destruct (Entry_Type entry); cbn [fst snd];
      repeat match goal with
             | |- context [decide (?a = ?b)] => destruct (decide (a = b)); try congruence
             end;
      rewrite ?dval_Add; split; lra.
Qed.

Lemma noteErrors_spec (results : list ValidationResult) : forall hasErrors : bool,
  noteErrors hasErrors results =
  hasErrors || bool_decide (Exists (fun r => Severity r = Error) results).
Proof.
  unfold noteErrors.
  induction results as [|r results IH]; intros hasErrors; cbn [fold_left].
  - rewrite bool_decide_eq_false_2 by (intros HE; inversion HE).
    rewrite orb_false_r. reflexivity.
  - rewrite IH. destruct (decide (Severity r = Error)) as [He|Hne].
    + rewrite (bool_decide_eq_true_2 (Exists _ (r :: results)))
        by (constructor; exact He).
      rewrite orb_true_r. reflexivity.
    + destruct (bool_decide (Exists (fun r => Severity r = Error) results)) eqn:Hb.
      * apply bool_decide_eq_true_1 in Hb.
        rewrite (bool_decide_eq_true_2 (Exists _ (r :: results)))
          by (apply Exists_cons_tl; exact Hb). reflexivity.
      * apply bool_decide_eq_false_1 in Hb.
        rewrite (bool_decide_eq_false_2 (Exists _ (r :: results)))
          by (intros HE; inversion HE; subst; contradiction). reflexivity.
Qed.

Lemma runValidators_ok (obj : Object) (validators : list Validator)
  (resultss : list (list ValidationResult)) :
  Forall2 (fun v rs => validate v obj = Returned (Ok rs)) validators resultss ->
  forall (allResults : list ValidationResult) (hasErrors : bool),
  runValidators validators obj allResults hasErrors =
    Returned (Ok ((allResults ++ concat resultss)%list,
                  hasErrors
                  || bool_decide (Exists (fun r => Severity r = Error)
                                    (concat resultss)))).
Proof.
  induction 1 as [|v rs validators resultss Hv _ IH]; intros allResults hasErrors;
    cbn [runValidators concat].
  - rewrite app_nil_r, bool_decide_eq_false_2 by (intros HE; inversion HE).
    rewrite orb_false_r. reflexivity.
  - assert (bool_decide (Exists (fun r => Severity r = Error) (rs ++ concat resultss))
            = bool_decide (Exists (fun r => Severity r = Error) rs)
              || bool_decide (Exists (fun r => Severity r = Error) (concat resultss)))
      as Hsplit.
    { rewrite <- bool_decide_or. apply bool_decide_ext. apply Exists_app. }
    rewrite Hv, IH, noteErrors_spec, <- app_assoc, <- orb_assoc, Hsplit. reflexivity.
Qed.

Lemma runValidators_fails (obj : Object) (done : list Validator)
  (resultss : list (list ValidationResult)) (v : Validator) (rest : list Validator)
  (e : error) :
  Forall2 (fun v rs => validate v obj = Returned (Ok rs)) done resultss ->
  validate v obj = Returned (Err e) ->
  forall (allResults : list ValidationResult) (hasErrors : bool),
  runValidators (done ++ v :: rest) obj allResults hasErrors =
    Returned (Err (wrapError "validator error" e)).
Proof.
  intros Hdone Hv. induction Hdone as [|v0 rs done resultss Hv0 _ IH];
    intros allResults hasErrors; cbn [app runValidators].
  - rewrite Hv. reflexivity.
  - rewrite Hv0. apply IH.
Qed.

(** The results of the transaction validator, check by check. *)
Lemma ValidateTransaction_results (decimalString : decimal.Decimal -> string)
  (tx : Transaction) :
  let totals := fold_left tally (Entries tx) (decimal.zeroValue, decimal.zeroValue) in
  ValidateTransaction decimalString (TransactionPtr tx) =
    Returned (Ok (
      (if (length (Entries tx) <? 2)%nat
       then [mkValidationResult "TX_MIN_ENTRIES"
               "Transaction must have at least two entries" Error "Entries" None]
       else []) ++
      (if String.eqb (transaction.Description tx) ""
       then [mkValidationResult "TX_DESCRIPTION"
               "Transaction should have a description" Warning "Description" None]
       else []) ++
      (if (0 <? length (Entries tx))%nat
          && negb (decimal.Equal (fst totals) (snd totals))
       then [mkValidationResult "TX_BALANCE"
               ("Transaction is not balanced: debits=" ++ decimalString (fst totals)
                ++ ", credits=" ++ decimalString (snd totals))
               Error "Entries" (Some totals)]
       else []))%list).
Proof.
  cbv zeta. unfold ValidateTransaction.
  destruct (fold_left tally (Entries tx) (decimal.zeroValue, decimal.zeroValue))
    as [debits credits]. cbn [fst snd].
  destruct (length (Entries tx) <? 2)%nat, (String.eqb (transaction.Description tx) ""),
    (0 <? length (Entries tx))%nat, (decimal.Equal debits credits); reflexivity.
Qed.

End ValidationFacts.

(** X27. [TransactionValidator.Validate] on a transaction always
    returns results and no error.  None of the results is of severity
    Error exactly when the transaction has at least two entries and its
    debits equal its credits (an entry of any other type counts on
    neither side); a TX_DESCRIPTION warning is among them exactly when
    the description is empty.  Every transaction of debits and credits
    that the processor's [Validate] accepts passes without an Error
    result, and the engine running this validator alone returns no error
    for it. *)
Theorem transaction_validator_flags_short_or_unbalanced
  (decimalString : decimal.Decimal -> string) (tx : transaction.Transaction) :
  exists results,
    validation.ValidateTransaction decimalString (validation.TransactionPtr tx) =
      Returned (Ok results) /\
    (Forall (fun r => validation.Severity r <> validation.Error) results <->
     (2 <= length (transaction.Entries tx))%nat /\
     (transaction.sideTotal transaction.Debit (transaction.Entries tx) ==
      transaction.sideTotal transaction.Credit (transaction.Entries tx))%Q) /\
    (Exists (fun r => validation.Code r = "TX_DESCRIPTION") results <->
     transaction.Description tx = "") /\
    (Forall transaction.sided (transaction.Entries tx) ->
     transaction.Valid (fst (processor.Validate tx)) = true ->
     Forall (fun r => validation.Severity r <> validation.Error) results /\
     validation.Validate [validation.TransactionValidator decimalString]
       (Some (validation.TransactionPtr tx)) = Returned (results, None)).
Proof.
  pose proof (ValidateTransaction_results decimalString tx) as Hres. cbv zeta in Hres.
  destruct (tally_totals (transaction.Entries tx) (decimal.zeroValue, decimal.zeroValue))
    as [Hd Hc]. cbn [fst snd] in Hd, Hc. rewrite dval_zeroValue in Hd, Hc.
  destruct (fold_left validation.tally (transaction.Entries tx)
              (decimal.zeroValue, decimal.zeroValue)) as [debits credits].
  cbn [fst snd] in Hd, Hc, Hres.
  assert (decimal.Equal debits credits = true <->
          (transaction.sideTotal transaction.Debit (transaction.Entries tx) ==
           transaction.sideTotal transaction.Credit (transaction.Entries tx))%Q) as Heq.
  { rewrite Equal_dval, Hd, Hc. split; intros Hq; lra. }
  clear Hd Hc.
  eexists. split; [exact Hres|].
  assert (Forall (fun r => validation.Severity r <> validation.Error)
            (if String.eqb (transaction.Description tx) ""
             then [validation.mkValidationResult "TX_DESCRIPTION"
                     "Transaction should have a description" validation.Warning
                     "Description" None]
             else [])) as Hwarn.
  { destruct (String.eqb (transaction.Description tx) ""); repeat constructor.
    discriminate. }
  assert (Forall (fun r => validation.Severity r <> validation.Error)
            ((if (length (transaction.Entries tx) <? 2)%nat
              then [validation.mkValidationResult "TX_MIN_ENTRIES"
                      "Transaction must have at least two entries" validation.Error
                      "Entries" None]
              else []) ++
             (if String.eqb (transaction.Description tx) ""
              then [validation.mkValidationResult "TX_DESCRIPTION"
                      "Transaction should have a description" validation.Warning
                      "Description" None]
              else []) ++
             (if (0 <? length (transaction.Entries tx))%nat
                 && negb (decimal.Equal debits credits)
              then [validation.mkValidationResult "TX_BALANCE"
                      ("Transaction is not balanced: debits=" ++ decimalString debits
                       ++ ", credits=" ++ decimalString credits)
                      validation.Error "Entries" (Some (debits, credits))]
              else []))%list <->
          (2 <= length (transaction.Entries tx))%nat /\
          (transaction.sideTotal transaction.Debit (transaction.Entries tx) ==
           transaction.sideTotal transaction.Credit (transaction.Entries tx))%Q)
    as Hverdict.
  { rewrite <- Heq, !Forall_app.
    destruct (Nat.ltb_spec (length (transaction.Entries tx)) 2) as [Hlt|Hge].
    - split; [|intros [Hlen _]; lia].
      intros [Hmin _]. inversion Hmin as [|? ? Hsev _]; subst.
      cbn in Hsev. congruence.
    - destruct (Nat.ltb_spec 0 (length (transaction.Entries tx))) as [_|Hzero]; [|lia].
      destruct (decimal.Equal debits credits); cbn [andb negb].
      + split; [intros _; split; [exact Hge|reflexivity]|].
        intros _. split; [constructor|]. split; [exact Hwarn|constructor].
      + split; [|intros [_ Hf]; discriminate].
        intros (_ & _ & Hbal). inversion Hbal as [|? ? Hsev _]; subst.
        cbn in Hsev. congruence. }
  split; [exact Hverdict|]. split.
  - rewrite !Exists_app.
    destruct (String.eqb_spec (transaction.Description tx) "") as [Hdesc|Hdesc].
    + split; [intros _; exact Hdesc|]. intros _. right. left.
      apply Exists_cons_hd. reflexivity.
    + split; [|contradiction]. intros [Hmin|[Hnone|Hbal]].
      * destruct (length (transaction.Entries tx) <? 2)%nat;
          [inversion Hmin as [? ? Hc|? ? Hc]; subst; [discriminate|inversion Hc]
          |inversion Hmin].
      * inversion Hnone.
      * destruct ((0 <? length (transaction.Entries tx))%nat
                  && negb (decimal.Equal debits credits));
          [inversion Hbal as [? ? Hc|? ? Hc]; subst; [discriminate|inversion Hc]
          |inversion Hbal].
  - intros Hsided HV. apply Validate_verdict in HV as (Hlen & _ & _ & _ & Hbal).
    rewrite (nonDebitTotal_sided _ Hsided) in Hbal.
    pose proof (proj2 Hverdict (conj Hlen Hbal)) as Hclean.
    split; [exact Hclean|].
    unfold validation.Validate, validation.TransactionValidator.
    cbn [validation.runValidators validation.validate]. rewrite Hres.
    rewrite noteErrors_spec. cbn [app orb].
    rewrite bool_decide_eq_false_2; [reflexivity|].
    intros HE. apply Exists_exists in HE as (r & Hin & Hsev).
    rewrite Forall_forall in Hclean. exact (Hclean r Hin Hsev).
Qed.

(** X28. The validation engine, on a non-nil object whose validators all
    answer: it returns every result of every validator, in the order of
    the validators, and its error is a [ValidationError] carrying these
    same results exactly when one of them has severity Error; warnings and
    infos alone never fail a validation.  When a validator fails, the
    engine returns that error wrapped ("validator error") and no results,
    not even those already collected, and asks no later validator.  The
    nil object is refused before any validator runs. *)
Theorem engine_fails_iff_an_error_is_reported
  (validators : list validation.Validator) (obj : validation.Object) :
  (forall resultss : list (list validation.ValidationResult),
     Forall2 (fun v rs => validation.validate v obj = Returned (Ok rs))
       validators resultss ->
     validation.Validate validators (Some obj) =
       Returned (concat resultss,
                 if bool_decide (Exists (fun r => validation.Severity r =
                                                  validation.Error)
                                   (concat resultss))
                 then Some (validation.ValidationErrorOf (concat resultss))
                 else None)) /\
  (forall (done : list validation.Validator)
          (resultss : list (list validation.ValidationResult))
          (v : validation.Validator) (rest : list validation.Validator) (e : error),
     validators = (done ++ v :: rest)%list ->
     Forall2 (fun v rs => validation.validate v obj = Returned (Ok rs)) done resultss ->
     validation.validate v obj = Returned (Err e) ->
     validation.Validate validators (Some obj) =
       Returned ([], Some (validation.PlainError (wrapError "validator error" e)))) /\
  validation.Validate validators None =
    Returned ([], Some (validation.PlainError
                          (errorString "cannot validate nil object"))).
Proof.
  split; [|split; [|reflexivity]].
  - intros resultss Hall. unfold validation.Validate.
    rewrite (runValidators_ok obj validators resultss Hall [] false).
    cbn [app orb].
    destruct (bool_decide (Exists (fun r => validation.Severity r = validation.Error)
                             (concat resultss))); reflexivity.
  - intros done resultss v rest e -> Hdone Hv. unfold validation.Validate.
    rewrite (runValidators_fails obj done resultss v rest e Hdone Hv [] false).
    reflexivity.
Qed.

(** ** The report generator *)
Section GeneratorFacts.
Import money account reporting generator.

Lemma validateSection_None (section : ReportSection) :
  validateSection section = None <->
  Section_ID section <> "" /\ Section_Title section <> "" /\
  (AccountTypes section <> [] \/ Filters section <> []).
Proof.
  unfold validateSection.
  destruct (String.eqb_spec (Section_ID section) "") as [Hid|Hid];
    [split; [discriminate|intros [Hne _]; contradiction]|].
  destruct (String.eqb_spec (Section_Title section) "") as [Ht|Ht];
    [split; [discriminate|intros (_ & Hne & _); contradiction]|].
  destruct (AccountTypes section) as [|ty tys], (Filters section) as [|f fs];
    cbn [length Nat.eqb andb].
  - split; [discriminate|]. intros (_ & _ & [Hne|Hne]); contradiction.
  - split; [|reflexivity]. intros _. split; [exact Hid|]. split; [exact Ht|].
    right. discriminate.
  - split; [|reflexivity]. intros _. split; [exact Hid|]. split; [exact Ht|].
    left. discriminate.
  - split; [|reflexivity]. intros _. split; [exact Hid|]. split; [exact Ht|].
    left. discriminate.
Qed.

Lemma validateSections_None (sections : list ReportSection) :
  validateSections sections = None <->
  Forall (fun section => validateSection section = None) sections.
Proof.
  induction sections as [|section sections IH]; cbn [validateSections].
  - split; [constructor|reflexivity].
  - destruct (validateSection section) eqn:Hs.
    + split; [discriminate|]. intros HF. inversion HF; subst. congruence.
    + rewrite IH. split; [intros HF; constructor; assumption|].
      intros HF. inversion HF; subst. assumption.
Qed.

Lemma ValidateDefinition_None (def : option ReportDefinition) :
  ValidateDefinition def = None <->
  exists d,
    def = Some d /\ Def_Type d <> "" /\ Def_Name d <> "" /\ Sections d <> [] /\
    Forall (fun section =>
              Section_ID section <> "" /\ Section_Title section <> "" /\
              (AccountTypes section <> [] \/ Filters section <> []))
      (Sections d).
Proof.
  destruct def as [d|]; cbn [ValidateDefinition];
    [|split; [discriminate|intros (d & Hd & _); discriminate]].
  assert (Forall (fun section => validateSection section = None) (Sections d) <->
          Forall (fun section =>
                    Section_ID section <> "" /\ Section_Title section <> "" /\
                    (AccountTypes section <> [] \/ Filters section <> []))
            (Sections d)) as Hsec.
  { apply Forall_iff. intros section. apply validateSection_None. }
  destruct (String.eqb_spec (Def_Type d) "") as [Hty|Hty];
    [split; [discriminate|intros (d' & [= <-] & Hne & _); contradiction]|].
  destruct (String.eqb_spec (Def_Name d) "") as [Hn|Hn];
    [split; [discriminate|intros (d' & [= <-] & _ & Hne & _); contradiction]|].
  destruct (Sections d) as [|section sections] eqn:HS; cbn [length Nat.eqb].
  - split; [discriminate|intros (d' & [= <-] & _ & _ & Hne & _)].
    rewrite HS in Hne. contradiction.
  - rewrite validateSections_None, Hsec. split.
    + intros HF. exists d. rewrite HS. split; [reflexivity|]. split; [exact Hty|].
      split; [exact Hn|]. split; [discriminate|exact HF].
    + intros (d' & [= <-] & _ & _ & _ & HF). rewrite HS in HF. exact HF.
Qed.

Lemma processSections_fails (calculator : statements.ReportCalculator)
  (report : Report) (section : ReportSection) (sections : list ReportSection)
  (opts : ReportOptions) :
  processSections calculator report (section :: sections) opts =
    Returned (report,
              Some (wrapError ("error processing section " ++ Section_ID section)
                      (wrapError "error getting accounts"
                         (errorString "getAccountsForSection not implemented")))).
Proof. reflexivity. Qed.

End GeneratorFacts.

(** X29. A report definition passes [ValidateDefinition] exactly when it
    is not nil, has a type, a name and at least one section, and each
    section has an id, a title and account types or filters.
    [SaveDefinition] hands a definition to the storage exactly when it
    passes; otherwise it returns "invalid report definition" and the
    storage is not called, so its state is as it was. *)
Theorem only_complete_definitions_are_saved {Storage : Type}
  (saveDefinition : Storage -> option generator.ReportDefinition ->
                    Storage * option error)
  (st : Storage) (def : option generator.ReportDefinition) :
  let complete :=
    exists d,
      def = Some d /\ generator.Def_Type d <> "" /\ generator.Def_Name d <> "" /\
      generator.Sections d <> [] /\
      Forall (fun section =>
                generator.Section_ID section <> "" /\
                generator.Section_Title section <> "" /\
                (generator.AccountTypes section <> [] \/
                 generator.Filters section <> []))
        (generator.Sections d) in
  (generator.ValidateDefinition def = None <-> complete) /\
  (complete ->
   generator.SaveDefinition saveDefinition st def = saveDefinition st def) /\
  (~ complete ->
   exists e,
     generator.ValidateDefinition def = Some e /\
     generator.SaveDefinition saveDefinition st def =
       (st, Some (wrapError "invalid report definition" e))).
Proof.
  intros complete. split; [apply ValidateDefinition_None|]. split.
  - intros Hc. apply ValidateDefinition_None in Hc.
    unfold generator.SaveDefinition. rewrite Hc. reflexivity.
  - intros Hn. unfold generator.SaveDefinition.
    destruct (generator.ValidateDefinition def) as [e|] eqn:Hv.
    + exists e. split; reflexivity.
    + exfalso. apply Hn, ValidateDefinition_None. exact Hv.
Qed.

(** X30. [GenerateReport] never produces a report: whatever the
    calculator, the clock, the definition and the options, it returns an
    error.  A definition that fails [ValidateDefinition] is refused as
    "invalid report definition"; for one that passes, processing stops at
    its first section, because the account lookup of a section is not
    implemented, before the calculator is ever asked. *)
Theorem generate_report_never_succeeds
  (calculator : statements.ReportCalculator) (clk : Clock)
  (def : option generator.ReportDefinition) (opts : generator.ReportOptions) :
  match generator.ValidateDefinition def with
  | Some e =>
      generator.GenerateReport calculator clk def opts =
        Returned (Err (wrapError "invalid report definition" e))
  | None =>
      exists d section sections,
        def = Some d /\ generator.Sections d = section :: sections /\
        generator.GenerateReport calculator clk def opts =
          Returned (Err (wrapError ("error processing section "
                                    ++ generator.Section_ID section)
                           (wrapError "error getting accounts"
                              (errorString "getAccountsForSection not implemented"))))
  end.
Proof.
  destruct (generator.ValidateDefinition def) as [e|] eqn:Hv.
  - unfold generator.GenerateReport. rewrite Hv. reflexivity.
  - pose proof (proj1 (ValidateDefinition_None def) Hv) as (d & -> & _ & _ & Hne & _).
    destruct (generator.Sections d) as [|section sections] eqn:HS; [contradiction|].
    exists d, section, sections. split; [reflexivity|]. split; [exact HS|].
    unfold generator.GenerateReport. rewrite Hv, HS, processSections_fails.
    reflexivity.
Qed.
